(** * mcp-memory-sqlite: the knowledge-graph store and its text search

    A shallow embedding of the two [DatabaseManager] clients of the
    repository:

    - [TextClient]: the text-only client, the [DatabaseManager] that the
      server's [index.ts] calls (relevance-ranked, limited search; no
      embeddings);
    - [VecClient]: [src/db/client.ts], the client that keeps embeddings in
      the [entities_vec] virtual table of sqlite-vec.

    Both run prepared SQL statements against one SQLite connection opened
    with [foreign_keys = ON].  The statements are embedded as functions on
    an explicit [database] value (one list of rows per table, in rowid
    order); the JavaScript around them is embedded in a small state and
    exception monad, with [db.transaction] as rollback on a throw.

    What the model takes from SQLite and sqlite-vec:
    - foreign keys are enforced: a statement that inserts a row whose
      parent key is missing, or deletes a row that is still referenced,
      fails with [FOREIGN KEY constraint failed];
    - [INSERT OR IGNORE] skips a row that conflicts with a UNIQUE
      constraint; it does not cover foreign keys;
    - a table without AUTOINCREMENT numbers a new row one past its largest
      rowid; a [vec0] table numbers a row inserted without a rowid itself,
      one past the largest rowid it has handed out;
    - [LIKE] folds ASCII case, [%] and [_] are its wildcards and nothing
      escapes them unless an ESCAPE clause is given;
    - a SELECT without ORDER BY returns the rows in rowid order, and rows
      with equal ORDER BY keys come in that order.

    Conventions of the model:
    - a JavaScript string is a [string] whose characters stand for the code
      points U+0000..U+00FF;
    - a JavaScript [number] is a binary64 [float]; a result-count limit is
      an integer [Z];
    - a [Buffer] made from a [Float32Array] is the list of its binary32
      elements, each kept as the binary64 value it denotes;
    - [created_at] is the value of [CURRENT_TIMESTAMP] (seconds) supplied by
      the caller of an operation as [now];
    - the columns [id] and [created_at] of [observations] and [relations]
      are filled by their defaults and never read by the clients; the model
      keeps the rows in insertion order and leaves the two columns out. *)

From Stdlib Require Import ZArith List Bool Ascii String Lia Floats.
From Stdlib Require Import Sorting.Sorted Sorting.Permutation.
From Stdlib Require Import DecimalString.
Import ListNotations.

Local Open Scope string_scope.
Local Open Scope Z_scope.

Set Implicit Arguments.

(* ================================================================== *)
(** * JavaScript strings *)
(* ================================================================== *)

Module Js.

(** White space and line terminators of [String.prototype.trim] and of the
    regular expression class [\s], among the code points below 256. *)
Definition is_space (c : ascii) : bool :=
  let n := nat_of_ascii c in
  ((9 <=? n) && (n <=? 13) || (n =? 32) || (n =? 160))%nat.

Fixpoint trim_start (s : string) : string :=
  match s with
  | EmptyString => EmptyString
  | String c s' => if is_space c then trim_start s' else s
  end.

(** [trim_end] keeps a character when it is not white space or when
    something that is not white space follows it. *)
Fixpoint trim_end (s : string) : string :=
  match s with
  | EmptyString => EmptyString
  | String c s' =>
      match trim_end s' with
      | EmptyString => if is_space c then EmptyString else String c EmptyString
      | t => String c t
      end
  end.

Definition trim (s : string) : string := trim_end (trim_start s).

Definition is_empty (s : string) : bool :=
  match s with EmptyString => true | _ => false end.

(** [s.trim() === ''] *)
Definition blank (s : string) : bool := is_empty (trim s).

(** The character class [[\s_-]]. *)
Definition is_separator (c : ascii) : bool :=
  is_space c || Ascii.eqb c "_" || Ascii.eqb c "-".

(** [s.replace(/[\s_-]+/g, '%')]: every maximal run of separators becomes
    one [%].  [in_run] tells that the previous character was a separator,
    whose run has already been replaced. *)
Fixpoint replace_separator_runs (in_run : bool) (s : string) : string :=
  match s with
  | EmptyString => EmptyString
  | String c s' =>
      if is_separator c
      then if in_run then replace_separator_runs true s'
           else String "%" (replace_separator_runs true s')
      else String c (replace_separator_runs false s')
  end.

(** A [Set<string>], in insertion order; [set_add] is [Set.prototype.add]. *)
Definition set_add (x : string) (set : list string) : list string :=
  if existsb (String.eqb x) set then set else set ++ [x].

(** [n.toString()] of a length. *)
Definition string_of_nat (n : nat) : string :=
  NilZero.string_of_uint (Nat.to_uint n).

End Js.

(* ================================================================== *)
(** * SQLite text operators *)
(* ================================================================== *)

Module Sqlite.

(** ASCII case folding, the only one [LIKE] performs. *)
Definition to_lower (c : ascii) : ascii :=
  let n := nat_of_ascii c in
  if ((65 <=? n) && (n <=? 90))%nat then ascii_of_nat (n + 32) else c.

(** [s LIKE pattern]: [%] matches any run of characters, [_] any one
    character, every other character itself up to ASCII case.  No ESCAPE
    clause is given in the statements, so nothing quotes [%] or [_]. *)
Fixpoint like (pattern s : string) : bool :=
  match pattern with
  | EmptyString => Js.is_empty s
  | String p pattern' =>
      if Ascii.eqb p "%" then
        (fix any_run (t : string) : bool :=
           like pattern' t ||
           match t with
           | EmptyString => false
           | String _ t' => any_run t'
           end) s
      else
        match s with
        | EmptyString => false
        | String c s' =>
            (Ascii.eqb p "_" || Ascii.eqb (to_lower p) (to_lower c))
            && like pattern' s'
        end
  end.

(** [haystack] contains [needle] literally, up to ASCII case. *)
Fixpoint prefix_nocase (needle haystack : string) : bool :=
  match needle, haystack with
  | EmptyString, _ => true
  | String _ _, EmptyString => false
  | String a n', String b h' =>
      Ascii.eqb (to_lower a) (to_lower b) && prefix_nocase n' h'
  end.

Fixpoint contains_nocase (needle haystack : string) : bool :=
  prefix_nocase needle haystack ||
  match haystack with
  | EmptyString => false
  | String _ h' => contains_nocase needle h'
  end.

End Sqlite.

(* ================================================================== *)
(** * The database: tables, and the monad that runs the client code *)
(* ================================================================== *)

Module Db.

(** [entities]: [name TEXT PRIMARY KEY], so the table keeps an implicit
    integer [rowid] besides its three columns. *)
Record entity_row := {
  e_rowid : Z;
  e_name : string;
  e_entity_type : string;
  e_created_at : Z
}.

Record observation_row := {
  o_entity_name : string;
  o_content : string
}.

Record relation_row := {
  r_source : string;
  r_target : string;
  r_relation_type : string
}.

(** [entities_vec], a [vec0] table: a rowid and a [float[1536]] value. *)
Record vec_row := {
  v_rowid : Z;
  v_embedding : list float
}.

Record database := {
  entities : list entity_row;
  observations : list observation_row;
  relations : list relation_row;
  entities_vec : list vec_row;
  (** the largest rowid [entities_vec] has handed out *)
  vec_sequence : Z
}.

(** The tables right after [initialize]. *)
Definition empty : database :=
  {| entities := []; observations := []; relations := [];
     entities_vec := []; vec_sequence := 0 |}.

(** What a call leaves behind: a value or a thrown [Error] with its
    message. *)
Inductive result (A : Type) : Type :=
| Ok (a : A)
| Throw (message : string).
Arguments Ok {A} a.
Arguments Throw {A} message.

(** Client code: it reads and writes the database and may throw.  The
    database is returned in both cases: outside a transaction the writes
    made before a throw stay. *)
Definition M (A : Type) : Type := database -> result A * database.

Definition ret {A} (a : A) : M A := fun db => (Ok a, db).

Definition bind {A B} (m : M A) (k : A -> M B) : M B :=
  fun db =>
    match m db with
    | (Ok a, db') => k a db'
    | (Throw msg, db') => (Throw msg, db')
    end.

Definition throw {A} (msg : string) : M A := fun db => (Throw msg, db).

(** A statement that only reads. *)
Definition query {A} (f : database -> A) : M A := fun db => (Ok (f db), db).

(** A statement that writes and cannot fail. *)
Definition exec (f : database -> database) : M unit :=
  fun db => (Ok tt, f db).

(** [db.transaction(body)()]: commit when [body] returns, roll back to the
    state at BEGIN and rethrow when it throws. *)
Definition transaction {A} (body : M A) : M A :=
  fun db =>
    match body db with
    | (Ok a, db') => (Ok a, db')
    | (Throw msg, _) => (Throw msg, db)
    end.

(** [try { body } catch (error) { throw new Error(prefix + error.message) }] *)
Definition rethrow {A} (prefix : string) (body : M A) : M A :=
  fun db =>
    match body db with
    | (Ok a, db') => (Ok a, db')
    | (Throw msg, db') => (Throw (prefix ++ msg), db')
    end.

(** [try { body } catch (error) { }] around a value: the thrown error is
    dropped (after a [console.warn]) and the caller goes on. *)
Definition attempt {A} (body : M A) : M (option A) :=
  fun db =>
    match body db with
    | (Ok a, db') => (Ok (Some a), db')
    | (Throw _, db') => (Ok None, db')
    end.

(** [for (const x of xs) { f(x) }] *)
Fixpoint for_each {X} (f : X -> M unit) (xs : list X) : M unit :=
  match xs with
  | [] => ret tt
  | x :: xs' => bind (f x) (fun _ => for_each f xs')
  end.

End Db.

Declare Scope js_scope.
Delimit Scope js_scope with js.
Notation "x <- m ;; k" := (Db.bind m (fun x => k))
(at level 61, m at next level, right associativity) : js_scope.
Notation "m ;; k" := (Db.bind m (fun _ => k))
(at level 61, right associativity) : js_scope.
Notation "'when' b 'then' m" := (if b then m else Db.ret tt)
(at level 60, b at level 9, no associativity) : js_scope.

(* ================================================================== *)
(** * The prepared statements *)
(* ================================================================== *)

Module Sql.
Import Db.

Definition FOREIGN_KEY_failed : string := "FOREIGN KEY constraint failed".
Definition UNIQUE_failed_entities_name : string :=
  "UNIQUE constraint failed: entities.name".

Definition named (n : string) (e : entity_row) : bool :=
  String.eqb (e_name e) n.

Definition owned_by (n : string) (o : observation_row) : bool :=
  String.eqb (o_entity_name o) n.

Definition touches (n : string) (r : relation_row) : bool :=
  String.eqb (r_source r) n || String.eqb (r_target r) n.

Definition same_triple (s t ty : string) (r : relation_row) : bool :=
  String.eqb (r_source r) s && String.eqb (r_target r) t
  && String.eqb (r_relation_type r) ty.

(** [SELECT name, entity_type FROM entities WHERE name = ?], read with
    [.get]: the first row or [undefined]. *)
Definition select_entity (n : string) (db : database) : option entity_row :=
  find (named n) (entities db).

(** The parent-key lookup of the foreign keys that reference
    [entities(name)]. *)
Definition entity_exists (n : string) (db : database) : bool :=
  existsb (named n) (entities db).

(** The rowid SQLite gives a new row of a table without AUTOINCREMENT: one
    more than the largest rowid in the table, 1 when it is empty. *)
Definition next_rowid (db : database) : Z :=
  fold_right (fun e m => Z.max (e_rowid e) m) 0 (entities db) + 1.

(** [UPDATE entities SET entity_type = ? WHERE name = ?] *)
Definition update_entity_type (ty n : string) : M unit :=
  exec (fun db =>
    {| entities :=
         map (fun e =>
                if named n e
                then {| e_rowid := e_rowid e; e_name := e_name e;
                        e_entity_type := ty; e_created_at := e_created_at e |}
                else e) (entities db);
       observations := observations db;
       relations := relations db;
       entities_vec := entities_vec db;
       vec_sequence := vec_sequence db |}).

(** [INSERT INTO entities (name, entity_type) VALUES (?, ?)] *)
Definition insert_entity (now : Z) (n ty : string) : M unit :=
  fun db =>
    if entity_exists n db then (Throw UNIQUE_failed_entities_name, db)
    else
      (Ok tt,
       {| entities :=
            entities db ++
            [{| e_rowid := next_rowid db; e_name := n;
                e_entity_type := ty; e_created_at := now |}];
          observations := observations db;
          relations := relations db;
          entities_vec := entities_vec db;
          vec_sequence := vec_sequence db |}).

(** [DELETE FROM observations WHERE entity_name = ?] *)
Definition delete_observations (n : string) : M unit :=
  exec (fun db =>
    {| entities := entities db;
       observations := filter (fun o => negb (owned_by n o)) (observations db);
       relations := relations db;
       entities_vec := entities_vec db;
       vec_sequence := vec_sequence db |}).

(** [INSERT INTO observations (entity_name, content) VALUES (?, ?)];
    [entity_name] references [entities(name)]. *)
Definition insert_observation (n c : string) : M unit :=
  fun db =>
    if entity_exists n db then
      (Ok tt,
       {| entities := entities db;
          observations :=
            observations db ++ [{| o_entity_name := n; o_content := c |}];
          relations := relations db;
          entities_vec := entities_vec db;
          vec_sequence := vec_sequence db |})
    else (Throw FOREIGN_KEY_failed, db).

(** [SELECT content FROM observations WHERE entity_name = ?] *)
Definition select_observations (n : string) (db : database) : list string :=
  map o_content (filter (owned_by n) (observations db)).

(** [INSERT OR IGNORE INTO relations (source, target, relation_type)
    VALUES (?, ?, ?)].  OR IGNORE skips the row on a conflict with
    [UNIQUE(source, target, relation_type)]; it does not cover the two
    foreign keys, which are checked for a row that is inserted. *)
Definition insert_or_ignore_relation (s t ty : string) : M unit :=
  fun db =>
    if existsb (same_triple s t ty) (relations db) then (Ok tt, db)
    else if entity_exists s db && entity_exists t db then
      (Ok tt,
       {| entities := entities db;
          observations := observations db;
          relations :=
            relations db ++
            [{| r_source := s; r_target := t; r_relation_type := ty |}];
          entities_vec := entities_vec db;
          vec_sequence := vec_sequence db |})
    else (Throw FOREIGN_KEY_failed, db).

(** [DELETE FROM relations WHERE source = ? OR target = ?] *)
Definition delete_relations_touching (n : string) : M unit :=
  exec (fun db =>
    {| entities := entities db;
       observations := observations db;
       relations := filter (fun r => negb (touches n r)) (relations db);
       entities_vec := entities_vec db;
       vec_sequence := vec_sequence db |}).

(** [DELETE FROM entities WHERE name = ?]; the statement fails when a row
    of [observations] or [relations] still references the name. *)
Definition delete_entity_row (n : string) : M unit :=
  fun db =>
    if entity_exists n db
       && (existsb (owned_by n) (observations db)
           || existsb (touches n) (relations db))
    then (Throw FOREIGN_KEY_failed, db)
    else
      (Ok tt,
       {| entities := filter (fun e => negb (named n e)) (entities db);
          observations := observations db;
          relations := relations db;
          entities_vec := entities_vec db;
          vec_sequence := vec_sequence db |}).

(** [DELETE FROM relations WHERE source = ? AND target = ? AND
    relation_type = ?]; the value is [result.changes], the number of rows
    deleted. *)
Definition delete_relation (s t ty : string) : M nat :=
  fun db =>
    (Ok (List.length (filter (same_triple s t ty) (relations db))),
     {| entities := entities db;
        observations := observations db;
        relations :=
          filter (fun r => negb (same_triple s t ty r)) (relations db);
        entities_vec := entities_vec db;
        vec_sequence := vec_sequence db |}).

(** [SELECT source as from_entity, target as to_entity, relation_type
    FROM relations WHERE source IN (...) OR target IN (...)] *)
Definition select_relations_touching (names : list string) (db : database)
  : list relation_row :=
  filter (fun r => existsb (String.eqb (r_source r)) names
                   || existsb (String.eqb (r_target r)) names)
         (relations db).

(** [ORDER BY created_at DESC]: the row [r] is put before the first row
    that is not more recent than it. *)
Fixpoint insert_recent (r : entity_row) (sorted : list entity_row)
  : list entity_row :=
  match sorted with
  | [] => [r]
  | r' :: sorted' =>
      if e_created_at r' <=? e_created_at r then r :: sorted
      else r' :: insert_recent r sorted'
  end.

Fixpoint by_recency (rows : list entity_row) : list entity_row :=
  match rows with
  | [] => []
  | r :: rows' => insert_recent r (by_recency rows')
  end.

(** [SELECT name, entity_type FROM entities ORDER BY created_at DESC
    LIMIT ?]; a negative bound means no bound. *)
Definition select_recent (n : Z) (db : database) : list entity_row :=
  if n <? 0 then by_recency (entities db)
  else firstn (Z.to_nat n) (by_recency (entities db)).

End Sql.

(* ================================================================== *)
(** * The search statement of the text-only client *)
(* ================================================================== *)

Module Search.
Import Db.

(** A row of the result: [e.name], [e.entity_type], [e.created_at] and the
    computed [relevance_score]. *)
Record row := {
  s_name : string;
  s_entity_type : string;
  s_created_at : Z;
  s_relevance_score : Z
}.

(** [FROM entities e LEFT JOIN observations o ON e.name = o.entity_name]:
    one row per owned observation, and one row with a NULL [o] for an
    entity that owns none. *)
Definition left_join_observations (db : database)
  : list (entity_row * option observation_row) :=
  flat_map
    (fun e =>
       match filter (Sql.owned_by (e_name e)) (observations db) with
       | [] => [(e, None)]
       | os => map (fun o => (e, Some o)) os
       end)
    (entities db).

(** [WHERE e.name LIKE ? OR e.entity_type LIKE ? OR o.content LIKE ?];
    [NULL LIKE ?] is not true. *)
Definition where_clause (pattern : string)
  (eo : entity_row * option observation_row) : bool :=
  Sqlite.like pattern (e_name (fst eo))
  || Sqlite.like pattern (e_entity_type (fst eo))
  || match snd eo with
     | Some o => Sqlite.like pattern (o_content o)
     | None => false
     end.

(** [CASE WHEN e.name LIKE ? THEN 3 WHEN e.entity_type LIKE ? THEN 2
    ELSE 1 END] *)
Definition relevance_score (pattern : string) (e : entity_row) : Z :=
  if Sqlite.like pattern (e_name e) then 3
  else if Sqlite.like pattern (e_entity_type e) then 2
  else 1.

Definition select_columns (pattern : string)
  (eo : entity_row * option observation_row) : row :=
  {| s_name := e_name (fst eo);
     s_entity_type := e_entity_type (fst eo);
     s_created_at := e_created_at (fst eo);
     s_relevance_score := relevance_score pattern (fst eo) |}.

Definition row_eqb (a b : row) : bool :=
  String.eqb (s_name a) (s_name b)
  && String.eqb (s_entity_type a) (s_entity_type b)
  && (s_created_at a =? s_created_at b)
  && (s_relevance_score a =? s_relevance_score b).

(** [SELECT DISTINCT]: a row is kept once. *)
Fixpoint distinct (rows : list row) : list row :=
  match rows with
  | [] => []
  | r :: rows' => r :: filter (fun r' => negb (row_eqb r r')) (distinct rows')
  end.

(** [ORDER BY relevance_score DESC, e.created_at DESC]: [a] may stand
    before [b]. *)
Definition order_by (a b : row) : bool :=
  (s_relevance_score b <? s_relevance_score a)
  || ((s_relevance_score a =? s_relevance_score b)
      && (s_created_at b <=? s_created_at a)).

Fixpoint insert_sorted (r : row) (sorted : list row) : list row :=
  match sorted with
  | [] => [r]
  | r' :: sorted' =>
      if order_by r r' then r :: sorted
      else r' :: insert_sorted r sorted'
  end.

(** The sort of the statement; rows with equal keys keep the order in which
    the scan produced them. *)
Fixpoint sort (rows : list row) : list row :=
  match rows with
  | [] => []
  | r :: rows' => insert_sorted r (sort rows')
  end.

(** [LIMIT ?]; a negative bound means no bound. *)
Definition limit (n : Z) (rows : list row) : list row :=
  if n <? 0 then rows else firstn (Z.to_nat n) rows.

(** The whole statement.  Its five pattern placeholders are bound to the
    same value by the client, [pattern] here. *)
Definition statement (pattern : string) (n : Z) (db : database) : list row :=
  limit n
    (sort
       (distinct
          (map (select_columns pattern)
               (filter (where_clause pattern) (left_join_observations db))))).

End Search.

(* ================================================================== *)
(** * The text-only client *)
(* ================================================================== *)

(** The messages of the errors the clients throw.  [quoted n] is the name
    between double quotes. *)
Module Messages.

Definition quoted (n : string) : string :=
  String (ascii_of_nat 34) n ++ String (ascii_of_nat 34) EmptyString.

Definition invalid_name : string := "Entity name must be a non-empty string".

Definition invalid_type (n : string) : string :=
  "Invalid entity type for entity " ++ quoted n.

Definition no_observation (n : string) : string :=
  "Entity " ++ quoted n ++ " must have at least one observation".

Definition invalid_observations (n : string) : string :=
  "Entity " ++ quoted n
  ++ " has invalid observations. All observations must be non-empty strings".

Definition entity_not_found (n : string) : string := "Entity not found: " ++ n.

Definition dimension_mismatch (expected received : nat) : string :=
  "Vector dimension mismatch: expected " ++ Js.string_of_nat expected
  ++ " dimensions (compatible with OpenAI ada-002/ada-003-small), but received "
  ++ Js.string_of_nat received
  ++ ". Please use " ++ Js.string_of_nat expected
  ++ "-dimensional embeddings or omit the embedding parameter to skip vector search for this entity.".

Definition entity_operation_failed : string := "Entity operation failed: ".
Definition failed_to_create_relations : string := "Failed to create relations: ".
Definition failed_to_delete_entity (n : string) : string :=
  "Failed to delete entity " ++ quoted n ++ ": ".
Definition relation_not_found (s t ty : string) : string :=
  "Relation not found: " ++ s ++ " -> " ++ t ++ " (" ++ ty ++ ")".
Definition failed_to_delete_relation : string := "Failed to delete relation: ".
Definition node_search_failed : string := "Node search failed: ".
Definition empty_query : string := "Text query cannot be empty".

End Messages.

Module TextClient.
Local Open Scope js_scope.

Record Entity := {
  name : string;
  entityType : string;
  observations : list string
}.

Record Relation := {
  from : string;
  to : string;
  relationType : string
}.

Record Graph := {
  entities : list Entity;
  relations : list Relation
}.

Definition is_nil {A} (l : list A) : bool :=
  match l with [] => true | _ => false end.

(** The body of the loop of [create_entities], for one [entity]. *)
Definition upsert_entity (now : Z) (entity : Entity) : Db.M unit :=
  (* Validate entity name *)
  when (Js.is_empty (name entity) || Js.blank (name entity))
  then Db.throw Messages.invalid_name ;;
  (* Validate entity type *)
  when (Js.is_empty (entityType entity) || Js.blank (entityType entity))
  then Db.throw (Messages.invalid_type (name entity)) ;;
  (* Validate observations *)
  when (is_nil (observations entity))
  then Db.throw (Messages.no_observation (name entity)) ;;
  when (negb (forallb (fun obs => negb (Js.blank obs)) (observations entity)))
  then Db.throw (Messages.invalid_observations (name entity)) ;;
  (* Check if entity exists *)
  existing <- Db.query (Sql.select_entity (name entity)) ;;
  match existing with
  | Some _ => Sql.update_entity_type (entityType entity) (name entity)
  | None => Sql.insert_entity now (name entity) (entityType entity)
  end ;;
  (* Clear old observations *)
  Sql.delete_observations (name entity) ;;
  (* Add new observations *)
  Db.for_each
    (fun observation => Sql.insert_observation (name entity) observation)
    (observations entity).

Definition create_entities (now : Z) (entities : list Entity) : Db.M unit :=
  Db.rethrow Messages.entity_operation_failed
    (Db.transaction (Db.for_each (upsert_entity now) entities)).

Definition get_entity (n : string) : Db.M Entity :=
  entity_result <- Db.query (Sql.select_entity n) ;;
  match entity_result with
  | None => Db.throw (Messages.entity_not_found n)
  | Some r =>
      observations_result <- Db.query (Sql.select_observations n) ;;
      Db.ret {| name := Db.e_name r;
                entityType := Db.e_entity_type r;
                observations := observations_result |}
  end.

(** The parameter default [limit: number = 10]: it replaces an argument
    that is left out ([undefined]). *)
Definition default_limit (limit : option Z) : Z :=
  match limit with Some l => l | None => 10 end.

(** [Math.min(Math.max(1, limit), 50)] *)
Definition effective_limit (limit : Z) : Z := Z.min (Z.max 1 limit) 50.

Definition normalized_query (query : string) : string :=
  Js.replace_separator_runs false query.

Definition search_pattern (query : string) : string :=
  "%" ++ normalized_query query ++ "%".

Definition search_entities (query : string) (limit : option Z)
  : Db.M (list Entity) :=
  results <- Db.query (Search.statement
                         (search_pattern query)
                         (effective_limit (default_limit limit))) ;;
  Db.query (fun db =>
    map (fun r =>
           {| name := Search.s_name r;
              entityType := Search.s_entity_type r;
              observations := Sql.select_observations (Search.s_name r) db |})
        results).

Definition create_relations (relations : list Relation) : Db.M unit :=
  Db.rethrow Messages.failed_to_create_relations
    (if is_nil relations then Db.ret tt
     else
       Db.transaction
         (Db.for_each
            (fun relation =>
               Sql.insert_or_ignore_relation
                 (from relation) (to relation) (relationType relation))
            relations)).

Definition delete_entity (n : string) : Db.M unit :=
  Db.rethrow (Messages.failed_to_delete_entity n)
    (existing <- Db.query (Sql.select_entity n) ;;
     match existing with
     | None => Db.throw (Messages.entity_not_found n)
     | Some _ =>
         Db.transaction
           (Sql.delete_observations n ;;
            Sql.delete_relations_touching n ;;
            Sql.delete_entity_row n)
     end).

Definition delete_relation (source target type : string) : Db.M unit :=
  Db.rethrow Messages.failed_to_delete_relation
    (changes <- Sql.delete_relation source target type ;;
     when (changes =? 0)%nat
     then Db.throw (Messages.relation_not_found source target type)).

Definition get_relations_for_entities (entities : list Entity)
  : Db.M (list Relation) :=
  if is_nil entities then Db.ret []
  else
    results <- Db.query (Sql.select_relations_touching (map name entities)) ;;
    Db.ret (map (fun r => {| from := Db.r_source r;
                             to := Db.r_target r;
                             relationType := Db.r_relation_type r |})
                results).

Definition search_nodes (query : string) (limit : option Z) : Db.M Graph :=
  Db.rethrow Messages.node_search_failed
    (when (Js.blank query) then Db.throw Messages.empty_query ;;
     entities <- search_entities query (Some (default_limit limit)) ;;
     if is_nil entities then Db.ret {| entities := []; relations := [] |}
     else
       relations <- get_relations_for_entities entities ;;
       Db.ret {| entities := entities; relations := relations |}).

Definition get_recent_entities (limit : option Z) : Db.M (list Entity) :=
  results <- Db.query (Sql.select_recent (default_limit limit)) ;;
  Db.query (fun db =>
    map (fun r =>
           {| name := Db.e_name r;
              entityType := Db.e_entity_type r;
              observations := Sql.select_observations (Db.e_name r) db |})
        results).

Definition read_graph : Db.M Graph :=
  recent_entities <- get_recent_entities None ;;
  relations <- get_relations_for_entities recent_entities ;;
  Db.ret {| entities := recent_entities; relations := relations |}.

(** The result of [get_entity_with_relations]. *)
Module Neighborhood.
Record t := {
  entity : Entity;
  relations : list Relation;
  relatedEntities : list Entity
}.
End Neighborhood.

(** The first loop of [get_entity_with_relations]: the names of the other
    ends of the relations, each once. *)
Definition related_names (n : string) (relations : list Relation)
  : list string :=
  fold_left
    (fun set rel =>
       let set1 :=
         if negb (String.eqb (from rel) n) then Js.set_add (from rel) set
         else set in
       if negb (String.eqb (to rel) n) then Js.set_add (to rel) set1
       else set1)
    relations [].

(** The second loop: every related entity that [get_entity] finds is
    pushed; one that it does not find is skipped. *)
Fixpoint fetch_related (names : list string) (relatedEntities : list Entity)
  : Db.M (list Entity) :=
  match names with
  | [] => Db.ret relatedEntities
  | related_name :: names' =>
      found <- Db.attempt (get_entity related_name) ;;
      match found with
      | Some related_entity =>
          fetch_related names' (relatedEntities ++ [related_entity])
      | None => fetch_related names' relatedEntities
      end
  end.

Definition get_entity_with_relations (n : string) : Db.M Neighborhood.t :=
  (* Get the main entity *)
  entity <- get_entity n ;;
  (* Get all relations where this entity is source or target *)
  relations <- get_relations_for_entities [entity] ;;
  (* Fetch all related entities *)
  relatedEntities <- fetch_related (related_names n relations) [] ;;
  Db.ret {| Neighborhood.entity := entity;
            Neighborhood.relations := relations;
            Neighborhood.relatedEntities := relatedEntities |}.

End TextClient.

(* ================================================================== *)
(** * The statements on [entities_vec] *)
(* ================================================================== *)

Module SqlVec.
Import Db.

(** The scalar subquery [(SELECT rowid FROM entities WHERE name = ?)]:
    NULL when no entity has the name. *)
Definition rowid_of_entity (n : string) (db : database) : option Z :=
  option_map e_rowid (Sql.select_entity n db).

Definition at_rowid (rowid : option Z) (v : vec_row) : bool :=
  match rowid with
  | Some i => v_rowid v =? i
  | None => false
  end.

(** [SELECT rowid FROM entities_vec WHERE rowid =
    (SELECT rowid FROM entities WHERE name = ?)] *)
Definition select_vec_rowid (n : string) (db : database) : option Z :=
  option_map v_rowid (find (at_rowid (rowid_of_entity n db)) (entities_vec db)).

(** [UPDATE entities_vec SET embedding = ? WHERE rowid =
    (SELECT rowid FROM entities WHERE name = ?)] *)
Definition update_vec (buffer : list float) (n : string) : M unit :=
  exec (fun db =>
    {| entities := entities db;
       observations := observations db;
       relations := relations db;
       entities_vec :=
         map (fun v =>
                if at_rowid (rowid_of_entity n db) v
                then {| v_rowid := v_rowid v; v_embedding := buffer |}
                else v) (entities_vec db);
       vec_sequence := vec_sequence db |}).

(** [INSERT INTO entities_vec (embedding) VALUES (?)]: no rowid is given,
    so the table numbers the row itself, one past the largest rowid it has
    handed out. *)
Definition insert_vec (buffer : list float) : M unit :=
  exec (fun db =>
    {| entities := entities db;
       observations := observations db;
       relations := relations db;
       entities_vec :=
         entities_vec db ++
         [{| v_rowid := vec_sequence db + 1; v_embedding := buffer |}];
       vec_sequence := vec_sequence db + 1 |}).

(** [DELETE FROM entities_vec WHERE rowid =
    (SELECT rowid FROM entities WHERE name = ?)] *)
Definition delete_vec (n : string) : M unit :=
  exec (fun db =>
    {| entities := entities db;
       observations := observations db;
       relations := relations db;
       entities_vec :=
         filter (fun v => negb (at_rowid (rowid_of_entity n db) v))
                (entities_vec db);
       vec_sequence := vec_sequence db |}).

(** [SELECT v.embedding FROM entities_vec v INNER JOIN entities e
    ON v.rowid = e.rowid WHERE e.name = ?], read with [.get]. *)
Definition select_embedding (n : string) (db : database)
  : option (list float) :=
  option_map v_embedding
    (find (at_rowid (rowid_of_entity n db)) (entities_vec db)).

(** [SELECT DISTINCT e.name, e.entity_type FROM entities e
    LEFT JOIN observations o ON e.name = o.entity_name
    WHERE e.name LIKE ? OR e.entity_type LIKE ? OR o.content LIKE ?];
    the rows come in scan order. *)
Fixpoint distinct_pairs (rows : list (string * string))
  : list (string * string) :=
  match rows with
  | [] => []
  | r :: rows' =>
      r :: filter (fun r' => negb (String.eqb (fst r) (fst r')
                                   && String.eqb (snd r) (snd r')))
                  (distinct_pairs rows')
  end.

Definition search (pattern : string) (db : database)
  : list (string * string) :=
  distinct_pairs
    (map (fun eo => (e_name (fst eo), e_entity_type (fst eo)))
         (filter (Search.where_clause pattern)
                 (Search.left_join_observations db))).

End SqlVec.

(* ================================================================== *)
(** * The client with embeddings, [src/db/client.ts] *)
(* ================================================================== *)

Module VecClient.
Local Open Scope js_scope.

Record Entity := {
  name : string;
  entityType : string;
  observations : list string;
  embedding : option (list float)
}.

Record Relation := {
  from : string;
  to : string;
  relationType : string;
  relation_embedding : option (list float)
}.

Definition VECTOR_DIMENSIONS : nat := 1536.

(** The element conversion of [new Float32Array(numbers)], read back as a
    number: round to nearest binary32, ties to even. *)
Definition to_float32 (n : float) : float :=
  match Prim2SF n with
  | S754_finite s m e => SF2Prim (binary_round 24 128 s m e)
  | _ => n
  end.

(** [vector_to_buffer]; the [console.warn] of the sanitizing step is left
    out. *)
Definition vector_to_buffer (numbers : option (list float))
  : Db.M (option (list float)) :=
  match numbers with
  | None => Db.ret None
  | Some numbers =>
      if negb (List.length numbers =? VECTOR_DIMENSIONS)%nat then
        Db.throw (Messages.dimension_mismatch VECTOR_DIMENSIONS
                                              (List.length numbers))
      else
        let sanitized_numbers :=
          map (fun n =>
                 if PrimFloat.is_nan n || negb (PrimFloat.is_finite n)
                 then 0%float else n)
              numbers in
        Db.ret (Some (map to_float32 sanitized_numbers))
  end.

Definition buffer_to_vector (buffer : option (list float))
  : option (list float) :=
  match buffer with
  | None => None
  | Some float32Array => Some float32Array
  end.

(** The body of the loop of [create_entities], for one [entity]. *)
Definition upsert_entity (now : Z) (entity : Entity) : Db.M unit :=
  (* Validate entity name *)
  when (Js.is_empty (name entity) || Js.blank (name entity))
  then Db.throw Messages.invalid_name ;;
  (* Validate entity type *)
  when (Js.is_empty (entityType entity) || Js.blank (entityType entity))
  then Db.throw (Messages.invalid_type (name entity)) ;;
  (* Validate observations *)
  when (TextClient.is_nil (observations entity))
  then Db.throw (Messages.no_observation (name entity)) ;;
  when (negb (forallb (fun obs => negb (Js.blank obs)) (observations entity)))
  then Db.throw (Messages.invalid_observations (name entity)) ;;
  (* Check if entity exists *)
  existing <- Db.query (Sql.select_entity (name entity)) ;;
  match existing with
  | Some _ => Sql.update_entity_type (entityType entity) (name entity)
  | None => Sql.insert_entity now (name entity) (entityType entity)
  end ;;
  (* Handle vector embedding *)
  match embedding entity with
  | Some _ =>
      vector_buffer <- vector_to_buffer (embedding entity) ;;
      match vector_buffer with
      | Some buffer =>
          (* Check if vector exists *)
          existing_vec <- Db.query (SqlVec.select_vec_rowid (name entity)) ;;
          match existing_vec with
          | Some _ => SqlVec.update_vec buffer (name entity)
          | None => SqlVec.insert_vec buffer
          end
      | None => Db.ret tt
      end
  | None => Db.ret tt
  end ;;
  (* Clear old observations *)
  Sql.delete_observations (name entity) ;;
  (* Add new observations *)
  Db.for_each
    (fun observation => Sql.insert_observation (name entity) observation)
    (observations entity).

Definition create_entities (now : Z) (entities : list Entity) : Db.M unit :=
  Db.rethrow Messages.entity_operation_failed
    (Db.transaction (Db.for_each (upsert_entity now) entities)).

Definition get_entity (n : string) : Db.M Entity :=
  entity_result <- Db.query (Sql.select_entity n) ;;
  match entity_result with
  | None => Db.throw (Messages.entity_not_found n)
  | Some r =>
      observations_result <- Db.query (Sql.select_observations n) ;;
      vec_result <- Db.query (SqlVec.select_embedding n) ;;
      Db.ret {| name := Db.e_name r;
                entityType := Db.e_entity_type r;
                observations := observations_result;
                embedding := buffer_to_vector vec_result |}
  end.

Definition search_entities (query : string) : Db.M (list Entity) :=
  results <- Db.query (SqlVec.search ("%" ++ query ++ "%")) ;;
  Db.query (fun db =>
    map (fun r =>
           {| name := fst r;
              entityType := snd r;
              observations := Sql.select_observations (fst r) db;
              embedding := buffer_to_vector (SqlVec.select_embedding (fst r) db) |})
        results).

Definition create_relations (relations : list Relation) : Db.M unit :=
  Db.rethrow Messages.failed_to_create_relations
    (if TextClient.is_nil relations then Db.ret tt
     else
       Db.transaction
         (Db.for_each
            (fun relation =>
               Sql.insert_or_ignore_relation
                 (from relation) (to relation) (relationType relation))
            relations)).

Definition delete_entity (n : string) : Db.M unit :=
  Db.rethrow (Messages.failed_to_delete_entity n)
    (existing <- Db.query (Sql.select_entity n) ;;
     match existing with
     | None => Db.throw (Messages.entity_not_found n)
     | Some _ =>
         Db.transaction
           (Sql.delete_observations n ;;
            Sql.delete_relations_touching n ;;
            SqlVec.delete_vec n ;;
            Sql.delete_entity_row n)
     end).

Definition delete_relation (source target type : string) : Db.M unit :=
  Db.rethrow Messages.failed_to_delete_relation
    (changes <- Sql.delete_relation source target type ;;
     when (changes =? 0)%nat
     then Db.throw (Messages.relation_not_found source target type)).

End VecClient.

(* ================================================================== *)
(** * The tool handlers of the server, [index.ts] *)
(* ================================================================== *)

Module Server.
Local Open Scope js_scope.

(** [JSON.stringify] of a string: the quoted string with the escapes of
    JSON. *)
Definition hex_digit (n : nat) : ascii :=
  if (n <? 10)%nat then ascii_of_nat (48 + n) else ascii_of_nat (87 + n).

Definition escape (c : ascii) : string :=
  let n := nat_of_ascii c in
  let backslash := ascii_of_nat 92 in
  if (n =? 8)%nat then String backslash "b"
  else if (n =? 9)%nat then String backslash "t"
  else if (n =? 10)%nat then String backslash "n"
  else if (n =? 12)%nat then String backslash "f"
  else if (n =? 13)%nat then String backslash "r"
  else if (n =? 34)%nat then String backslash (String c EmptyString)
  else if (n =? 92)%nat then String backslash (String c EmptyString)
  else if (n <? 32)%nat then
    String backslash
      (String "u" (String "0" (String "0"
         (String (hex_digit (n / 16))
                 (String (hex_digit (n mod 16)) EmptyString)))))
  else String c EmptyString.

Fixpoint escape_all (s : string) : string :=
  match s with
  | EmptyString => EmptyString
  | String c s' => escape c ++ escape_all s'
  end.

Definition json_string (s : string) : string :=
  Messages.quoted (escape_all s).

(** The answer of a tool: the text of its one content item, and
    [isError]. *)
Record Response := {
  text : string;
  isError : bool
}.

Definition newline : string := String (ascii_of_nat 10) EmptyString.

(** [JSON.stringify({ error: 'internal_error', message }, null, 2)] *)
Definition error_text (message : string) : string :=
  "{" ++ newline
  ++ "  " ++ Messages.quoted "error" ++ ": "
  ++ json_string "internal_error" ++ "," ++ newline
  ++ "  " ++ Messages.quoted "message" ++ ": "
  ++ json_string message ++ newline
  ++ "}".

(** [try { ... return { content: [{ type: 'text', text }] } }
    catch (error) { return { content: [...], isError: true } }]: a handler
    returns an answer in both cases. *)
Definition respond (body : Db.M string)
  : Db.database -> Response * Db.database :=
  fun db =>
    match body db with
    | (Db.Ok t, db') => ({| text := t; isError := false |}, db')
    | (Db.Throw message, db') =>
        ({| text := error_text message; isError := true |}, db')
    end.

(** The items of [CreateRelationsSchema]. *)
Record RelationArgument := {
  source : string;
  target : string;
  type : string
}.

Definition create_entities_tool (now : Z) (entities : list TextClient.Entity)
  : Db.database -> Response * Db.database :=
  respond
    (TextClient.create_entities now entities ;;
     Db.ret ("Successfully processed "
             ++ Js.string_of_nat (List.length entities)
             ++ " entities (created new or updated existing)")).

Definition create_relations_tool (relations : list RelationArgument)
  : Db.database -> Response * Db.database :=
  respond
    ((* Convert to internal Relation type *)
     let internalRelations :=
       map (fun r => {| TextClient.from := source r;
                        TextClient.to := target r;
                        TextClient.relationType := type r |})
           relations in
     TextClient.create_relations internalRelations ;;
     Db.ret ("Created " ++ Js.string_of_nat (List.length relations)
             ++ " relations")).

Definition delete_entity_tool (n : string)
  : Db.database -> Response * Db.database :=
  respond
    (TextClient.delete_entity n ;;
     Db.ret ("Successfully deleted entity " ++ Messages.quoted n
             ++ " and its associated data")).

Definition delete_relation_tool (s t ty : string)
  : Db.database -> Response * Db.database :=
  respond
    (TextClient.delete_relation s t ty ;;
     Db.ret ("Successfully deleted relation: " ++ s ++ " -> " ++ t
             ++ " (" ++ ty ++ ")")).

End Server.

(* ================================================================== *)
(** * Vocabulary of the statements *)
(* ================================================================== *)

Module Spec.

(** An item of the text-only client seen as an item of the client with
    embeddings: no embedding is supplied. *)
Definition without_embedding (e : TextClient.Entity) : VecClient.Entity :=
  {| VecClient.name := TextClient.name e;
     VecClient.entityType := TextClient.entityType e;
     VecClient.observations := TextClient.observations e;
     VecClient.embedding := None |}.

(** The message of the first validation check an item fails, in the order
    of the checks: name, type, presence of observations, each observation. *)
Definition validation_error (n ty : string) (obs : list string)
  : option string :=
  if Js.blank n then Some Messages.invalid_name
  else if Js.blank ty then Some (Messages.invalid_type n)
  else match obs with
       | [] => Some (Messages.no_observation n)
       | _ =>
           if forallb (fun o => negb (Js.blank o)) obs then None
           else Some (Messages.invalid_observations n)
       end.

(** An item the batch upsert must refuse: an empty or blank name, an empty
    or blank type, no observation, or an observation that is empty. *)
Definition invalid_item (n ty : string) (obs : list string) : Prop :=
  n = "" \/ Js.blank n = true \/ ty = "" \/ Js.blank ty = true
  \/ obs = [] \/ In "" obs.

(** The embedding of an item has the configured dimension when there is
    one. *)
Definition dimension_ok (embedding : option (list float)) : bool :=
  match embedding with
  | None => true
  | Some numbers => (List.length numbers =? VecClient.VECTOR_DIMENSIONS)%nat
  end.

(** The message of the first check an item of the client with embeddings
    fails: the four validations, then the dimension of the embedding. *)
Definition rejection (e : VecClient.Entity) : option string :=
  match validation_error (VecClient.name e) (VecClient.entityType e)
                         (VecClient.observations e) with
  | Some m => Some m
  | None =>
      match VecClient.embedding e with
      | Some numbers =>
          if (List.length numbers =? VecClient.VECTOR_DIMENSIONS)%nat then None
          else Some (Messages.dimension_mismatch VecClient.VECTOR_DIMENSIONS
                                                 (List.length numbers))
      | None => None
      end
  end.

(** [m] is the message of one of the four validation errors of an item
    named [n]. *)
Definition validation_message (n m : string) : Prop :=
  m = Messages.invalid_name \/ m = Messages.invalid_type n
  \/ m = Messages.no_observation n \/ m = Messages.invalid_observations n.

(** [m] is the message of the dimension check on [embedding]. *)
Definition dimension_message (embedding : option (list float)) (m : string)
  : Prop :=
  exists numbers,
    embedding = Some numbers
    /\ List.length numbers <> VecClient.VECTOR_DIMENSIONS
    /\ m = Messages.dimension_mismatch VecClient.VECTOR_DIMENSIONS
                                       (List.length numbers).

(** A row after [UPDATE entities SET entity_type = ty WHERE name = n]. *)
Definition retyped (n ty : string) (e : Db.entity_row) : Db.entity_row :=
  if Sql.named n e
  then {| Db.e_rowid := Db.e_rowid e; Db.e_name := Db.e_name e;
          Db.e_entity_type := ty; Db.e_created_at := Db.e_created_at e |}
  else e.

(** The [entities] table after the upsert of the row [(n, ty)] at time
    [now]: the type is updated in place when the name is there, a row is
    appended otherwise. *)
Definition upserted_rows (now : Z) (n ty : string) (db : Db.database)
  : list Db.entity_row :=
  match Sql.select_entity n db with
  | Some _ => map (retyped n ty) (Db.entities db)
  | None =>
      Db.entities db ++
      [{| Db.e_rowid := Sql.next_rowid db; Db.e_name := n;
          Db.e_entity_type := ty; Db.e_created_at := now |}]
  end.

(** The [observations] table after the observations of [n] are replaced by
    [obs]. *)
Definition replaced_observations (n : string) (obs : list string)
  (db : Db.database) : list Db.observation_row :=
  filter (fun o => negb (Sql.owned_by n o)) (Db.observations db)
  ++ map (fun c => {| Db.o_entity_name := n; Db.o_content := c |}) obs.

(** The database after the entity [n] is deleted with everything that
    names it; [vec] is what is left of [entities_vec]. *)
Definition without_entity (n : string) (vec : list Db.vec_row)
  (db : Db.database) : Db.database :=
  {| Db.entities := filter (fun e => negb (Sql.named n e)) (Db.entities db);
     Db.observations :=
       filter (fun o => negb (Sql.owned_by n o)) (Db.observations db);
     Db.relations :=
       filter (fun r => negb (Sql.touches n r)) (Db.relations db);
     Db.entities_vec := vec;
     Db.vec_sequence := Db.vec_sequence db |}.

(** No row of [db] names [n]: no entity, no observation, and no relation as
    source or as target. *)
Definition no_trace (n : string) (db : Db.database) : Prop :=
  Forall (fun e => Db.e_name e <> n) (Db.entities db)
  /\ Forall (fun o => Db.o_entity_name o <> n) (Db.observations db)
  /\ Forall (fun r => Db.r_source r <> n /\ Db.r_target r <> n)
            (Db.relations db).

(** The number of stored relations that carry the triple. *)
Definition stored_count (s t ty : string) (db : Db.database) : nat :=
  List.length (filter (Sql.same_triple s t ty) (Db.relations db)).

(** No two stored relations carry the same triple. *)
Definition relations_unique (db : Db.database) : Prop :=
  forall s t ty, (stored_count s t ty db <= 1)%nat.

(** The loop of [create_relations]. *)
Definition relations_loop (batch : list VecClient.Relation) : Db.M unit :=
  Db.for_each
    (fun relation =>
       Sql.insert_or_ignore_relation
         (VecClient.from relation) (VecClient.to relation)
         (VecClient.relationType relation))
    batch.

(** The database after a sequence of [create_relations] calls, whatever
    each call returned. *)
Definition after_calls (calls : list (list VecClient.Relation))
  (db : Db.database) : Db.database :=
  fold_left (fun d batch => snd (VecClient.create_relations batch d)) calls db.

(** The writing requests of a client, and the database after a sequence
    of them, whatever each one returned. *)
Inductive request : Type :=
| CreateEntities (now : Z) (batch : list VecClient.Entity)
| CreateRelations (batch : list VecClient.Relation)
| DeleteEntity (n : string)
| DeleteRelation (s t ty : string).

Definition serve (r : request) (db : Db.database) : Db.database :=
  match r with
  | CreateEntities now batch => snd (VecClient.create_entities now batch db)
  | CreateRelations batch => snd (VecClient.create_relations batch db)
  | DeleteEntity n => snd (VecClient.delete_entity n db)
  | DeleteRelation s t ty => snd (VecClient.delete_relation s t ty db)
  end.

Definition run (requests : list request) (db : Db.database) : Db.database :=
  fold_left (fun d r => serve r d) requests db.

(** A relation of the text-only client as one of the client with
    embeddings. *)
Definition vec_relation (r : TextClient.Relation) : VecClient.Relation :=
  {| VecClient.from := TextClient.from r;
     VecClient.to := TextClient.to r;
     VecClient.relationType := TextClient.relationType r;
     VecClient.relation_embedding := None |}.

(** ** Text search *)


(** The rows of the search statement before its LIMIT: every entity that
    matches, once, in the order of the statement. *)
Definition matches (pattern : string) (db : Db.database) : list Search.row :=
  Search.sort
    (Search.distinct
       (map (Search.select_columns pattern)
            (filter (Search.where_clause pattern)
                    (Search.left_join_observations db)))).





(** The entity the client builds from a result row. *)
Definition entity_of_row (db : Db.database) (r : Search.row)
  : TextClient.Entity :=
  {| TextClient.name := Search.s_name r;
     TextClient.entityType := Search.s_entity_type r;
     TextClient.observations :=
       Sql.select_observations (Search.s_name r) db |}.


(** [needle] occurs in none of the fields of the entity, even up to ASCII
    case. *)
Definition nowhere_literally (needle : string) (e : TextClient.Entity)
  : bool :=
  negb (Sqlite.contains_nocase needle (TextClient.name e))
  && negb (Sqlite.contains_nocase needle (TextClient.entityType e))
  && forallb (fun o => negb (Sqlite.contains_nocase needle o))
             (TextClient.observations e).

(** ** Further vocabulary *)

(** Every character of the string satisfies [f]. *)
Fixpoint every (f : ascii -> bool) (s : string) : bool :=
  match s with
  | EmptyString => true
  | String c s' => f c && every f s'
  end.

(** The string with its ASCII capitals turned into small letters. *)
Fixpoint lowercase (s : string) : string :=
  match s with
  | EmptyString => EmptyString
  | String c s' => String (Sqlite.to_lower c) (lowercase s')
  end.

(** A character that the search passes to LIKE as itself: neither a
    separator (white space, underscore, hyphen) nor a percent sign. *)
Definition plain (c : ascii) : bool :=
  negb (Js.is_separator c) && negb (Ascii.eqb c "%").

(** No two rows of [entities] have the same name (the primary key). *)
Definition names_unique (db : Db.database) : Prop :=
  NoDup (map Db.e_name (Db.entities db)).

(** Every observation is owned by a stored entity and every relation goes
    from a stored entity to a stored entity (the foreign keys). *)
Definition referential (db : Db.database) : Prop :=
  Forall (fun o => Sql.entity_exists (Db.o_entity_name o) db = true)
         (Db.observations db)
  /\ Forall (fun r => Sql.entity_exists (Db.r_source r) db = true
                      /\ Sql.entity_exists (Db.r_target r) db = true)
            (Db.relations db).

(** The client call of a writing request. *)
Definition perform (r : request) : Db.M unit :=
  match r with
  | CreateEntities now batch => VecClient.create_entities now batch
  | CreateRelations batch => VecClient.create_relations batch
  | DeleteEntity n => VecClient.delete_entity n
  | DeleteRelation s t ty => VecClient.delete_relation s t ty
  end.

(** The stored row of a relation, and the relation of a stored row. *)
Definition row_of_relation (r : TextClient.Relation) : Db.relation_row :=
  {| Db.r_source := TextClient.from r;
     Db.r_target := TextClient.to r;
     Db.r_relation_type := TextClient.relationType r |}.

Definition relation_of_row (r : Db.relation_row) : TextClient.Relation :=
  {| TextClient.from := Db.r_source r;
     TextClient.to := Db.r_target r;
     TextClient.relationType := Db.r_relation_type r |}.

(** The entity the client builds from a row of [entities]. *)
Definition entity_of_stored (db : Db.database) (r : Db.entity_row)
  : TextClient.Entity :=
  {| TextClient.name := Db.e_name r;
     TextClient.entityType := Db.e_entity_type r;
     TextClient.observations := Sql.select_observations (Db.e_name r) db |}.

(** The relation is stored and one of its ends is among [names]. *)
Definition touches_names (db : Db.database) (names : list string)
  (rel : TextClient.Relation) : Prop :=
  In (row_of_relation rel) (Db.relations db)
  /\ (In (TextClient.from rel) names \/ In (TextClient.to rel) names).

(** The entity row matches the pattern: in its name, in its type or in an
    observation it owns. *)
Definition entity_matches (pattern : string) (db : Db.database)
  (e : Db.entity_row) : Prop :=
  Sqlite.like pattern (Db.e_name e) = true
  \/ Sqlite.like pattern (Db.e_entity_type e) = true
  \/ exists o, In o (Db.observations db)
               /\ Db.o_entity_name o = Db.e_name e
               /\ Sqlite.like pattern (Db.o_content o) = true.

(** [m] is the other end of a stored relation that touches [n]. *)
Definition neighbour (db : Db.database) (n m : string) : Prop :=
  m <> n
  /\ exists r, In r (Db.relations db)
               /\ ((Db.r_source r = n /\ Db.r_target r = m)
                   \/ (Db.r_source r = m /\ Db.r_target r = n)).

(** The rowid of the row of [n] once [n] is upserted: the one it has, or
    the next one of the table. *)
Definition rowid_after_upsert (n : string) (db : Db.database) : Z :=
  match Sql.select_entity n db with
  | Some r => Db.e_rowid r
  | None => Sql.next_rowid db
  end.

(** [entities_vec] has a row with the rowid [i]. *)
Definition has_vec (i : Z) (db : Db.database) : bool :=
  existsb (fun v => Db.v_rowid v =? i) (Db.entities_vec db).

(** The sanitizing step of [vector_to_buffer] followed by the conversion to
    binary32: what is stored for the numbers. *)
Definition stored_vector (numbers : list float) : list float :=
  map VecClient.to_float32
    (map (fun n =>
            if PrimFloat.is_nan n || negb (PrimFloat.is_finite n)
            then 0%float else n)
         numbers).

(** ** The writing tools *)

(** The calls of the four writing tools of [index.ts], the answer of each,
    and the context its client function puts before the message of an
    error. *)
Inductive tool_call : Type :=
| CreateEntitiesTool (now : Z) (entities : list TextClient.Entity)
| CreateRelationsTool (relations : list Server.RelationArgument)
| DeleteEntityTool (name : string)
| DeleteRelationTool (source target type : string).

Definition answer (c : tool_call)
  : Db.database -> Server.Response * Db.database :=
  match c with
  | CreateEntitiesTool now entities => Server.create_entities_tool now entities
  | CreateRelationsTool relations => Server.create_relations_tool relations
  | DeleteEntityTool n => Server.delete_entity_tool n
  | DeleteRelationTool s t ty => Server.delete_relation_tool s t ty
  end.

Definition context_of (c : tool_call) : string :=
  match c with
  | CreateEntitiesTool _ _ => Messages.entity_operation_failed
  | CreateRelationsTool _ => Messages.failed_to_create_relations
  | DeleteEntityTool n => Messages.failed_to_delete_entity n
  | DeleteRelationTool _ _ _ => Messages.failed_to_delete_relation
  end.

End Spec.

(* ================================================================== *)
(** * Sample stores and requests *)
(* ================================================================== *)

Module Sample.

Definition entity (n ty : string) (obs : list string) : TextClient.Entity :=
  {| TextClient.name := n; TextClient.entityType := ty;
     TextClient.observations := obs |}.

Definition relation (s t ty : string) : TextClient.Relation :=
  {| TextClient.from := s; TextClient.to := t;
     TextClient.relationType := ty |}.

Definition vec_relation (s t ty : string) : VecClient.Relation :=
  {| VecClient.from := s; VecClient.to := t;
     VecClient.relationType := ty; VecClient.relation_embedding := None |}.

(** Claude and Anthropic, created at time 5, and the relation between
    them. *)
Definition claude : TextClient.Entity :=
  entity "Claude" "AI Assistant" ["Created by Anthropic"; "Helpful"].

Definition anthropic : TextClient.Entity :=
  entity "Anthropic" "Company" ["AI safety company"].

Definition two_entities : Db.database :=
  snd (TextClient.create_entities 5 [claude; anthropic] Db.empty).

Definition graph : Db.database :=
  snd (TextClient.create_relations
         [relation "Claude" "Anthropic" "created_by"] two_entities).

(** A later version of Claude, with other observations. *)
Definition claude' : TextClient.Entity :=
  entity "Claude" "Assistant" ["Writes proofs"].

(** The same relation created in two calls, twice in the second one. *)
Definition repeated_calls : list (list VecClient.Relation) :=
  [[vec_relation "Claude" "Anthropic" "created_by"];
   [vec_relation "Claude" "Anthropic" "created_by";
    vec_relation "Claude" "Anthropic" "created_by"]].

(** A relation whose target is no entity of [two_entities]. *)
Definition dangling : VecClient.Relation :=
  vec_relation "Claude" "Nobody" "knows".

(** A store with one entity named axxb. *)
Definition axxb : TextClient.Entity :=
  entity "axxb" "word" ["four letters"].

Definition axxb_store : Db.database :=
  snd (TextClient.create_entities 1 [axxb] Db.empty).

(** X matches foo in its name, Y in its type, Z in an observation; Z is
    the most recent and X the oldest. *)
Definition xyz_store : Db.database :=
  snd (TextClient.create_entities 30
         [entity "Z" "note" ["about foo"]]
         (snd (TextClient.create_entities 20
                 [entity "Y" "foo kind" ["second"]]
                 (snd (TextClient.create_entities 10
                         [entity "X foo" "thing" ["first"]] Db.empty))))).

(** Two entities whose types are written with an underscore and with a
    space. *)
Definition web_store : Db.database :=
  snd (TextClient.create_entities 1
         [entity "site" "web_development" ["a"];
          entity "shop" "web development" ["b"];
          entity "farm" "agriculture" ["c"]] Db.empty).

(** A 1536-dimensional embedding, and a batch of an entity without an
    embedding followed by one with it. *)
Definition ones : list float := repeat 1%float 1536.

Definition plain : VecClient.Entity :=
  {| VecClient.name := "A"; VecClient.entityType := "t";
     VecClient.observations := ["a"]; VecClient.embedding := None |}.

Definition embedded : VecClient.Entity :=
  {| VecClient.name := "B"; VecClient.entityType := "t";
     VecClient.observations := ["b"]; VecClient.embedding := Some ones |}.

Definition mixed_store : Db.database :=
  snd (VecClient.create_entities 5 [plain; embedded] Db.empty).

(** An item with a blank name. *)
Definition nameless : TextClient.Entity := entity "  " "Company" ["x"].

End Sample.

(* ================================================================== *)
(** * Facts about the monad and the statements *)
(* ================================================================== *)

Lemma blank_empty : Js.blank "" = true.
Proof. reflexivity. Qed.

Lemma is_empty_blank (s : string) : Js.is_empty s || Js.blank s = Js.blank s.
Proof. destruct s; reflexivity. Qed.

Lemma named_eq (n : string) (e : Db.entity_row) :
  Sql.named n e = true <-> Db.e_name e = n.
Proof. unfold Sql.named. apply String.eqb_eq. Qed.

Lemma select_entity_exists (n : string) (db : Db.database) :
  Sql.entity_exists n db =
  match Sql.select_entity n db with Some _ => true | None => false end.
Proof.
  unfold Sql.entity_exists, Sql.select_entity.
  induction (Db.entities db) as [|e es IH]; simpl; [reflexivity|].
  destruct (Sql.named n e); simpl; [reflexivity|exact IH].
Qed.

Lemma select_entity_name (n : string) (db : Db.database) (r : Db.entity_row) :
  Sql.select_entity n db = Some r -> Db.e_name r = n.
Proof.
  unfold Sql.select_entity. intros H.
  apply find_some in H. apply named_eq. exact (proj2 H).
Qed.

Lemma named_retyped (n n' ty : string) (e : Db.entity_row) :
  Sql.named n' (Spec.retyped n ty e) = Sql.named n' e.
Proof. unfold Spec.retyped. destruct (Sql.named n e); reflexivity. Qed.

Lemma find_retyped (n n' ty : string) (l : list Db.entity_row) :
  find (Sql.named n') (map (Spec.retyped n ty) l)
  = option_map (Spec.retyped n ty) (find (Sql.named n') l).
Proof.
  induction l as [|x l IH]; simpl; [reflexivity|].
  rewrite named_retyped. destruct (Sql.named n' x); [reflexivity|exact IH].
Qed.

Lemma find_appended {A} (f : A -> bool) (l : list A) (x : A) :
  find f (l ++ [x])
  = match find f l with
    | Some y => Some y
    | None => if f x then Some x else None
    end.
Proof.
  induction l as [|y l IH]; simpl; [reflexivity|].
  destruct (f y); [reflexivity|exact IH].
Qed.

Lemma text_upsert_as_vec (now : Z) (e : TextClient.Entity) :
  TextClient.upsert_entity now e
  = VecClient.upsert_entity now (Spec.without_embedding e).
Proof. reflexivity. Qed.

Lemma text_create_as_vec (now : Z) (es : list TextClient.Entity) :
  TextClient.create_entities now es
  = VecClient.create_entities now (map Spec.without_embedding es).
Proof.
  unfold TextClient.create_entities, VecClient.create_entities.
  do 2 f_equal.
  induction es as [|e es IH]; simpl; [reflexivity|].
  rewrite IH. reflexivity.
Qed.

Lemma insert_observations_run (n : string) (obs : list string)
  (db : Db.database) :
  Sql.entity_exists n db = true ->
  Db.for_each (fun o => Sql.insert_observation n o) obs db
  = (Db.Ok tt,
     {| Db.entities := Db.entities db;
        Db.observations :=
          Db.observations db
          ++ map (fun c => {| Db.o_entity_name := n; Db.o_content := c |}) obs;
        Db.relations := Db.relations db;
        Db.entities_vec := Db.entities_vec db;
        Db.vec_sequence := Db.vec_sequence db |}).
Proof.
  revert db. induction obs as [|o obs IH]; intros db H; simpl.
  - unfold Db.ret. destruct db; simpl. rewrite app_nil_r. reflexivity.
  - unfold Db.bind, Sql.insert_observation at 1. rewrite H.
    rewrite IH by exact H. simpl. rewrite <- app_assoc. reflexivity.
Qed.

Lemma validation_error_none (n ty : string) (obs : list string) :
  Spec.validation_error n ty obs = None ->
  Js.blank n = false /\ Js.blank ty = false
  /\ TextClient.is_nil obs = false
  /\ forallb (fun o => negb (Js.blank o)) obs = true.
Proof.
  unfold Spec.validation_error.
  destruct (Js.blank n); [discriminate|].
  destruct (Js.blank ty); [discriminate|].
  destruct obs as [|o obs]; [discriminate|].
  destruct (forallb _ (o :: obs)); [auto|discriminate].
Qed.

Lemma upserted_rows_exists (now : Z) (n ty : string) (db : Db.database) :
  existsb (Sql.named n) (Spec.upserted_rows now n ty db) = true.
Proof.
  unfold Spec.upserted_rows.
  destruct (Sql.select_entity n db) as [r|] eqn:E.
  - unfold Sql.select_entity in E. apply find_some in E. destruct E as [Hin Hn].
    apply existsb_exists. exists (Spec.retyped n ty r). split.
    + apply in_map. exact Hin.
    + rewrite named_retyped. exact Hn.
  - rewrite existsb_app. simpl. unfold Sql.named at 2. simpl.
    rewrite String.eqb_refl. apply orb_true_iff. right. reflexivity.
Qed.

(** An item that passes every check is applied: its row is upserted and
    its observations replace the ones stored under its name. *)
Lemma upsert_entity_accepts (now : Z) (e : VecClient.Entity)
  (db : Db.database) :
  Spec.rejection e = None ->
  exists vec seq,
    VecClient.upsert_entity now e db
    = (Db.Ok tt,
       {| Db.entities :=
            Spec.upserted_rows now (VecClient.name e)
                               (VecClient.entityType e) db;
          Db.observations :=
            Spec.replaced_observations (VecClient.name e)
                                       (VecClient.observations e) db;
          Db.relations := Db.relations db;
          Db.entities_vec := vec;
          Db.vec_sequence := seq |}).
Proof.
  unfold Spec.rejection. intros H.
  destruct (Spec.validation_error _ _ _) eqn:V; [discriminate|].
  apply validation_error_none in V. destruct V as (Hn & Ht & Ho & Hall).
  unfold VecClient.upsert_entity, Db.bind.
  rewrite !is_empty_blank, Hn, Ht, Ho, Hall. simpl.
  unfold Db.query.
  pose proof (upserted_rows_exists now (VecClient.name e)
                (VecClient.entityType e) db) as Hex.
  unfold Spec.upserted_rows, Spec.replaced_observations in *.
  destruct (Sql.select_entity (VecClient.name e) db) as [r|] eqn:E;
    [ unfold Sql.update_entity_type, Db.exec
    | unfold Sql.insert_entity; rewrite select_entity_exists, E ];
    (destruct (VecClient.embedding e) as [numbers|];
     [ unfold VecClient.vector_to_buffer; cbv beta zeta;
       destruct (Datatypes.length numbers =? VecClient.VECTOR_DIMENSIONS)%nat;
       [ | discriminate ];
       cbn [negb]; unfold Db.ret; cbv beta iota;
       match goal with
       | |- context [SqlVec.select_vec_rowid ?n ?d] =>
           destruct (SqlVec.select_vec_rowid n d)
       end;
       unfold SqlVec.update_vec, SqlVec.insert_vec, Db.exec
     | unfold Db.ret ]);
    cbn [Db.entities Db.observations Db.relations Db.entities_vec
         Db.vec_sequence];
    (rewrite insert_observations_run by exact Hex);
    cbn [Db.entities Db.observations Db.relations Db.entities_vec
         Db.vec_sequence];
    do 2 eexists; reflexivity.
Qed.

(** An item that fails a check throws the message of the first check it
    fails. *)
Lemma upsert_entity_rejects (now : Z) (e : VecClient.Entity)
  (db : Db.database) (m : string) :
  Spec.rejection e = Some m ->
  exists db', VecClient.upsert_entity now e db = (Db.Throw m, db').
Proof.
  unfold Spec.rejection, Spec.validation_error.
  unfold VecClient.upsert_entity, Db.bind.
  rewrite !is_empty_blank.
  destruct (Js.blank (VecClient.name e));
    [intros [= <-]; eexists; reflexivity|].
  destruct (Js.blank (VecClient.entityType e));
    [intros [= <-]; eexists; reflexivity|].
  destruct (VecClient.observations e) as [|o obs] eqn:Eo;
    [intros [= <-]; eexists; reflexivity|].
  destruct (forallb _ (o :: obs));
    [|intros [= <-]; eexists; reflexivity].
  destruct (VecClient.embedding e) as [numbers|]; [|discriminate].
  unfold VecClient.vector_to_buffer.
  destruct (Datatypes.length numbers =? VecClient.VECTOR_DIMENSIONS)%nat;
    [discriminate|].
  intros [= <-]. cbn [negb TextClient.is_nil]. unfold Db.throw, Db.ret, Db.query.
  cbv beta iota.
  destruct (Sql.select_entity (VecClient.name e) db) eqn:E;
    [ unfold Sql.update_entity_type, Db.exec
    | unfold Sql.insert_entity; rewrite select_entity_exists, E ];
    eexists; reflexivity.
Qed.

Lemma rejection_message (e : VecClient.Entity) (m : string) :
  Spec.rejection e = Some m ->
  Spec.validation_message (VecClient.name e) m
  \/ Spec.dimension_message (VecClient.embedding e) m.
Proof.
  unfold Spec.rejection, Spec.validation_error, Spec.validation_message.
  destruct (Js.blank (VecClient.name e)); [intros [= <-]; auto|].
  destruct (Js.blank (VecClient.entityType e)); [intros [= <-]; auto|].
  destruct (VecClient.observations e) as [|o obs]; [intros [= <-]; auto|].
  destruct (forallb _ (o :: obs)); [|intros [= <-]; auto 6].
  destruct (VecClient.embedding e) as [numbers|]; [|discriminate].
  destruct (Datatypes.length numbers =? VecClient.VECTOR_DIMENSIONS)%nat eqn:L;
    [discriminate|].
  intros [= <-]. right. exists numbers. repeat split.
  apply Nat.eqb_neq. exact L.
Qed.

Lemma blank_forallb_false (obs : list string) :
  In "" obs -> forallb (fun o => negb (Js.blank o)) obs = false.
Proof.
  induction obs as [|o obs IH]; simpl; [tauto|].
  intros [->|H]; [reflexivity|].
  rewrite (IH H). apply andb_false_r.
Qed.

Lemma invalid_item_rejected (n ty : string) (obs : list string) :
  Spec.invalid_item n ty obs -> Spec.validation_error n ty obs <> None.
Proof.
  unfold Spec.invalid_item, Spec.validation_error.
  intros H.
  destruct (Js.blank n) eqn:Hn; [discriminate|].
  destruct (Js.blank ty) eqn:Ht; [discriminate|].
  destruct H as [->|[H|[->|[H|[->|H]]]]]; try discriminate; try congruence.
  destruct obs as [|o obs]; [discriminate|].
  rewrite (blank_forallb_false _ H). discriminate.
Qed.

(** The loop of [create_entities]: either every item passes its checks and
    the loop returns, or it throws the message of a check that an item of
    the batch fails. *)
Lemma upsert_loop_cases (now : Z) (es : list VecClient.Entity)
  (db : Db.database) :
  (Forall (fun e => Spec.rejection e = None) es
   /\ exists db', Db.for_each (VecClient.upsert_entity now) es db
                  = (Db.Ok tt, db'))
  \/ (exists e m db',
        In e es /\ Spec.rejection e = Some m
        /\ Db.for_each (VecClient.upsert_entity now) es db
           = (Db.Throw m, db')).
Proof.
  revert db. induction es as [|e es IH]; intros db.
  - left. split; [constructor|]. eexists. reflexivity.
  - simpl. unfold Db.bind.
    destruct (Spec.rejection e) as [m|] eqn:R.
    + right. destruct (upsert_entity_rejects now e db R) as [db' ->].
      exists e, m, db'. simpl. auto.
    + destruct (upsert_entity_accepts now e db R) as (vec & seq & ->).
      match goal with
      | |- context [Db.for_each _ es ?d] => destruct (IH d) as [[F [db' E]]|X]
      end.
      * left. split; [constructor; assumption|]. exists db'. exact E.
      * right. destruct X as (e' & m & db' & Hin & Hr & E).
        exists e', m, db'. simpl. auto.
Qed.

Lemma create_entities_cases (now : Z) (es : list VecClient.Entity)
  (db : Db.database) :
  (Forall (fun e => Spec.rejection e = None) es
   /\ exists db', Db.for_each (VecClient.upsert_entity now) es db
                  = (Db.Ok tt, db')
                  /\ VecClient.create_entities now es db = (Db.Ok tt, db'))
  \/ (exists e m,
        In e es /\ Spec.rejection e = Some m
        /\ VecClient.create_entities now es db
           = (Db.Throw (Messages.entity_operation_failed ++ m), db)).
Proof.
  unfold VecClient.create_entities, Db.rethrow, Db.transaction.
  destruct (upsert_loop_cases now es db) as [[F [db' E]]|(e & m & db' & Hin & Hr & E)];
    rewrite E.
  - left. split; [exact F|]. exists db'. split; reflexivity.
  - right. exists e, m. auto.
Qed.

Lemma select_observations_replaced (n : string) (obs : list string)
  (db db' : Db.database) (n' : string) :
  Db.observations db' = Spec.replaced_observations n obs db ->
  Sql.select_observations n' db'
  = if String.eqb n' n then obs else Sql.select_observations n' db.
Proof.
  unfold Sql.select_observations, Spec.replaced_observations. intros ->.
  rewrite filter_app, map_app.
  destruct (String.eqb n' n) eqn:E.
  - apply String.eqb_eq in E. subst n'.
    assert (H1 : filter (Sql.owned_by n)
                   (filter (fun o => negb (Sql.owned_by n o))
                           (Db.observations db)) = []).
    { induction (Db.observations db) as [|o l IH]; simpl; [reflexivity|].
      destruct (Sql.owned_by n o) eqn:O; simpl; [exact IH|].
      rewrite O. exact IH. }
    rewrite H1. simpl.
    induction obs as [|c obs IH]; simpl; [reflexivity|].
    unfold Sql.owned_by at 1. simpl. rewrite String.eqb_refl. simpl.
    f_equal. exact IH.
  - assert (H1 : filter (Sql.owned_by n')
                   (filter (fun o => negb (Sql.owned_by n o))
                           (Db.observations db))
                 = filter (Sql.owned_by n') (Db.observations db)).
    { induction (Db.observations db) as [|o l IH]; simpl; [reflexivity|].
      destruct (Sql.owned_by n o) eqn:O; simpl.
      - assert (O' : Sql.owned_by n' o = false).
        { unfold Sql.owned_by in *. apply String.eqb_eq in O.
          rewrite O, String.eqb_sym. exact E. }
        rewrite O'. exact IH.
      - destruct (Sql.owned_by n' o); [f_equal|]; exact IH. }
    rewrite H1.
    assert (H2 : filter (Sql.owned_by n')
                   (map (fun c => {| Db.o_entity_name := n;
                                     Db.o_content := c |}) obs) = []).
    { induction obs as [|c obs IH]; simpl; [reflexivity|].
      unfold Sql.owned_by at 1. simpl. rewrite String.eqb_sym, E. exact IH. }
    rewrite H2. simpl. apply app_nil_r.
Qed.

Lemma select_entity_upserted (now : Z) (n ty : string)
  (db db' : Db.database) :
  Db.entities db' = Spec.upserted_rows now n ty db ->
  exists r, Sql.select_entity n db' = Some r
            /\ Db.e_name r = n /\ Db.e_entity_type r = ty.
Proof.
  unfold Spec.upserted_rows. intros H.
  unfold Sql.select_entity at 1. rewrite H.
  destruct (Sql.select_entity n db) as [r|] eqn:E; unfold Sql.select_entity in E.
  - change (map _ (Db.entities db)) with (map (Spec.retyped n ty) (Db.entities db)).
    rewrite find_retyped, E. simpl.
    apply find_some in E. destruct E as [_ E].
    exists (Spec.retyped n ty r). split; [reflexivity|].
    unfold Spec.retyped. rewrite E. simpl. split; [|reflexivity].
    apply named_eq. exact E.
  - rewrite find_appended, E. unfold Sql.named at 1. simpl.
    rewrite String.eqb_refl. eexists. split; [reflexivity|]. simpl. auto.
Qed.

Lemma select_entity_upserted_other (now : Z) (n ty : string)
  (db db' : Db.database) (n' : string) :
  n' <> n ->
  Db.entities db' = Spec.upserted_rows now n ty db ->
  Sql.select_entity n' db' = Sql.select_entity n' db.
Proof.
  unfold Spec.upserted_rows. intros D H.
  unfold Sql.select_entity at 1. rewrite H.
  destruct (Sql.select_entity n db) as [r|] eqn:E; unfold Sql.select_entity.
  - change (map _ (Db.entities db)) with (map (Spec.retyped n ty) (Db.entities db)).
    rewrite find_retyped.
    destruct (find (Sql.named n') (Db.entities db)) as [x|] eqn:F;
      [|reflexivity].
    simpl. f_equal. unfold Spec.retyped.
    apply find_some in F. destruct F as [_ F]. apply named_eq in F.
    assert (N : Sql.named n x = false).
    { unfold Sql.named. rewrite F. apply String.eqb_neq. exact D. }
    rewrite N. reflexivity.
  - rewrite find_appended.
    destruct (find (Sql.named n') (Db.entities db)); [reflexivity|].
    unfold Sql.named. simpl.
    destruct (String.eqb n n') eqn:X; [|reflexivity].
    apply String.eqb_eq in X. congruence.
Qed.

Lemma for_each_app {X} (f : X -> Db.M unit) (l1 l2 : list X)
  (db : Db.database) :
  Db.for_each f (l1 ++ l2) db
  = Db.bind (Db.for_each f l1) (fun _ => Db.for_each f l2) db.
Proof.
  revert db. induction l1 as [|x l1 IH]; intros db; simpl.
  - reflexivity.
  - unfold Db.bind. destruct (f x db) as [[[]|m] db1].
    + rewrite IH. reflexivity.
    + reflexivity.
Qed.

(** Items with other names leave the row and the observations of [n] as
    they are. *)
Lemma upsert_loop_preserves (now : Z) (n : string)
  (post : list VecClient.Entity) :
  forall db,
    Forall (fun e => Spec.rejection e = None) post ->
    Forall (fun e => VecClient.name e <> n) post ->
    exists db',
      Db.for_each (VecClient.upsert_entity now) post db = (Db.Ok tt, db')
      /\ Sql.select_observations n db' = Sql.select_observations n db
      /\ Sql.select_entity n db' = Sql.select_entity n db.
Proof.
  induction post as [|e post IH]; intros db Hacc Hne.
  - exists db. repeat split.
  - inversion Hacc as [|? ? Ha Hacc']; subst.
    inversion Hne as [|? ? Hn Hne']; subst.
    simpl. unfold Db.bind.
    destruct (upsert_entity_accepts now e db Ha) as (vec & seq & ->).
    match goal with
    | |- context [Db.for_each _ post ?d] =>
        destruct (IH d Hacc' Hne') as (db' & E & Ho & He); set (d1 := d) in *
    end.
    exists db'. split; [exact E|]. split.
    + rewrite Ho.
      rewrite (@select_observations_replaced (VecClient.name e)
                 (VecClient.observations e) db d1 n eq_refl).
      destruct (String.eqb n (VecClient.name e)) eqn:X; [|reflexivity].
      apply String.eqb_eq in X. congruence.
    + rewrite He.
      apply (@select_entity_upserted_other now (VecClient.name e)
               (VecClient.entityType e) db d1 n); [congruence|reflexivity].
Qed.

(** In a batch whose items all pass their checks, the last item with a
    given name decides the row and the observations stored under it. *)
Lemma create_entities_last_wins (now : Z) (db : Db.database)
  (pre : list VecClient.Entity) (e : VecClient.Entity)
  (post : list VecClient.Entity) :
  Forall (fun e' => Spec.rejection e' = None) (pre ++ e :: post) ->
  Forall (fun e' => VecClient.name e' <> VecClient.name e) post ->
  exists db' r,
    VecClient.create_entities now (pre ++ e :: post) db = (Db.Ok tt, db')
    /\ Sql.select_observations (VecClient.name e) db'
       = VecClient.observations e
    /\ Sql.select_entity (VecClient.name e) db' = Some r
    /\ Db.e_name r = VecClient.name e
    /\ Db.e_entity_type r = VecClient.entityType e.
Proof.
  intros Hacc Hne.
  apply Forall_app in Hacc. destruct Hacc as [Hpre Hrest].
  inversion Hrest as [|? ? He Hpost]; subst.
  unfold VecClient.create_entities, Db.rethrow, Db.transaction.
  rewrite for_each_app. unfold Db.bind at 1.
  destruct (upsert_loop_cases now pre db)
    as [[_ [db1 E1]]|(x & m & db1 & Hin & Hr & _)].
  2:{ rewrite Forall_forall in Hpre. rewrite (Hpre x Hin) in Hr. discriminate. }
  rewrite E1. simpl. unfold Db.bind.
  destruct (upsert_entity_accepts now e db1 He) as (vec & seq & ->).
  match goal with
  | |- context [Db.for_each _ post ?d] =>
      destruct (@upsert_loop_preserves now (VecClient.name e) post d Hpost Hne)
        as (db' & E & Ho & Hs); set (d2 := d) in *
  end.
  rewrite E.
  destruct (@select_entity_upserted now (VecClient.name e)
              (VecClient.entityType e) db1 d2 eq_refl) as (r & Hr & Hn & Ht).
  exists db', r. split; [reflexivity|]. split.
  - rewrite Ho.
    rewrite (@select_observations_replaced (VecClient.name e)
               (VecClient.observations e) db1 d2 _ eq_refl).
    rewrite String.eqb_refl. reflexivity.
  - rewrite Hs. auto.
Qed.

(** ** Deleting an entity *)

Lemma existsb_filter_negb {A} (f : A -> bool) (l : list A) :
  existsb f (filter (fun x => negb (f x)) l) = false.
Proof.
  induction l as [|x l IH]; simpl; [reflexivity|].
  destruct (f x) eqn:E; simpl; [exact IH|]. rewrite E. exact IH.
Qed.

Lemma find_filter_negb {A} (f : A -> bool) (l : list A) :
  find f (filter (fun x => negb (f x)) l) = None.
Proof.
  induction l as [|x l IH]; simpl; [reflexivity|].
  destruct (f x) eqn:E; simpl; [exact IH|]. rewrite E. exact IH.
Qed.

Lemma Forall_filter_negb {A} (f : A -> bool) (l : list A) :
  Forall (fun x => f x = false) (filter (fun x => negb (f x)) l).
Proof.
  apply Forall_forall. intros x H. apply filter_In in H.
  destruct H as [_ H]. apply negb_true_iff. exact H.
Qed.

Lemma without_entity_no_trace (n : string) (vec : list Db.vec_row)
  (db : Db.database) :
  Spec.no_trace n (Spec.without_entity n vec db).
Proof.
  unfold Spec.no_trace, Spec.without_entity. simpl. repeat split.
  - eapply Forall_impl; [|apply Forall_filter_negb].
    intros e H. simpl in H. intros E. apply named_eq in E. congruence.
  - eapply Forall_impl; [|apply Forall_filter_negb].
    intros o H. simpl in H. unfold Sql.owned_by in H.
    apply String.eqb_neq. exact H.
  - eapply Forall_impl; [|apply Forall_filter_negb].
    intros r H. simpl in H. unfold Sql.touches in H.
    apply orb_false_iff in H. destruct H as [H1 H2].
    split; apply String.eqb_neq; assumption.
Qed.

Lemma text_delete_entity_found (n : string) (db : Db.database) :
  Sql.entity_exists n db = true ->
  TextClient.delete_entity n db
  = (Db.Ok tt, Spec.without_entity n (Db.entities_vec db) db).
Proof.
  rewrite select_entity_exists. intros H.
  unfold TextClient.delete_entity, Db.rethrow, Db.bind, Db.query.
  destruct (Sql.select_entity n db); [|discriminate].
  unfold Db.transaction, Sql.delete_observations, Sql.delete_relations_touching,
    Sql.delete_entity_row, Db.exec.
  cbn [Db.entities Db.observations Db.relations Db.entities_vec
       Db.vec_sequence].
  rewrite !existsb_filter_negb, andb_false_r. reflexivity.
Qed.

Lemma vec_delete_entity_found (n : string) (db : Db.database) :
  Sql.entity_exists n db = true ->
  VecClient.delete_entity n db
  = (Db.Ok tt,
     Spec.without_entity n
       (filter (fun v => negb (SqlVec.at_rowid (SqlVec.rowid_of_entity n db) v))
               (Db.entities_vec db))
       db).
Proof.
  rewrite select_entity_exists. intros H.
  unfold VecClient.delete_entity, Db.rethrow, Db.bind, Db.query.
  destruct (Sql.select_entity n db); [|discriminate].
  unfold Db.transaction, Sql.delete_observations, Sql.delete_relations_touching,
    SqlVec.delete_vec, Sql.delete_entity_row, Db.exec.
  cbn [Db.entities Db.observations Db.relations Db.entities_vec
       Db.vec_sequence].
  rewrite !existsb_filter_negb, andb_false_r. reflexivity.
Qed.

Lemma delete_entity_missing (n : string) (db : Db.database) :
  Sql.entity_exists n db = false ->
  TextClient.delete_entity n db
  = (Db.Throw (Messages.failed_to_delete_entity n
               ++ Messages.entity_not_found n), db)
  /\ VecClient.delete_entity n db
     = (Db.Throw (Messages.failed_to_delete_entity n
                  ++ Messages.entity_not_found n), db).
Proof.
  rewrite select_entity_exists. intros H.
  unfold TextClient.delete_entity, VecClient.delete_entity, Db.rethrow,
    Db.bind, Db.query.
  destruct (Sql.select_entity n db); [discriminate|]. split; reflexivity.
Qed.

Lemma select_entity_without (n : string) (vec : list Db.vec_row)
  (db : Db.database) :
  Sql.select_entity n (Spec.without_entity n vec db) = None.
Proof. unfold Sql.select_entity. simpl. apply find_filter_negb. Qed.

(** ** Creating relations *)

Lemma existsb_filter_length {A} (f : A -> bool) (l : list A) :
  existsb f l = (1 <=? List.length (filter f l))%nat.
Proof.
  induction l as [|x l IH]; simpl; [reflexivity|].
  destruct (f x); simpl; [reflexivity|exact IH].
Qed.

Lemma stored_count_existsb (s t ty : string) (db : Db.database) :
  existsb (Sql.same_triple s t ty) (Db.relations db) = true
  <-> (1 <= Spec.stored_count s t ty db)%nat.
Proof.
  unfold Spec.stored_count. rewrite existsb_filter_length.
  apply Nat.leb_le.
Qed.

Lemma same_triple_eq (s t ty : string) (r : Db.relation_row) :
  Sql.same_triple s t ty r = true
  <-> Db.r_source r = s /\ Db.r_target r = t /\ Db.r_relation_type r = ty.
Proof.
  unfold Sql.same_triple. rewrite !andb_true_iff, !String.eqb_eq. tauto.
Qed.

Lemma create_relations_unfold (batch : list VecClient.Relation)
  (db : Db.database) :
  VecClient.create_relations batch db
  = match Spec.relations_loop batch db with
    | (Db.Ok _, db') => (Db.Ok tt, db')
    | (Db.Throw m, _) =>
        (Db.Throw (Messages.failed_to_create_relations ++ m), db)
    end.
Proof.
  unfold VecClient.create_relations, Db.rethrow, Db.transaction, Spec.relations_loop.
  destruct batch as [|r batch]; [reflexivity|].
  cbn [TextClient.is_nil].
  destruct (Db.for_each _ (r :: batch) db) as [[[]|m] db']; reflexivity.
Qed.

Lemma text_create_relations_as_vec (batch : list TextClient.Relation) :
  TextClient.create_relations batch
  = VecClient.create_relations (map Spec.vec_relation batch).
Proof.
  assert (L : forall l : list TextClient.Relation,
             Db.for_each
               (fun relation =>
                  Sql.insert_or_ignore_relation
                    (TextClient.from relation) (TextClient.to relation)
                    (TextClient.relationType relation)) l
             = Spec.relations_loop (map Spec.vec_relation l)).
  { unfold Spec.relations_loop.
    induction l as [|x l IH]; simpl; [reflexivity|].
    rewrite IH. reflexivity. }
  unfold TextClient.create_relations, VecClient.create_relations.
  rewrite L. destruct batch; reflexivity.
Qed.

Lemma insert_or_ignore_unique (s t ty : string) (db : Db.database) :
  Spec.relations_unique db ->
  Spec.relations_unique (snd (Sql.insert_or_ignore_relation s t ty db)).
Proof.
  intros U. unfold Sql.insert_or_ignore_relation.
  destruct (existsb (Sql.same_triple s t ty) (Db.relations db)) eqn:E;
    [exact U|].
  destruct (Sql.entity_exists s db && Sql.entity_exists t db); [|exact U].
  intros s' t' ty'. unfold Spec.stored_count. simpl.
  rewrite filter_app, length_app. simpl.
  destruct (Sql.same_triple s' t' ty' _) eqn:X; simpl.
  - apply same_triple_eq in X. simpl in X. destruct X as (<- & <- & <-).
    rewrite existsb_filter_length in E. apply Nat.leb_gt in E. lia.
  - specialize (U s' t' ty'). unfold Spec.stored_count in U. lia.
Qed.

Lemma relations_loop_unique (batch : list VecClient.Relation) :
  forall db,
    Spec.relations_unique db ->
    Spec.relations_unique (snd (Spec.relations_loop batch db)).
Proof.
  induction batch as [|r batch IH]; intros db U; [exact U|].
  unfold Spec.relations_loop in *. simpl. unfold Db.bind.
  pose proof (insert_or_ignore_unique (VecClient.from r) (VecClient.to r)
                (VecClient.relationType r) U) as U1.
  destruct (Sql.insert_or_ignore_relation _ _ _ db) as [[[]|m] db1];
    simpl in U1.
  - apply IH. exact U1.
  - exact U1.
Qed.

Lemma create_relations_unique (batch : list VecClient.Relation)
  (db : Db.database) :
  Spec.relations_unique db ->
  Spec.relations_unique (snd (VecClient.create_relations batch db)).
Proof.
  intros U. rewrite create_relations_unfold.
  pose proof (relations_loop_unique batch U) as U1.
  destruct (Spec.relations_loop batch db) as [[[]|m] db1]; simpl in *;
    assumption.
Qed.

Lemma create_relations_stored (batch : list VecClient.Relation)
  (db : Db.database) :
  Forall (fun r => (1 <= Spec.stored_count (VecClient.from r) (VecClient.to r)
                                           (VecClient.relationType r) db)%nat)
         batch ->
  VecClient.create_relations batch db = (Db.Ok tt, db).
Proof.
  intros H. rewrite create_relations_unfold.
  assert (L : Spec.relations_loop batch db = (Db.Ok tt, db)).
  { unfold Spec.relations_loop.
    induction batch as [|r batch IH]; [reflexivity|].
    inversion H as [|? ? Hr Hb]; subst.
    simpl. unfold Db.bind, Sql.insert_or_ignore_relation at 1.
    apply stored_count_existsb in Hr. rewrite Hr. apply IH. exact Hb. }
  rewrite L. reflexivity.
Qed.

(** With every endpoint an existing entity the loop returns; the entities
    stay, stored triples stay stored, and every triple of the batch is
    stored afterwards. *)
Lemma relations_loop_succeeds (batch : list VecClient.Relation) :
  forall db,
    Forall (fun r => Sql.entity_exists (VecClient.from r) db = true
                     /\ Sql.entity_exists (VecClient.to r) db = true)
           batch ->
    exists db',
      Spec.relations_loop batch db = (Db.Ok tt, db')
      /\ Db.entities db' = Db.entities db
      /\ (forall s t ty,
            existsb (Sql.same_triple s t ty) (Db.relations db) = true ->
            existsb (Sql.same_triple s t ty) (Db.relations db') = true)
      /\ Forall (fun r => existsb (Sql.same_triple
                                     (VecClient.from r) (VecClient.to r)
                                     (VecClient.relationType r))
                                  (Db.relations db') = true)
                batch.
Proof.
  induction batch as [|r batch IH]; intros db H.
  - exists db. repeat split; auto.
  - inversion H as [|? ? [Hs Ht] Hb]; subst.
    unfold Spec.relations_loop in *. simpl.
    unfold Db.bind, Sql.insert_or_ignore_relation at 1.
    destruct (existsb _ (Db.relations db)) eqn:E.
    + destruct (IH db Hb) as (db' & L & He & Hm & Hall).
      exists db'. repeat split; auto.
    + rewrite Hs, Ht. cbn [andb].
      match goal with
      | |- context [Db.for_each _ batch ?d] =>
          destruct (IH d) as (db' & L & He & Hm & Hall); [exact Hb|]
      end.
      exists db'. split; [exact L|]. split; [exact He|]. split.
      * intros s t ty X. apply Hm. simpl. rewrite existsb_app, X. reflexivity.
      * constructor; [|exact Hall].
        apply Hm. simpl. rewrite existsb_app. simpl.
        unfold Sql.same_triple at 2. simpl. rewrite !String.eqb_refl.
        simpl. apply orb_true_r.
Qed.

(** A triple that is not stored and has an endpoint that is no entity
    makes the loop throw the foreign-key error. *)
Lemma relations_loop_fails (batch : list VecClient.Relation) :
  forall db,
    Exists (fun r => Spec.stored_count (VecClient.from r) (VecClient.to r)
                                       (VecClient.relationType r) db = 0%nat
                     /\ (Sql.entity_exists (VecClient.from r) db = false
                         \/ Sql.entity_exists (VecClient.to r) db = false))
           batch ->
    exists db', Spec.relations_loop batch db = (Db.Throw Sql.FOREIGN_KEY_failed, db').
Proof.
  assert (NS : forall s t ty db,
             Spec.stored_count s t ty db = 0%nat ->
             existsb (Sql.same_triple s t ty) (Db.relations db) = false).
  { intros s t ty db H. rewrite existsb_filter_length.
    unfold Spec.stored_count in H. rewrite H. reflexivity. }
  assert (FK : forall s t db,
             Sql.entity_exists s db = false \/ Sql.entity_exists t db = false ->
             Sql.entity_exists s db && Sql.entity_exists t db = false).
  { intros s t db [H|H]; rewrite H; [reflexivity|apply andb_false_r]. }
  induction batch as [|h batch IH]; intros db H;
    [inversion H|].
  unfold Spec.relations_loop in *. simpl.
  unfold Db.bind, Sql.insert_or_ignore_relation at 1.
  destruct (existsb _ (Db.relations db)) eqn:E.
  - inversion H as [? ? [Hn _]|? ? Ht]; subst.
    + apply NS in Hn. congruence.
    + apply IH. exact Ht.
  - destruct (Sql.entity_exists (VecClient.from h) db
              && Sql.entity_exists (VecClient.to h) db) eqn:X.
    + inversion H as [? ? [_ Hfk]|? ? Ht]; subst.
      * apply FK in Hfk. congruence.
      * apply IH. apply andb_true_iff in X. destruct X as [X1 X2].
        eapply Exists_impl; [|exact Ht].
        intros r [Hn Hfk]. split; [|exact Hfk].
        unfold Spec.stored_count in *. simpl.
        rewrite filter_app, length_app, Hn. simpl.
        destruct (Sql.same_triple _ _ _ _) eqn:S; [|reflexivity].
        apply same_triple_eq in S. simpl in S. destruct S as (S1 & S2 & _).
        unfold Sql.entity_exists in *. simpl in Hfk.
        rewrite S1, S2 in *. destruct Hfk; congruence.
    + eexists. reflexivity.
Qed.

(** ** Stored triples stay unique in every state a client reaches *)

Lemma upsert_loop_relations (now : Z) (es : list VecClient.Entity) :
  forall db db',
    Db.for_each (VecClient.upsert_entity now) es db = (Db.Ok tt, db') ->
    Db.relations db' = Db.relations db.
Proof.
  induction es as [|e es IH]; intros db db' H; simpl in H.
  - injection H as <-. reflexivity.
  - unfold Db.bind in H.
    destruct (Spec.rejection e) as [m|] eqn:R.
    + destruct (upsert_entity_rejects now e db R) as [d E].
      rewrite E in H. discriminate.
    + destruct (upsert_entity_accepts now e db R) as (vec & seq & E).
      rewrite E in H. apply IH in H. exact H.
Qed.

Lemma create_entities_relations (now : Z) (es : list VecClient.Entity)
  (db : Db.database) :
  Db.relations (snd (VecClient.create_entities now es db)) = Db.relations db.
Proof.
  destruct (create_entities_cases now es db)
    as [[_ (db' & L & ->)]|(e & m & _ & _ & ->)]; simpl.
  - eapply upsert_loop_relations. exact L.
  - reflexivity.
Qed.

Lemma filter_filter_length {A} (f g : A -> bool) (l : list A) :
  (List.length (filter f (filter g l)) <= List.length (filter f l))%nat.
Proof.
  induction l as [|x l IH]; simpl; [lia|].
  destruct (g x), (f x) eqn:F; simpl; rewrite ?F; simpl; lia.
Qed.

Lemma serve_unique (r : Spec.request) (db : Db.database) :
  Spec.relations_unique db -> Spec.relations_unique (Spec.serve r db).
Proof.
  intros U. destruct r as [now batch|batch|n|s t ty]; simpl.
  - intros s t ty. unfold Spec.stored_count.
    rewrite create_entities_relations. apply U.
  - apply create_relations_unique. exact U.
  - destruct (Sql.entity_exists n db) eqn:E.
    + rewrite (vec_delete_entity_found n db E). simpl.
      intros s t ty. unfold Spec.stored_count. simpl.
      specialize (U s t ty). unfold Spec.stored_count in U.
      pose proof (filter_filter_length (Sql.same_triple s t ty)
                    (fun r => negb (Sql.touches n r)) (Db.relations db)).
      lia.
    + rewrite (proj2 (delete_entity_missing n db E)). exact U.
  - unfold VecClient.delete_relation, Db.rethrow, Db.bind, Sql.delete_relation.
    intros s' t' ty'.
    assert (X : (Spec.stored_count s' t' ty'
                   {| Db.entities := Db.entities db;
                      Db.observations := Db.observations db;
                      Db.relations :=
                        filter (fun r => negb (Sql.same_triple s t ty r))
                               (Db.relations db);
                      Db.entities_vec := Db.entities_vec db;
                      Db.vec_sequence := Db.vec_sequence db |} <= 1)%nat).
    { unfold Spec.stored_count. simpl.
      specialize (U s' t' ty'). unfold Spec.stored_count in U.
      pose proof (filter_filter_length (Sql.same_triple s' t' ty')
                    (fun r => negb (Sql.same_triple s t ty r))
                    (Db.relations db)).
      lia. }
    destruct (_ =? 0)%nat; exact X.
Qed.

(** From the tables of [initialize], whatever the requests. *)
Lemma relations_unique_reachable (requests : list Spec.request) :
  Spec.relations_unique (Spec.run requests Db.empty).
Proof.
  assert (G : forall db, Spec.relations_unique db ->
                         Spec.relations_unique (Spec.run requests db)).
  { unfold Spec.run. induction requests as [|r rs IH]; intros db U; simpl.
    - exact U.
    - apply IH. apply serve_unique. exact U. }
  apply G. intros s t ty. apply Nat.le_0_l.
Qed.

(** ** The search statement *)




Lemma insert_sorted_in (r x : Search.row) (l : list Search.row) :
  In x (Search.insert_sorted r l) <-> x = r \/ In x l.
Proof.
  induction l as [|y l IH]; simpl.
  - intuition congruence.
  - destruct (Search.order_by r y); simpl; rewrite ?IH; intuition congruence.
Qed.

Lemma sort_in (x : Search.row) (l : list Search.row) :
  In x (Search.sort l) <-> In x l.
Proof.
  induction l as [|y l IH]; simpl; [tauto|].
  rewrite insert_sorted_in, IH. intuition congruence.
Qed.



Lemma firstn_in {A} (n : nat) (x : A) (l : list A) :
  In x (firstn n l) -> In x l.
Proof.
  revert l. induction n as [|n IH]; intros l H; simpl in H; [destruct H|].
  destruct l as [|y l]; [destruct H|].
  destruct H as [H|H]; [left; exact H|right; apply IH; exact H].
Qed.




Lemma statement_limit (pattern : string) (n : Z) (db : Db.database) :
  Search.statement pattern n db = Search.limit n (Spec.matches pattern db).
Proof. reflexivity. Qed.

Lemma row_eqb_eq (a b : Search.row) : Search.row_eqb a b = true <-> a = b.
Proof.
  unfold Search.row_eqb.
  rewrite !andb_true_iff, !String.eqb_eq, !Z.eqb_eq.
  destruct a, b; simpl. split.
  - intros [[[-> ->] ->] ->]. reflexivity.
  - intros [= -> -> -> ->]. auto.
Qed.

Lemma distinct_in (x : Search.row) (l : list Search.row) :
  In x (Search.distinct l) <-> In x l.
Proof.
  induction l as [|r l IH]; simpl; [tauto|].
  rewrite filter_In, IH. split.
  - tauto.
  - intros [H|H]; [left; exact H|].
    destruct (Search.row_eqb r x) eqn:E.
    + left. apply row_eqb_eq. exact E.
    + right. auto.
Qed.

Lemma matches_in (pattern : string) (db : Db.database) (r : Search.row) :
  In r (Spec.matches pattern db)
  <-> exists eo,
        In eo (Search.left_join_observations db)
        /\ Search.where_clause pattern eo = true
        /\ r = Search.select_columns pattern eo.
Proof.
  unfold Spec.matches. rewrite sort_in, distinct_in, in_map_iff.
  split; intros (eo & H1 & H2).
  - apply filter_In in H2. exists eo. intuition.
  - exists eo. rewrite filter_In. intuition.
Qed.

Lemma left_join_in (db : Db.database) (e : Db.entity_row)
  (o : option Db.observation_row) :
  In (e, o) (Search.left_join_observations db)
  <-> In e (Db.entities db)
      /\ match o with
         | Some x => In x (Db.observations db)
                     /\ Db.o_entity_name x = Db.e_name e
         | None => forall x, In x (Db.observations db) ->
                             Db.o_entity_name x <> Db.e_name e
         end.
Proof.
  unfold Search.left_join_observations. rewrite in_flat_map.
  assert (F : forall e' x,
             In x (filter (Sql.owned_by (Db.e_name e')) (Db.observations db))
             <-> In x (Db.observations db)
                 /\ Db.o_entity_name x = Db.e_name e').
  { intros e' x. rewrite filter_In. unfold Sql.owned_by.
    rewrite String.eqb_eq. tauto. }
  split.
  - intros (e' & He & H).
    destruct (filter _ (Db.observations db)) as [|x l] eqn:E.
    + destruct H as [[= <- <-]|[]]. split; [exact He|].
      intros x Hx Hn. assert (X : In x []) by (rewrite <- E; apply F; auto).
      exact X.
    + apply in_map_iff in H. destruct H as (y & [= <- <-] & Hy).
      split; [exact He|]. apply F. rewrite E. exact Hy.
  - intros [He H]. exists e. split; [exact He|].
    destruct (filter _ (Db.observations db)) as [|x l] eqn:E.
    + destruct o as [x|]; [|left; reflexivity].
      apply F in H. rewrite E in H. destruct H.
    + destruct o as [y|].
      * apply in_map_iff. exists y. split; [reflexivity|].
        rewrite <- E. apply F. exact H.
      * exfalso. assert (X : In x (x :: l)) by (left; reflexivity).
        rewrite <- E in X. apply F in X. destruct X as [X1 X2].
        exact (H x X1 X2).
Qed.





Lemma left_join_covers (db : Db.database) (e : Db.entity_row) :
  In e (Db.entities db) ->
  exists o, In (e, o) (Search.left_join_observations db).
Proof.
  intros He.
  destruct (filter (Sql.owned_by (Db.e_name e)) (Db.observations db))
    as [|x l] eqn:E.
  - exists None. apply left_join_in. split; [exact He|].
    intros x Hx Hn.
    assert (I : In x (filter (Sql.owned_by (Db.e_name e))
                             (Db.observations db))).
    { apply filter_In. split; [exact Hx|].
      unfold Sql.owned_by. apply String.eqb_eq. exact Hn. }
    rewrite E in I. exact I.
  - exists (Some x). apply left_join_in. split; [exact He|].
    assert (I : In x (x :: l)) by (left; reflexivity).
    rewrite <- E in I. apply filter_In in I. destruct I as [I1 I2].
    split; [exact I1|]. unfold Sql.owned_by in I2.
    apply String.eqb_eq. exact I2.
Qed.


Lemma effective_limit_range (l : Z) :
  1 <= TextClient.effective_limit l <= 50.
Proof. unfold TextClient.effective_limit. lia. Qed.

Lemma search_entities_rows (query : string) (limit : option Z)
  (db : Db.database) :
  TextClient.search_entities query limit db
  = (Db.Ok (map (Spec.entity_of_row db)
                (firstn (Z.to_nat (TextClient.effective_limit
                                     (TextClient.default_limit limit)))
                        (Spec.matches (TextClient.search_pattern query) db))),
     db).
Proof.
  unfold TextClient.search_entities, Db.bind, Db.query.
  rewrite statement_limit. unfold Search.limit.
  pose proof (effective_limit_range (TextClient.default_limit limit)) as R.
  destruct (_ <? 0) eqn:E; [apply Z.ltb_lt in E; lia|]. reflexivity.
Qed.

(** ** Query normalization *)




(** ** Sample runs *)

Example trim_strips_both_ends : Js.trim "  a b " = "a b".
Proof. reflexivity. Qed.

Example separator_runs_become_one_wildcard :
  TextClient.search_pattern "web - _development" = "%web%development%".
Proof. reflexivity. Qed.

Example like_is_case_insensitive_with_wildcards :
  Sqlite.like "%web%development%" "Full-stack Web_Development" = true
  /\ Sqlite.like "%web%development%" "webdev" = false
  /\ Sqlite.like "a_c" "ABC" = true.
Proof. repeat split; reflexivity. Qed.

(** Storing in a [Float32Array] rounds: the binary64 value nearest to 0.1
    comes back as the binary32 value nearest to it. *)
Example float32_storage_rounds :
  VecClient.to_float32 0x1.999999999999ap-4%float = 0x1.99999ap-4%float
  /\ VecClient.to_float32 1%float = 1%float.
Proof. vm_compute. split; reflexivity. Qed.

(** The three entities X, Y and Z come back in the order of their fields,
    against their recency. *)
Example search_foo_orders_by_field :
  fst (TextClient.search_nodes "foo" None Sample.xyz_store)
  = Db.Ok {| TextClient.entities :=
               [Sample.entity "X foo" "thing" ["first"];
                Sample.entity "Y" "foo kind" ["second"];
                Sample.entity "Z" "note" ["about foo"]];
             TextClient.relations := [] |}.
Proof. reflexivity. Qed.

(** The search of the client with embeddings binds the query as it is: a
    hyphen in the query does not match an underscore. *)
Example vec_search_is_not_normalized :
  fst (VecClient.search_entities "web-development" Sample.web_store)
  = Db.Ok [].
Proof. reflexivity. Qed.

(** Deleting B, whose embedding was filed under the rowid of A, leaves the
    embedding in [entities_vec]. *)
Example delete_entity_keeps_misfiled_embedding :
  map Db.v_rowid
      (Db.entities_vec (snd (VecClient.delete_entity "B" Sample.mixed_store)))
  = [1].
Proof. vm_compute. reflexivity. Qed.

(* ================================================================== *)
(** * The claims *)
(* ================================================================== *)


(** C1. Observation replacement on upsert: when [create_entities] runs a
    batch whose items all pass their checks, the entity named by an item
    [e] that no later item of the batch names again has exactly the
    observations of [e] afterwards, in the table and in what [get_entity]
    returns, whatever was stored under that name before (the old
    observations are gone, not merged).  It holds for the text-only client
    and for the client with embeddings. *)
Theorem create_entities_replaces_observations :
  forall (now : Z) (db : Db.database),
    (forall (pre : list TextClient.Entity) (e : TextClient.Entity)
            (post : list TextClient.Entity),
        Forall (fun x => Spec.validation_error
                           (TextClient.name x) (TextClient.entityType x)
                           (TextClient.observations x) = None)
               (pre ++ e :: post) ->
        Forall (fun x => TextClient.name x <> TextClient.name e) post ->
        exists db',
          TextClient.create_entities now (pre ++ e :: post) db
          = (Db.Ok tt, db')
          /\ Sql.select_observations (TextClient.name e) db'
             = TextClient.observations e
          /\ TextClient.get_entity (TextClient.name e) db' = (Db.Ok e, db'))
    /\ (forall (pre : list VecClient.Entity) (e : VecClient.Entity)
               (post : list VecClient.Entity),
          Forall (fun x => Spec.rejection x = None) (pre ++ e :: post) ->
          Forall (fun x => VecClient.name x <> VecClient.name e) post ->
          exists db' stored_embedding,
            VecClient.create_entities now (pre ++ e :: post) db
            = (Db.Ok tt, db')
            /\ Sql.select_observations (VecClient.name e) db'
               = VecClient.observations e
            /\ VecClient.get_entity (VecClient.name e) db'
               = (Db.Ok {| VecClient.name := VecClient.name e;
                           VecClient.entityType := VecClient.entityType e;
                           VecClient.observations := VecClient.observations e;
                           VecClient.embedding := stored_embedding |},
                  db')).
Proof.
  intros now db. split.
  - intros pre e post Hacc Hne.
    destruct (@create_entities_last_wins now db
                (map Spec.without_embedding pre) (Spec.without_embedding e)
                (map Spec.without_embedding post))
      as (db' & r & Hc & Ho & Hs & Hn & Ht).
    + change (Spec.without_embedding e :: map Spec.without_embedding post)
        with (map Spec.without_embedding (e :: post)).
      rewrite <- map_app. apply Forall_map.
      eapply Forall_impl; [|exact Hacc].
      intros x Hx. unfold Spec.rejection. simpl. rewrite Hx. reflexivity.
    + apply Forall_map. exact Hne.
    + exists db'. rewrite text_create_as_vec, map_app. simpl in *.
      split; [exact Hc|]. split; [exact Ho|].
      unfold TextClient.get_entity, Db.bind, Db.query, Db.ret.
      rewrite Hs, Ho, Hn, Ht. destruct e; reflexivity.
  - intros pre e post Hacc Hne.
    destruct (@create_entities_last_wins now db pre e post Hacc Hne)
      as (db' & r & Hc & Ho & Hs & Hn & Ht).
    exists db'. eexists. split; [exact Hc|]. split; [exact Ho|].
    unfold VecClient.get_entity, Db.bind, Db.query, Db.ret.
    rewrite Hs, Ho, Hn, Ht. reflexivity.
Qed.

(** The upsert of Claude with one new observation, on a store where Claude
    has two other observations. *)
Lemma create_entities_replaces_observations_witness :
  exists db',
    TextClient.create_entities 9 [Sample.claude'] Sample.graph
    = (Db.Ok tt, db')
    /\ Sql.select_observations "Claude" db' = ["Writes proofs"]
    /\ TextClient.get_entity "Claude" db' = (Db.Ok Sample.claude', db').
Proof.
  apply (proj1 (create_entities_replaces_observations 9 Sample.graph)
               [] Sample.claude' []).
  - repeat constructor.
  - constructor.
Defined.

(** C2. Cascading delete: [delete_entity] of a stored name returns and
    leaves the database without the entity row, without the observations
    it owned, without the relations in which it was source or target and
    (client with embeddings) without the [entities_vec] row at its rowid,
    every other row being kept; no row names the entity any more and
    [get_entity] of the name throws Not-Found.  [delete_entity] of a name
    that is not stored throws Not-Found and leaves the database as it
    was. *)
Theorem delete_entity_cascades :
  forall (n : string) (db : Db.database),
    (Sql.entity_exists n db = true ->
     (exists db',
         TextClient.delete_entity n db = (Db.Ok tt, db')
         /\ db' = Spec.without_entity n (Db.entities_vec db) db
         /\ Spec.no_trace n db'
         /\ TextClient.get_entity n db'
            = (Db.Throw (Messages.entity_not_found n), db'))
     /\ (exists db',
           VecClient.delete_entity n db = (Db.Ok tt, db')
           /\ db' = Spec.without_entity n
                      (filter (fun v => negb (SqlVec.at_rowid
                                                (SqlVec.rowid_of_entity n db) v))
                              (Db.entities_vec db))
                      db
           /\ Spec.no_trace n db'
           /\ (forall i, SqlVec.rowid_of_entity n db = Some i ->
                         Forall (fun v => Db.v_rowid v <> i)
                                (Db.entities_vec db'))
           /\ VecClient.get_entity n db'
              = (Db.Throw (Messages.entity_not_found n), db')))
    /\ (Sql.entity_exists n db = false ->
        TextClient.delete_entity n db
        = (Db.Throw (Messages.failed_to_delete_entity n
                     ++ Messages.entity_not_found n), db)
        /\ VecClient.delete_entity n db
           = (Db.Throw (Messages.failed_to_delete_entity n
                        ++ Messages.entity_not_found n), db)).
Proof.
  intros n db. split; intros H.
  - split; eexists; (split; [|split; [reflexivity|]]).
    + apply text_delete_entity_found. exact H.
    + split; [apply without_entity_no_trace|].
      unfold TextClient.get_entity, Db.bind, Db.query.
      rewrite select_entity_without. reflexivity.
    + apply vec_delete_entity_found. exact H.
    + split; [apply without_entity_no_trace|]. split.
      * intros i Hi. rewrite Hi. simpl.
        eapply Forall_impl; [|apply Forall_filter_negb].
        intros v Hv. simpl in Hv. apply Z.eqb_neq. exact Hv.
      * unfold VecClient.get_entity, Db.bind, Db.query.
        rewrite select_entity_without. reflexivity.
  - apply delete_entity_missing. exact H.
Qed.

(** Deleting Claude from the store of Claude, Anthropic and their
    relation. *)
Lemma delete_entity_cascades_witness :
  (exists db',
      TextClient.delete_entity "Claude" Sample.graph = (Db.Ok tt, db')
      /\ db' = Spec.without_entity "Claude" (Db.entities_vec Sample.graph)
                 Sample.graph
      /\ Spec.no_trace "Claude" db'
      /\ TextClient.get_entity "Claude" db'
         = (Db.Throw (Messages.entity_not_found "Claude"), db'))
  /\ TextClient.delete_entity "Nobody" Sample.graph
     = (Db.Throw (Messages.failed_to_delete_entity "Nobody"
                  ++ Messages.entity_not_found "Nobody"), Sample.graph).
Proof.
  split.
  - apply (proj1 (delete_entity_cascades "Claude" Sample.graph)).
    reflexivity.
  - apply (proj2 (delete_entity_cascades "Nobody" Sample.graph)).
    reflexivity.
Defined.

(** C3. Relation creation is idempotent per triple: if no two stored
    relations carry the same triple, then after any sequence of
    [create_relations] calls this still holds, and a call whose triples are
    all stored already returns without an error and leaves the database as
    it is (the stored rows are kept: first write wins).  The
    [create_relations] of the text-only client is the same function. *)
Theorem create_relations_is_idempotent :
  forall (calls : list (list VecClient.Relation)) (db : Db.database),
    Spec.relations_unique db ->
    Spec.relations_unique (Spec.after_calls calls db)
    /\ (forall batch : list VecClient.Relation,
          Forall (fun r => (1 <= Spec.stored_count
                                   (VecClient.from r) (VecClient.to r)
                                   (VecClient.relationType r)
                                   (Spec.after_calls calls db))%nat) batch ->
          VecClient.create_relations batch (Spec.after_calls calls db)
          = (Db.Ok tt, Spec.after_calls calls db))
    /\ (forall batch : list TextClient.Relation,
          TextClient.create_relations batch
          = VecClient.create_relations (map Spec.vec_relation batch)).
Proof.
  intros calls db U. split; [|split].
  - revert db U. unfold Spec.after_calls.
    induction calls as [|batch calls IH]; intros db U; simpl; [exact U|].
    apply IH. apply create_relations_unique. exact U.
  - intros batch. apply create_relations_stored.
  - apply text_create_relations_as_vec.
Qed.

(** Creating Claude -> Anthropic in one call and twice more in a second
    call leaves one stored relation. *)
Lemma create_relations_is_idempotent_witness :
  Spec.relations_unique
    (Spec.after_calls Sample.repeated_calls Sample.two_entities)
  /\ Spec.stored_count "Claude" "Anthropic" "created_by"
       (Spec.after_calls Sample.repeated_calls Sample.two_entities) = 1%nat.
Proof.
  split; [|reflexivity].
  apply (proj1 (@create_relations_is_idempotent
                  Sample.repeated_calls Sample.two_entities
                  (fun s t ty => Nat.le_0_l 1))).
Defined.

(** C4. Batch upsert atomicity: a [create_entities] batch with an invalid
    item (an empty or blank name, an empty or blank type, no observation,
    or an empty observation) throws, the message being that of a check
    which an item of the batch fails, and the database is the one before
    the call.  In the text-only client the check is one of the four
    validations; in the client with embeddings it may also be the
    dimension check of an embedding. *)
Theorem create_entities_batch_is_atomic :
  forall (now : Z) (db : Db.database),
    (forall batch : list TextClient.Entity,
        Exists (fun e => Spec.invalid_item
                           (TextClient.name e) (TextClient.entityType e)
                           (TextClient.observations e)) batch ->
        exists e m,
          In e batch
          /\ Spec.validation_message (TextClient.name e) m
          /\ TextClient.create_entities now batch db
             = (Db.Throw (Messages.entity_operation_failed ++ m), db))
    /\ (forall batch : list VecClient.Entity,
          Exists (fun e => Spec.invalid_item
                             (VecClient.name e) (VecClient.entityType e)
                             (VecClient.observations e)) batch ->
          exists e m,
            In e batch
            /\ (Spec.validation_message (VecClient.name e) m
                \/ Spec.dimension_message (VecClient.embedding e) m)
            /\ VecClient.create_entities now batch db
               = (Db.Throw (Messages.entity_operation_failed ++ m), db)).
Proof.
  assert (V : forall now db (batch : list VecClient.Entity),
             Exists (fun e => Spec.invalid_item
                                (VecClient.name e) (VecClient.entityType e)
                                (VecClient.observations e)) batch ->
             exists e m,
               In e batch /\ Spec.rejection e = Some m
               /\ VecClient.create_entities now batch db
                  = (Db.Throw (Messages.entity_operation_failed ++ m), db)).
  { intros now db batch Hinv.
    destruct (create_entities_cases now batch db)
      as [[F _]|(e & m & Hin & Hr & Hc)].
    - exfalso. apply Exists_exists in Hinv. destruct Hinv as (x & Hin & Hx).
      rewrite Forall_forall in F. specialize (F x Hin).
      apply invalid_item_rejected in Hx. apply Hx.
      unfold Spec.rejection in F.
      destruct (Spec.validation_error _ _ _); [discriminate|reflexivity].
    - exists e, m. auto. }
  intros now db. split.
  - intros batch Hinv.
    destruct (V now db (map Spec.without_embedding batch))
      as (e' & m & Hin & Hr & Hc).
    { apply Exists_exists in Hinv. destruct Hinv as (x & Hin & Hx).
      apply Exists_exists. exists (Spec.without_embedding x).
      split; [apply in_map; exact Hin|exact Hx]. }
    apply in_map_iff in Hin. destruct Hin as (e & <- & Hin).
    exists e, m. split; [exact Hin|]. split.
    + destruct (rejection_message _ Hr) as [H|(numbers & H & _)];
        [exact H|discriminate].
    + rewrite text_create_as_vec. exact Hc.
  - intros batch Hinv.
    destruct (V now db batch Hinv) as (e & m & Hin & Hr & Hc).
    exists e, m. split; [exact Hin|]. split; [|exact Hc].
    apply rejection_message. exact Hr.
Qed.

(** A batch of a valid item followed by an item with a blank name, on a
    store with two entities. *)
Lemma create_entities_batch_is_atomic_witness :
  exists e m,
    In e [Sample.claude'; Sample.nameless]
    /\ Spec.validation_message (TextClient.name e) m
    /\ TextClient.create_entities 9 [Sample.claude'; Sample.nameless]
         Sample.graph
       = (Db.Throw (Messages.entity_operation_failed ++ m), Sample.graph).
Proof.
  apply (proj1 (create_entities_batch_is_atomic 9 Sample.graph)
               [Sample.claude'; Sample.nameless]).
  apply Exists_cons_tl. apply Exists_cons_hd.
  right. left. reflexivity.
Defined.






(** C8, at a failing input: [create_entities] of A without an embedding
    and of B with the embedding [ones] (1536 finite components, each a
    binary32 value) returns; afterwards [get_entity] of B returns no
    embedding and [get_entity] of A returns the embedding supplied for B.
    The row of B has rowid 2, and [entities_vec] numbered the embedding
    1, the rowid of A. *)
Theorem embedding_is_filed_under_another_entity :
  fst (VecClient.create_entities 5 [Sample.plain; Sample.embedded] Db.empty)
  = Db.Ok tt
  /\ fst (VecClient.get_entity "B" Sample.mixed_store)
     = Db.Ok {| VecClient.name := "B"; VecClient.entityType := "t";
                VecClient.observations := ["b"];
                VecClient.embedding := None |}
  /\ fst (VecClient.get_entity "A" Sample.mixed_store)
     = Db.Ok {| VecClient.name := "A"; VecClient.entityType := "t";
                VecClient.observations := ["a"];
                VecClient.embedding := Some Sample.ones |}
  /\ SqlVec.rowid_of_entity "B" Sample.mixed_store = Some 2
  /\ map Db.v_rowid (Db.entities_vec Sample.mixed_store) = [1].
Proof. vm_compute. repeat split; reflexivity. Qed.

(** C9, as stated, fails: on a store with Claude and Anthropic,
    [create_relations] of Claude -> Nobody throws the foreign-key error of
    SQLite, so not every batch of triples succeeds. *)
Lemma create_relations_soft_references_counterexample :
  VecClient.create_relations [Sample.dangling] Sample.two_entities
  = (Db.Throw "Failed to create relations: FOREIGN KEY constraint failed",
     Sample.two_entities)
  /\ ~ (forall (batch : list VecClient.Relation) (db : Db.database),
          exists db', VecClient.create_relations batch db = (Db.Ok tt, db')).
Proof.
  split; [reflexivity|].
  intros H.
  destruct (H [Sample.dangling] Sample.two_entities) as [db' E].
  discriminate E.
Qed.

(** C9, amended. [create_relations] returns on every batch whose triples
    all have existing entities as source and as target, the entities being
    left as they are and every triple of the batch being stored afterwards;
    a batch with a triple that is not stored and whose source or target is
    no entity throws the foreign-key error and leaves the database as it
    was.  The [create_relations] of the text-only client is the same
    function. *)
Theorem create_relations_checks_endpoints :
  forall (batch : list VecClient.Relation) (db : Db.database),
    (Forall (fun r => Sql.entity_exists (VecClient.from r) db = true
                      /\ Sql.entity_exists (VecClient.to r) db = true)
            batch ->
     exists db',
       VecClient.create_relations batch db = (Db.Ok tt, db')
       /\ Db.entities db' = Db.entities db
       /\ Forall (fun r => (1 <= Spec.stored_count
                                   (VecClient.from r) (VecClient.to r)
                                   (VecClient.relationType r) db')%nat)
                 batch)
    /\ (Exists (fun r => Spec.stored_count
                           (VecClient.from r) (VecClient.to r)
                           (VecClient.relationType r) db = 0%nat
                         /\ (Sql.entity_exists (VecClient.from r) db = false
                             \/ Sql.entity_exists (VecClient.to r) db = false))
               batch ->
        VecClient.create_relations batch db
        = (Db.Throw (Messages.failed_to_create_relations
                     ++ Sql.FOREIGN_KEY_failed), db))
    /\ (forall text_batch : list TextClient.Relation,
          TextClient.create_relations text_batch
          = VecClient.create_relations (map Spec.vec_relation text_batch)).
Proof.
  intros batch db. split; [|split].
  - intros H. destruct (@relations_loop_succeeds batch db H) as (db' & L & He & _ & Hall).
    exists db'. rewrite create_relations_unfold, L.
    split; [reflexivity|]. split; [exact He|].
    eapply Forall_impl; [|exact Hall].
    intros r Hr. apply stored_count_existsb. exact Hr.
  - intros H. destruct (@relations_loop_fails batch db H) as (db' & L).
    rewrite create_relations_unfold, L. reflexivity.
  - apply text_create_relations_as_vec.
Qed.

(** A relation between two stored entities is created; a relation to a
    name that is no entity is refused. *)
Lemma create_relations_checks_endpoints_witness :
  (exists db',
      VecClient.create_relations
        [Sample.vec_relation "Claude" "Anthropic" "created_by"]
        Sample.two_entities = (Db.Ok tt, db')
      /\ Db.entities db' = Db.entities Sample.two_entities
      /\ Forall (fun r => (1 <= Spec.stored_count
                                  (VecClient.from r) (VecClient.to r)
                                  (VecClient.relationType r) db')%nat)
                [Sample.vec_relation "Claude" "Anthropic" "created_by"])
  /\ VecClient.create_relations [Sample.dangling] Sample.two_entities
     = (Db.Throw (Messages.failed_to_create_relations
                  ++ Sql.FOREIGN_KEY_failed), Sample.two_entities).
Proof.
  split.
  - apply (proj1 (create_relations_checks_endpoints
                    [Sample.vec_relation "Claude" "Anthropic" "created_by"]
                    Sample.two_entities)).
    repeat constructor.
  - apply (proj1 (proj2 (create_relations_checks_endpoints
                           [Sample.dangling] Sample.two_entities))).
    apply Exists_cons_hd. split; [reflexivity|]. right. reflexivity.
Defined.

(** C10. LIKE metacharacters of the query act as wildcards: on a store
    whose only entity is named axxb, of type word, with the observation
    four letters, the search for the query a%b returns that entity,
    although the query occurs in none of its fields, even up to case.  The
    search of the client with embeddings does the same, also for the query
    a__b, whose underscores it passes on to LIKE. *)
Theorem search_treats_like_metacharacters_as_wildcards :
  TextClient.search_nodes "a%b" None Sample.axxb_store
  = (Db.Ok {| TextClient.entities := [Sample.axxb];
              TextClient.relations := [] |},
     Sample.axxb_store)
  /\ Spec.nowhere_literally "a%b" Sample.axxb = true
  /\ fst (VecClient.search_entities "a%b" Sample.axxb_store)
     = Db.Ok [Spec.without_embedding Sample.axxb]
  /\ fst (VecClient.search_entities "a__b" Sample.axxb_store)
     = Db.Ok [Spec.without_embedding Sample.axxb]
  /\ Spec.nowhere_literally "a__b" Sample.axxb = true.
Proof. repeat split; reflexivity. Qed.

(* ================================================================== *)
(** * Further properties of the code *)
(* ================================================================== *)

Unset Implicit Arguments.

(** ** White space *)

Lemma trim_start_every (s : string) :
  Spec.every Js.is_space s = true -> Js.trim_start s = EmptyString.
Proof.
  induction s as [|c s IH]; simpl; [reflexivity|].
  intros H. apply andb_true_iff in H. destruct H as [Hc Hs].
  rewrite Hc. apply IH. exact Hs.
Qed.



(** ** Relations that touch a set of names *)

Lemma relation_row_roundtrip (r : Db.relation_row) :
  Spec.row_of_relation (Spec.relation_of_row r) = r.
Proof. destruct r; reflexivity. Qed.

Lemma relation_roundtrip (r : TextClient.Relation) :
  Spec.relation_of_row (Spec.row_of_relation r) = r.
Proof. destruct r; reflexivity. Qed.

Lemma existsb_eqb_in (x : string) (names : list string) :
  existsb (String.eqb x) names = true <-> In x names.
Proof.
  rewrite existsb_exists. split.
  - intros (y & Hy & E). apply String.eqb_eq in E. congruence.
  - intros H. exists x. split; [exact H|apply String.eqb_refl].
Qed.

Lemma select_relations_touching_nil (db : Db.database) :
  Sql.select_relations_touching [] db = [].
Proof.
  unfold Sql.select_relations_touching. simpl.
  induction (Db.relations db) as [|r l IH]; simpl; [reflexivity|exact IH].
Qed.

Lemma select_relations_touching_in (names : list string) (db : Db.database)
  (rel : TextClient.Relation) :
  In rel (map Spec.relation_of_row (Sql.select_relations_touching names db))
  <-> Spec.touches_names db names rel.
Proof.
  unfold Spec.touches_names, Sql.select_relations_touching.
  rewrite in_map_iff. split.
  - intros (r & <- & H). apply filter_In in H. destruct H as [Hin H].
    rewrite relation_row_roundtrip. split; [exact Hin|].
    apply orb_true_iff in H. simpl.
    destruct H as [H|H]; apply existsb_eqb_in in H; auto.
  - intros [Hin H]. exists (Spec.row_of_relation rel).
    split; [apply relation_roundtrip|].
    apply filter_In. split; [exact Hin|].
    apply orb_true_iff. simpl.
    destruct H as [H|H]; apply existsb_eqb_in in H; auto.
Qed.

Lemma get_relations_for_entities_run (entities : list TextClient.Entity)
  (db : Db.database) :
  TextClient.get_relations_for_entities entities db
  = (Db.Ok (map Spec.relation_of_row
                (Sql.select_relations_touching
                   (map TextClient.name entities) db)),
     db).
Proof.
  unfold TextClient.get_relations_for_entities.
  destruct entities as [|e es].
  - simpl. rewrite select_relations_touching_nil. reflexivity.
  - reflexivity.
Qed.

Lemma search_nodes_run (query : string) (limit : option Z)
  (db : Db.database) :
  Js.blank query = false ->
  TextClient.search_nodes query limit db
  = (Db.Ok
       {| TextClient.entities :=
            map (Spec.entity_of_row db)
                (firstn (Z.to_nat (TextClient.effective_limit
                                     (TextClient.default_limit limit)))
                        (Spec.matches (TextClient.search_pattern query) db));
          TextClient.relations :=
            map Spec.relation_of_row
                (Sql.select_relations_touching
                   (map TextClient.name
                        (map (Spec.entity_of_row db)
                             (firstn (Z.to_nat (TextClient.effective_limit
                                                  (TextClient.default_limit
                                                     limit)))
                                     (Spec.matches
                                        (TextClient.search_pattern query)
                                        db))))
                   db) |},
     db).
Proof.
  intros B.
  unfold TextClient.search_nodes, Db.rethrow, Db.bind.
  rewrite B. cbv beta iota. unfold Db.ret at 1. cbv beta iota.
  rewrite search_entities_rows. cbn [TextClient.default_limit].
  set (found := map _ (firstn _ _)).
  destruct found as [|e es] eqn:E.
  - simpl. rewrite select_relations_touching_nil. reflexivity.
  - cbn [TextClient.is_nil].
    rewrite get_relations_for_entities_run. reflexivity.
Qed.

(** X1. [get_relations_for_entities] never throws and returns exactly the
    stored relations that have one of the given entities as source or as
    target; for no entity it returns no relation. *)
Theorem get_relations_for_entities_is_exact :
  forall (entities : list TextClient.Entity) (db : Db.database),
    exists relations,
      TextClient.get_relations_for_entities entities db
      = (Db.Ok relations, db)
      /\ (forall rel,
            In rel relations
            <-> Spec.touches_names db (map TextClient.name entities) rel)
      /\ (entities = [] -> relations = []).
Proof.
  intros entities db. eexists.
  split; [apply get_relations_for_entities_run|]. split.
  - intros rel. apply select_relations_touching_in.
  - intros ->. simpl. rewrite select_relations_touching_nil. reflexivity.
Qed.



(** X3. The relations that [search_nodes] returns with its entities are
    exactly the stored relations that have one of the returned entities as
    source or as target. *)
Theorem search_nodes_returns_the_touching_relations :
  forall (query : string) (limit : option Z) (db : Db.database),
    Js.blank query = false ->
    exists g,
      TextClient.search_nodes query limit db = (Db.Ok g, db)
      /\ (forall rel,
            In rel (TextClient.relations g)
            <-> Spec.touches_names db
                  (map TextClient.name (TextClient.entities g)) rel).
Proof.
  intros query limit db B. eexists.
  split; [apply search_nodes_run; exact B|].
  intros rel. simpl. apply select_relations_touching_in.
Qed.

(** The search for Claude in the store of Claude, Anthropic and their
    relation. *)
Lemma search_nodes_returns_the_touching_relations_witness :
  exists g,
    TextClient.search_nodes "claude" None Sample.graph
    = (Db.Ok g, Sample.graph)
    /\ (forall rel,
          In rel (TextClient.relations g)
          <-> Spec.touches_names Sample.graph
                (map TextClient.name (TextClient.entities g)) rel).
Proof.
  apply (search_nodes_returns_the_touching_relations
           "claude" None Sample.graph).
  reflexivity.
Defined.

(** ** LIKE *)

Lemma like_percent (r s : string) :
  Sqlite.like (String "%" r) s
  = Sqlite.like r s
    || match s with
       | EmptyString => false
       | String _ s' => Sqlite.like (String "%" r) s'
       end.
Proof. destruct s; reflexivity. Qed.

Lemma like_char (a : ascii) (p s : string) :
  Ascii.eqb a "%" = false ->
  Sqlite.like (String a p) s
  = match s with
    | EmptyString => false
    | String c s' =>
        (Ascii.eqb a "_" || Ascii.eqb (Sqlite.to_lower a) (Sqlite.to_lower c))
        && Sqlite.like p s'
    end.
Proof. intros H. simpl. rewrite H. reflexivity. Qed.

Lemma to_lower_idempotent (c : ascii) :
  Sqlite.to_lower (Sqlite.to_lower c) = Sqlite.to_lower c.
Proof. destruct c as [[] [] [] [] [] [] [] []]; reflexivity. Qed.

Lemma to_lower_percent (c : ascii) :
  Ascii.eqb (Sqlite.to_lower c) "%" = Ascii.eqb c "%".
Proof. destruct c as [[] [] [] [] [] [] [] []]; reflexivity. Qed.

Lemma to_lower_underscore (c : ascii) :
  Ascii.eqb (Sqlite.to_lower c) "_" = Ascii.eqb c "_".
Proof. destruct c as [[] [] [] [] [] [] [] []]; reflexivity. Qed.

Lemma to_lower_separator (c : ascii) :
  Js.is_separator (Sqlite.to_lower c) = Js.is_separator c.
Proof. destruct c as [[] [] [] [] [] [] [] []]; reflexivity. Qed.

Lemma like_lowercase_pattern (p s : string) :
  Sqlite.like (Spec.lowercase p) s = Sqlite.like p s.
Proof.
  revert s. induction p as [|a p IH]; intros s; [reflexivity|].
  cbn [Spec.lowercase].
  destruct (Ascii.eqb a "%") eqn:E.
  - apply Ascii.eqb_eq in E. subst a.
    change (Sqlite.to_lower "%") with "%"%char.
    induction s as [|c s IHs].
    + rewrite !like_percent, IH. reflexivity.
    + rewrite (like_percent (Spec.lowercase p)), (like_percent p), IH, IHs.
      reflexivity.
  - rewrite !like_char by (rewrite ?to_lower_percent; exact E).
    destruct s as [|c s]; [reflexivity|].
    rewrite to_lower_underscore, to_lower_idempotent, IH. reflexivity.
Qed.

Lemma like_lowercase_subject (p s : string) :
  Sqlite.like p (Spec.lowercase s) = Sqlite.like p s.
Proof.
  revert s. induction p as [|a p IH]; intros s.
  - destruct s; reflexivity.
  - destruct (Ascii.eqb a "%") eqn:E.
    + apply Ascii.eqb_eq in E. subst a.
      induction s as [|c s IHs].
      * rewrite !like_percent, IH. reflexivity.
      * rewrite (like_percent p (Spec.lowercase (String c s))),
          (like_percent p (String c s)), IH.
        cbn [Spec.lowercase]. rewrite IHs. reflexivity.
    + rewrite !like_char by exact E.
      destruct s as [|c s]; [reflexivity|].
      cbn [Spec.lowercase]. rewrite to_lower_idempotent, IH. reflexivity.
Qed.

Lemma lowercase_append (a b : string) :
  Spec.lowercase (a ++ b) = (Spec.lowercase a ++ Spec.lowercase b)%string.
Proof.
  induction a as [|c a IH]; simpl; [reflexivity|]. rewrite IH. reflexivity.
Qed.

Lemma replace_separator_runs_lowercase (b : bool) (q : string) :
  Js.replace_separator_runs b (Spec.lowercase q)
  = Spec.lowercase (Js.replace_separator_runs b q).
Proof.
  revert b. induction q as [|c q IH]; intros b; simpl; [reflexivity|].
  rewrite to_lower_separator.
  destruct (Js.is_separator c); [destruct b|]; simpl; rewrite IH; reflexivity.
Qed.

Lemma search_pattern_lowercase (q : string) :
  TextClient.search_pattern (Spec.lowercase q)
  = Spec.lowercase (TextClient.search_pattern q).
Proof.
  unfold TextClient.search_pattern, TextClient.normalized_query.
  rewrite replace_separator_runs_lowercase, !lowercase_append. reflexivity.
Qed.

(** The statement depends on its pattern through LIKE only. *)
Lemma statement_like_ext (p1 p2 : string) (n : Z) (db : Db.database) :
  (forall s, Sqlite.like p1 s = Sqlite.like p2 s) ->
  Search.statement p1 n db = Search.statement p2 n db.
Proof.
  intros H. unfold Search.statement. do 3 f_equal.
  assert (W : forall eo, Search.where_clause p1 eo = Search.where_clause p2 eo).
  { intros [e [o|]]; unfold Search.where_clause; simpl; rewrite !H;
      reflexivity. }
  rewrite (filter_ext _ _ W).
  apply map_ext. intros eo.
  unfold Search.select_columns, Search.relevance_score. rewrite !H.
  reflexivity.
Qed.

(** X4. Text search ignores ASCII case on both sides: two queries that are
    equal up to case give the same [search_entities], and LIKE gives the
    same answer for two stored texts that are equal up to case. *)
Theorem search_entities_ignores_case :
  forall (q1 q2 : string) (limit : option Z) (db : Db.database),
    Spec.lowercase q1 = Spec.lowercase q2 ->
    TextClient.search_entities q1 limit db
    = TextClient.search_entities q2 limit db
    /\ (forall pattern s1 s2,
          Spec.lowercase s1 = Spec.lowercase s2 ->
          Sqlite.like pattern s1 = Sqlite.like pattern s2).
Proof.
  intros q1 q2 limit db H. split.
  - unfold TextClient.search_entities, Db.bind, Db.query.
    rewrite (statement_like_ext (TextClient.search_pattern q1)
               (TextClient.search_pattern q2)); [reflexivity|].
    intros s.
    rewrite <- (like_lowercase_pattern (TextClient.search_pattern q1)),
      <- (like_lowercase_pattern (TextClient.search_pattern q2)),
      <- !search_pattern_lowercase, H.
    reflexivity.
  - intros pattern s1 s2 E.
    rewrite <- (like_lowercase_subject pattern s1),
      <- (like_lowercase_subject pattern s2), E.
    reflexivity.
Qed.

(** The queries CLAUDE and claude on the store of Claude and Anthropic. *)
Lemma search_entities_ignores_case_witness :
  TextClient.search_entities "CLAUDE" None Sample.graph
  = TextClient.search_entities "claude" None Sample.graph.
Proof.
  exact (proj1 (search_entities_ignores_case
                  "CLAUDE" "claude" None Sample.graph eq_refl)).
Defined.



Lemma like_any (s : string) : Sqlite.like "%" s = true.
Proof.
  induction s as [|c s IH]; [reflexivity|].
  rewrite like_percent, IH. apply orb_true_r.
Qed.




Lemma replace_in_run_separators (q : string) :
  Spec.every Js.is_separator q = true ->
  Js.replace_separator_runs true q = EmptyString.
Proof.
  induction q as [|c q IH]; simpl; [reflexivity|].
  intros H. apply andb_true_iff in H. destruct H as [Hc Hq].
  rewrite Hc. apply IH. exact Hq.
Qed.

Lemma search_pattern_separators (q : string) :
  q <> EmptyString -> Spec.every Js.is_separator q = true ->
  TextClient.search_pattern q = "%%%".
Proof.
  intros N H. destruct q as [|c q]; [congruence|].
  simpl in H. apply andb_true_iff in H. destruct H as [Hc Hq].
  unfold TextClient.search_pattern, TextClient.normalized_query. simpl.
  rewrite Hc, (replace_in_run_separators q Hq). reflexivity.
Qed.

(** X6. A query that is not empty and consists of underscores, hyphens and
    white space only has the pattern of three percent signs, which matches
    every text: every stored entity is among the matches of such a
    query. *)
Theorem separator_query_matches_every_entity :
  forall (query : string) (db : Db.database),
    query <> EmptyString ->
    Spec.every Js.is_separator query = true ->
    (forall s, Sqlite.like (TextClient.search_pattern query) s = true)
    /\ (forall e,
          In e (Db.entities db) ->
          In (Db.e_name e)
             (map Search.s_name
                  (Spec.matches (TextClient.search_pattern query) db))).
Proof.
  intros query db N H.
  rewrite (search_pattern_separators query N H).
  assert (L : forall s, Sqlite.like "%%%" s = true).
  { intros s. rewrite like_percent.
    assert (L2 : Sqlite.like "%%" s = true).
    { rewrite like_percent, like_any. reflexivity. }
    rewrite L2. reflexivity. }
  split; [exact L|].
  intros e He. destruct (@left_join_covers db e He) as [o Ho].
  apply in_map_iff.
  exists (Search.select_columns "%%%" (e, o)).
  split; [reflexivity|]. apply matches_in. exists (e, o).
  split; [exact Ho|]. split; [|reflexivity].
  unfold Search.where_clause. simpl fst. rewrite L. reflexivity.
Qed.

(** The query of one hyphen against the name Claude. *)
Lemma separator_query_matches_every_entity_witness :
  Sqlite.like (TextClient.search_pattern "-") "Claude" = true.
Proof.
  apply (proj1 (separator_query_matches_every_entity "-" Sample.graph
                  ltac:(discriminate) eq_refl) "Claude").
Defined.

(** ** What the writing requests keep *)

Lemma upsert_loop_invariant (P : Db.database -> Prop) :
  (forall now e db vec seq,
      Spec.rejection e = None -> P db ->
      P {| Db.entities :=
             Spec.upserted_rows now (VecClient.name e)
                                (VecClient.entityType e) db;
           Db.observations :=
             Spec.replaced_observations (VecClient.name e)
                                        (VecClient.observations e) db;
           Db.relations := Db.relations db;
           Db.entities_vec := vec;
           Db.vec_sequence := seq |}) ->
  forall now es db db',
    P db ->
    Db.for_each (VecClient.upsert_entity now) es db = (Db.Ok tt, db') ->
    P db'.
Proof.
  intros Step now es. induction es as [|e es IH]; intros db db' HP H.
  - simpl in H. injection H as <-. exact HP.
  - simpl in H. unfold Db.bind in H.
    destruct (Spec.rejection e) as [m|] eqn:R.
    + destruct (@upsert_entity_rejects now e db m R) as [d E].
      rewrite E in H. discriminate.
    + destruct (@upsert_entity_accepts now e db R) as (vec & seq & E).
      rewrite E in H. eapply IH; [|exact H].
      apply Step; assumption.
Qed.

Lemma create_entities_invariant (P : Db.database -> Prop) :
  (forall now e db vec seq,
      Spec.rejection e = None -> P db ->
      P {| Db.entities :=
             Spec.upserted_rows now (VecClient.name e)
                                (VecClient.entityType e) db;
           Db.observations :=
             Spec.replaced_observations (VecClient.name e)
                                        (VecClient.observations e) db;
           Db.relations := Db.relations db;
           Db.entities_vec := vec;
           Db.vec_sequence := seq |}) ->
  forall now es db,
    P db -> P (snd (VecClient.create_entities now es db)).
Proof.
  intros Step now es db HP.
  destruct (@create_entities_cases now es db)
    as [[_ (db' & L & ->)]|(e & m & _ & _ & ->)]; simpl.
  - eapply upsert_loop_invariant; eassumption.
  - exact HP.
Qed.

Lemma create_relations_invariant (P : Db.database -> Prop) :
  (forall s t ty db,
      Sql.entity_exists s db = true -> Sql.entity_exists t db = true ->
      P db ->
      P {| Db.entities := Db.entities db;
           Db.observations := Db.observations db;
           Db.relations :=
             Db.relations db
             ++ [{| Db.r_source := s; Db.r_target := t;
                    Db.r_relation_type := ty |}];
           Db.entities_vec := Db.entities_vec db;
           Db.vec_sequence := Db.vec_sequence db |}) ->
  forall batch db,
    P db -> P (snd (VecClient.create_relations batch db)).
Proof.
  intros Step batch db HP. rewrite @create_relations_unfold.
  assert (L : forall l d, P d -> P (snd (Spec.relations_loop l d))).
  { unfold Spec.relations_loop.
    induction l as [|r l IH]; intros d Hd; [exact Hd|].
    simpl. unfold Db.bind, Sql.insert_or_ignore_relation at 1.
    destruct (existsb _ (Db.relations d)); [apply IH; exact Hd|].
    destruct (Sql.entity_exists (VecClient.from r) d) eqn:E1;
      [|exact Hd].
    destruct (Sql.entity_exists (VecClient.to r) d) eqn:E2;
      [|exact Hd].
    cbn [andb]. apply IH. apply Step; assumption. }
  specialize (L batch db HP).
  destruct (Spec.relations_loop batch db) as [[[]|m] d]; simpl in *;
    assumption.
Qed.

Lemma delete_relation_run (s t ty : string) (db : Db.database) :
  VecClient.delete_relation s t ty db
  = if (Spec.stored_count s t ty db =? 0)%nat
    then (Db.Throw (Messages.failed_to_delete_relation
                    ++ Messages.relation_not_found s t ty), db)
    else (Db.Ok tt,
          {| Db.entities := Db.entities db;
             Db.observations := Db.observations db;
             Db.relations :=
               filter (fun r => negb (Sql.same_triple s t ty r))
                      (Db.relations db);
             Db.entities_vec := Db.entities_vec db;
             Db.vec_sequence := Db.vec_sequence db |}).
Proof.
  unfold VecClient.delete_relation, Db.rethrow, Db.bind, Sql.delete_relation.
  fold (Spec.stored_count s t ty db).
  destruct (Spec.stored_count s t ty db =? 0)%nat eqn:E; [|reflexivity].
  unfold Db.throw. f_equal.
  apply Nat.eqb_eq in E. unfold Spec.stored_count in E.
  assert (F : filter (fun r => negb (Sql.same_triple s t ty r))
                     (Db.relations db) = Db.relations db).
  { induction (Db.relations db) as [|r l IH]; [reflexivity|].
    simpl in *. destruct (Sql.same_triple s t ty r); simpl in *;
      [discriminate|].
    f_equal. apply IH. exact E. }
  rewrite F. destruct db; reflexivity.
Qed.

Lemma text_delete_relation_as_vec (s t ty : string) :
  TextClient.delete_relation s t ty = VecClient.delete_relation s t ty.
Proof. reflexivity. Qed.

Lemma text_delete_entity_as_vec (n : string) (db : Db.database) :
  fst (TextClient.delete_entity n db) = fst (VecClient.delete_entity n db)
  /\ Db.entities (snd (TextClient.delete_entity n db))
     = Db.entities (snd (VecClient.delete_entity n db))
  /\ Db.observations (snd (TextClient.delete_entity n db))
     = Db.observations (snd (VecClient.delete_entity n db))
  /\ Db.relations (snd (TextClient.delete_entity n db))
     = Db.relations (snd (VecClient.delete_entity n db)).
Proof.
  destruct (Sql.entity_exists n db) eqn:E.
  - rewrite (@text_delete_entity_found n db E),
      (@vec_delete_entity_found n db E).
    repeat split.
  - destruct (@delete_entity_missing n db E) as [-> ->]. repeat split.
Qed.

(** X7. A writing call either returns, or throws and leaves the database
    exactly as it was: [create_entities], [create_relations],
    [delete_entity] and [delete_relation] never leave a part of their
    work behind. *)
Theorem failed_write_changes_nothing :
  forall (r : Spec.request) (db : Db.database),
    (exists db', Spec.perform r db = (Db.Ok tt, db'))
    \/ (exists m, Spec.perform r db = (Db.Throw m, db)).
Proof.
  intros [now batch|batch|n|s t ty] db; simpl.
  - destruct (@create_entities_cases now batch db)
      as [[_ (db' & _ & E)]|(e & m & _ & _ & E)]; rewrite E; eauto.
  - rewrite @create_relations_unfold.
    destruct (Spec.relations_loop batch db) as [[[]|m] d]; eauto.
  - destruct (Sql.entity_exists n db) eqn:E.
    + rewrite (@vec_delete_entity_found n db E). eauto.
    + rewrite (proj2 (@delete_entity_missing n db E)). eauto.
  - rewrite delete_relation_run.
    destruct (_ =? 0)%nat; eauto.
Qed.

(** ** Names stay unique *)

Lemma NoDup_snoc {A} (l : list A) (x : A) :
  NoDup l -> ~ In x l -> NoDup (l ++ [x]).
Proof.
  induction l as [|y l IH]; intros N H; simpl.
  - constructor; [intros []|constructor].
  - inversion N as [|? ? Hy Nl]; subst. constructor.
    + rewrite in_app_iff. simpl. intros [I|[E|[]]]; [exact (Hy I)|].
      apply H. left. symmetry. exact E.
    + apply IH; [exact Nl|]. intros I. apply H. right. exact I.
Qed.

Lemma NoDup_map_filter {A B} (f : A -> B) (g : A -> bool) (l : list A) :
  NoDup (map f l) -> NoDup (map f (filter g l)).
Proof.
  induction l as [|x l IH]; simpl; intros N; [constructor|].
  inversion N as [|? ? Hx Nl]; subst.
  destruct (g x); simpl; [|apply IH; exact Nl].
  constructor; [|apply IH; exact Nl].
  intros I. apply Hx. apply in_map_iff in I. destruct I as (y & E & I).
  apply filter_In in I. apply in_map_iff. exists y. tauto.
Qed.

Lemma upserted_rows_names (now : Z) (n ty : string) (db : Db.database) :
  Spec.names_unique db ->
  NoDup (map Db.e_name (Spec.upserted_rows now n ty db)).
Proof.
  unfold Spec.names_unique, Spec.upserted_rows. intros U.
  destruct (Sql.select_entity n db) as [r|] eqn:E.
  - rewrite map_map.
    rewrite (map_ext _ Db.e_name); [exact U|].
    intros e. unfold Spec.retyped. destruct (Sql.named n e); reflexivity.
  - rewrite map_app. simpl. apply NoDup_snoc; [exact U|].
    intros I. apply in_map_iff in I. destruct I as (e & En & I).
    unfold Sql.select_entity in E.
    apply (find_none _ _ E) in I. apply named_eq in En. congruence.
Qed.

Lemma serve_names_unique (r : Spec.request) (db : Db.database) :
  Spec.names_unique db -> Spec.names_unique (Spec.serve r db).
Proof.
  intros U. destruct r as [now batch|batch|n|s t ty]; simpl.
  - apply (create_entities_invariant Spec.names_unique); [|exact U].
    intros now' e d vec seq _ Ud. unfold Spec.names_unique. simpl.
    apply upserted_rows_names. exact Ud.
  - apply (create_relations_invariant Spec.names_unique); [|exact U].
    intros s t ty d _ _ Ud. exact Ud.
  - destruct (Sql.entity_exists n db) eqn:E.
    + rewrite (@vec_delete_entity_found n db E). simpl.
      unfold Spec.names_unique. simpl. apply NoDup_map_filter. exact U.
    + rewrite (proj2 (@delete_entity_missing n db E)). exact U.
  - rewrite delete_relation_run. destruct (_ =? 0)%nat; exact U.
Qed.

(** X8. No two stored entities have the same name, in any state that a
    sequence of writing requests reaches from a state where this holds, so
    from the tables of [initialize]: [create_entities] inserts a row only
    under a name it did not find. *)
Theorem entity_names_stay_unique :
  forall (requests : list Spec.request) (db : Db.database),
    Spec.names_unique db ->
    Spec.names_unique (Spec.run requests db).
Proof.
  intros requests. unfold Spec.run.
  induction requests as [|r rs IH]; intros db U; simpl; [exact U|].
  apply IH. apply serve_names_unique. exact U.
Qed.

(** Claude written twice and Anthropic once, from the empty tables. *)
Lemma entity_names_stay_unique_witness :
  Spec.names_unique
    (Spec.run [Spec.CreateEntities 1
                 [Spec.without_embedding Sample.claude;
                  Spec.without_embedding Sample.anthropic];
               Spec.CreateEntities 2 [Spec.without_embedding Sample.claude']]
              Db.empty).
Proof.
  apply (entity_names_stay_unique _ Db.empty). constructor.
Defined.

(** ** References stay valid *)

Lemma upserted_rows_monotone (now : Z) (n ty : string) (db : Db.database)
  (m : string) :
  Sql.entity_exists m db = true ->
  existsb (Sql.named m) (Spec.upserted_rows now n ty db) = true.
Proof.
  unfold Sql.entity_exists, Spec.upserted_rows. intros H.
  destruct (Sql.select_entity n db).
  - apply existsb_exists in H. destruct H as (x & Hx & Hn).
    apply existsb_exists. exists (Spec.retyped n ty x).
    split; [apply in_map; exact Hx|].
    rewrite (@named_retyped n m ty x). exact Hn.
  - rewrite existsb_app, H. reflexivity.
Qed.

Lemma existsb_named_filter (n m : string) (l : list Db.entity_row) :
  m <> n ->
  existsb (Sql.named m) (filter (fun e => negb (Sql.named n e)) l)
  = existsb (Sql.named m) l.
Proof.
  intros D. induction l as [|x l IH]; simpl; [reflexivity|].
  destruct (Sql.named n x) eqn:X; simpl.
  - apply named_eq in X.
    assert (N : Sql.named m x = false).
    { unfold Sql.named. rewrite X. apply String.eqb_neq. congruence. }
    rewrite N. exact IH.
  - rewrite IH. reflexivity.
Qed.

Lemma serve_referential (r : Spec.request) (db : Db.database) :
  Spec.referential db -> Spec.referential (Spec.serve r db).
Proof.
  intros R. destruct r as [now batch|batch|n|s t ty]; simpl.
  - apply (create_entities_invariant Spec.referential); [|exact R].
    intros now' e d vec seq _ [Ho Hr].
    unfold Spec.referential, Sql.entity_exists. simpl. split.
    + unfold Spec.replaced_observations. apply Forall_app. split.
      * apply Forall_forall. intros o Hin. apply filter_In in Hin.
        rewrite Forall_forall in Ho.
        apply upserted_rows_monotone. apply Ho. tauto.
      * apply Forall_forall. intros o Hin. apply in_map_iff in Hin.
        destruct Hin as (c & <- & _). simpl. apply upserted_rows_exists.
    + eapply Forall_impl; [|exact Hr].
      intros x [H1 H2]. split; apply upserted_rows_monotone; assumption.
  - apply (create_relations_invariant Spec.referential); [|exact R].
    intros s t ty d Hs Ht [Ho Hr].
    unfold Spec.referential, Sql.entity_exists in *. simpl. split.
    + exact Ho.
    + apply Forall_app. split; [exact Hr|].
      constructor; [|constructor]. simpl. split; assumption.
  - destruct (Sql.entity_exists n db) eqn:E.
    + rewrite (@vec_delete_entity_found n db E). destruct R as [Ho Hr].
      unfold Spec.referential, Sql.entity_exists in *. simpl. split.
      * apply Forall_forall. intros o Hin. apply filter_In in Hin.
        destruct Hin as [Hin Hn]. rewrite Forall_forall in Ho.
        rewrite existsb_named_filter; [apply Ho; exact Hin|].
        apply negb_true_iff in Hn. unfold Sql.owned_by in Hn.
        apply String.eqb_neq. exact Hn.
      * apply Forall_forall. intros x Hin. apply filter_In in Hin.
        destruct Hin as [Hin Hn]. rewrite Forall_forall in Hr.
        apply negb_true_iff in Hn. unfold Sql.touches in Hn.
        apply orb_false_iff in Hn. destruct Hn as [H1 H2].
        apply String.eqb_neq in H1, H2.
        rewrite !existsb_named_filter by assumption.
        apply Hr. exact Hin.
    + rewrite (proj2 (@delete_entity_missing n db E)). exact R.
  - rewrite delete_relation_run. destruct (_ =? 0)%nat; [exact R|].
    destruct R as [Ho Hr]. unfold Spec.referential, Sql.entity_exists in *.
    simpl. split; [exact Ho|].
    apply Forall_forall. intros x Hin. apply filter_In in Hin.
    rewrite Forall_forall in Hr. apply Hr. tauto.
Qed.

(** X9. With foreign keys on, references never dangle: in every state that
    a sequence of writing requests reaches from a state where this holds,
    so from the tables of [initialize], every observation is owned by a
    stored entity and every relation has stored entities as source and as
    target.  [create_relations] inserts only between stored entities and
    [delete_entity] removes what names the entity before the entity. *)
Theorem references_never_dangle :
  forall (requests : list Spec.request) (db : Db.database),
    Spec.referential db ->
    Spec.referential (Spec.run requests db).
Proof.
  intros requests. unfold Spec.run.
  induction requests as [|r rs IH]; intros db R; simpl; [exact R|].
  apply IH. apply serve_referential. exact R.
Qed.

(** Claude and Anthropic are created and related, then Anthropic is
    deleted. *)
Lemma references_never_dangle_witness :
  Spec.referential
    (Spec.run [Spec.CreateEntities 1
                 [Spec.without_embedding Sample.claude;
                  Spec.without_embedding Sample.anthropic];
               Spec.CreateRelations
                 [Sample.vec_relation "Claude" "Anthropic" "created_by"];
               Spec.DeleteEntity "Anthropic"]
              Db.empty).
Proof.
  apply (references_never_dangle _ Db.empty).
  split; constructor.
Defined.

(** ** Deleting a relation *)

Lemma filter_disjoint_length {A} (f g : A -> bool) (l : list A) :
  (forall x, f x = true -> g x = false) ->
  List.length (filter f (filter (fun x => negb (g x)) l))
  = List.length (filter f l).
Proof.
  intros D. induction l as [|x l IH]; simpl; [reflexivity|].
  destruct (g x) eqn:G; simpl.
  - destruct (f x) eqn:F; [apply D in F; congruence|exact IH].
  - destruct (f x); simpl; rewrite IH; reflexivity.
Qed.

Lemma filter_negb_self_length {A} (f : A -> bool) (l : list A) :
  List.length (filter f (filter (fun x => negb (f x)) l)) = 0%nat.
Proof.
  induction l as [|x l IH]; simpl; [reflexivity|].
  destruct (f x) eqn:F; simpl; [exact IH|]. rewrite F. exact IH.
Qed.

Lemma filter_none {A} (f : A -> bool) (l : list A) :
  List.length (filter f l) = 0%nat ->
  filter (fun x => negb (f x)) l = l.
Proof.
  induction l as [|x l IH]; simpl; [reflexivity|].
  destruct (f x); simpl; [discriminate|].
  intros H. f_equal. apply IH. exact H.
Qed.

(** X10. [delete_relation] removes the rows of the given triple and no
    other row: when the triple is not stored it throws Not-Found and the
    database is as before; when it is stored the call returns, the triple
    is no longer stored, and the entities, the observations and the count
    of every other triple are as before. *)
Theorem delete_relation_removes_the_triple_only :
  forall (s t ty : string) (db : Db.database),
    (Spec.stored_count s t ty db = 0%nat ->
     TextClient.delete_relation s t ty db
     = (Db.Throw (Messages.failed_to_delete_relation
                  ++ Messages.relation_not_found s t ty), db))
    /\ (Spec.stored_count s t ty db <> 0%nat ->
        exists db',
          TextClient.delete_relation s t ty db = (Db.Ok tt, db')
          /\ Spec.stored_count s t ty db' = 0%nat
          /\ Db.entities db' = Db.entities db
          /\ Db.observations db' = Db.observations db
          /\ (forall s' t' ty',
                (s', t', ty') <> (s, t, ty) ->
                Spec.stored_count s' t' ty' db'
                = Spec.stored_count s' t' ty' db)).
Proof.
  intros s t ty db. rewrite text_delete_relation_as_vec, delete_relation_run.
  split; intros H.
  - rewrite H. reflexivity.
  - apply Nat.eqb_neq in H. rewrite H. eexists. split; [reflexivity|].
    unfold Spec.stored_count. simpl. split; [apply filter_negb_self_length|].
    split; [reflexivity|]. split; [reflexivity|].
    intros s' t' ty' D. apply filter_disjoint_length.
    intros x X. apply same_triple_eq in X. destruct X as (X1 & X2 & X3).
    destruct (Sql.same_triple s t ty x) eqn:Y; [|reflexivity].
    apply same_triple_eq in Y. destruct Y as (Y1 & Y2 & Y3).
    exfalso. apply D. congruence.
Qed.

(** Deleting the stored relation of Claude, and a relation that is not
    stored. *)
Lemma delete_relation_removes_the_triple_only_witness :
  TextClient.delete_relation "Anthropic" "Claude" "created_by" Sample.graph
  = (Db.Throw (Messages.failed_to_delete_relation
               ++ Messages.relation_not_found
                    "Anthropic" "Claude" "created_by"), Sample.graph)
  /\ exists db',
       TextClient.delete_relation "Claude" "Anthropic" "created_by"
                                  Sample.graph = (Db.Ok tt, db')
       /\ Spec.stored_count "Claude" "Anthropic" "created_by" db' = 0%nat
       /\ Db.entities db' = Db.entities Sample.graph
       /\ Db.observations db' = Db.observations Sample.graph
       /\ (forall s' t' ty',
             (s', t', ty') <> ("Claude", "Anthropic", "created_by") ->
             Spec.stored_count s' t' ty' db'
             = Spec.stored_count s' t' ty' Sample.graph).
Proof.
  split.
  - apply (proj1 (delete_relation_removes_the_triple_only
                    "Anthropic" "Claude" "created_by" Sample.graph)).
    reflexivity.
  - apply (proj2 (delete_relation_removes_the_triple_only
                    "Claude" "Anthropic" "created_by" Sample.graph)).
    discriminate.
Defined.

(** X11. Creating a relation that is not stored, between two stored
    entities, and deleting it again gives back the database as it was. *)
Theorem create_then_delete_relation_restores :
  forall (r : TextClient.Relation) (db : Db.database),
    Sql.entity_exists (TextClient.from r) db = true ->
    Sql.entity_exists (TextClient.to r) db = true ->
    Spec.stored_count (TextClient.from r) (TextClient.to r)
                      (TextClient.relationType r) db = 0%nat ->
    exists db1,
      TextClient.create_relations [r] db = (Db.Ok tt, db1)
      /\ Spec.stored_count (TextClient.from r) (TextClient.to r)
                           (TextClient.relationType r) db1 = 1%nat
      /\ TextClient.delete_relation (TextClient.from r) (TextClient.to r)
                                    (TextClient.relationType r) db1
         = (Db.Ok tt, db).
Proof.
  intros r db Hs Ht Hn.
  assert (E : existsb (Sql.same_triple (TextClient.from r) (TextClient.to r)
                                       (TextClient.relationType r))
                      (Db.relations db) = false).
  { rewrite existsb_filter_length. unfold Spec.stored_count in Hn.
    rewrite Hn. reflexivity. }
  assert (S : Sql.same_triple (TextClient.from r) (TextClient.to r)
                (TextClient.relationType r)
                {| Db.r_source := TextClient.from r;
                   Db.r_target := TextClient.to r;
                   Db.r_relation_type := TextClient.relationType r |} = true).
  { apply same_triple_eq. repeat split. }
  eexists. split; [|split].
  - unfold TextClient.create_relations, Db.rethrow, Db.transaction. simpl.
    unfold Db.bind, Sql.insert_or_ignore_relation.
    rewrite E, Hs, Ht. reflexivity.
  - unfold Spec.stored_count in *. simpl.
    rewrite filter_app, length_app, Hn. simpl. rewrite S. reflexivity.
  - rewrite text_delete_relation_as_vec, delete_relation_run.
    unfold Spec.stored_count in *. simpl.
    rewrite !filter_app, length_app, Hn. simpl. rewrite S. simpl.
    rewrite (filter_none _ _ Hn). rewrite app_nil_r.
    destruct db; reflexivity.
Qed.

(** Claude -> Anthropic is created on the store without relations and
    deleted again. *)
Lemma create_then_delete_relation_restores_witness :
  exists db1,
    TextClient.create_relations
      [Sample.relation "Claude" "Anthropic" "created_by"] Sample.two_entities
    = (Db.Ok tt, db1)
    /\ Spec.stored_count "Claude" "Anthropic" "created_by" db1 = 1%nat
    /\ TextClient.delete_relation "Claude" "Anthropic" "created_by" db1
       = (Db.Ok tt, Sample.two_entities).
Proof.
  apply (create_then_delete_relation_restores
           (Sample.relation "Claude" "Anthropic" "created_by")
           Sample.two_entities); reflexivity.
Defined.

(** ** What a write leaves alone *)

Lemma get_entity_ext (n : string) (db1 db2 : Db.database) :
  Sql.select_entity n db1 = Sql.select_entity n db2 ->
  Sql.select_observations n db1 = Sql.select_observations n db2 ->
  fst (TextClient.get_entity n db1) = fst (TextClient.get_entity n db2).
Proof.
  intros He Ho. unfold TextClient.get_entity, Db.bind, Db.query.
  rewrite He. destruct (Sql.select_entity n db2); [|reflexivity].
  simpl. rewrite Ho. reflexivity.
Qed.

(** X12. [create_entities] leaves the entities that its batch does not
    name as they are: [get_entity] of such a name gives the same answer
    after the call as before, whether the call returned or threw. *)
Theorem create_entities_leaves_other_entities :
  forall (now : Z) (batch : list TextClient.Entity) (db : Db.database)
         (n : string),
    Forall (fun e => TextClient.name e <> n) batch ->
    fst (TextClient.get_entity n
           (snd (TextClient.create_entities now batch db)))
    = fst (TextClient.get_entity n db).
Proof.
  intros now batch db n H. rewrite text_create_as_vec.
  destruct (@create_entities_cases now (map Spec.without_embedding batch) db)
    as [[F (db' & L & ->)]|(e & m & _ & _ & ->)]; simpl; [|reflexivity].
  destruct (@upsert_loop_preserves now n (map Spec.without_embedding batch)
              db F) as (d & L' & Ho & He).
  { apply Forall_map. exact H. }
  rewrite L in L'. injection L' as <-.
  apply get_entity_ext; assumption.
Qed.

(** An upsert of Claude does not change what is read for Anthropic. *)
Lemma create_entities_leaves_other_entities_witness :
  fst (TextClient.get_entity "Anthropic"
         (snd (TextClient.create_entities 9 [Sample.claude'] Sample.graph)))
  = fst (TextClient.get_entity "Anthropic" Sample.graph).
Proof.
  apply (create_entities_leaves_other_entities
           9 [Sample.claude'] Sample.graph "Anthropic").
  repeat constructor. discriminate.
Defined.

Lemma find_named_filter (n m : string) (l : list Db.entity_row) :
  m <> n ->
  find (Sql.named m) (filter (fun e => negb (Sql.named n e)) l)
  = find (Sql.named m) l.
Proof.
  intros D. induction l as [|x l IH]; simpl; [reflexivity|].
  destruct (Sql.named n x) eqn:X; simpl.
  - apply named_eq in X.
    assert (N : Sql.named m x = false).
    { unfold Sql.named. rewrite X. apply String.eqb_neq. congruence. }
    rewrite N. exact IH.
  - destruct (Sql.named m x); [reflexivity|exact IH].
Qed.

Lemma filter_owned_filter (n m : string) (l : list Db.observation_row) :
  m <> n ->
  filter (Sql.owned_by m) (filter (fun o => negb (Sql.owned_by n o)) l)
  = filter (Sql.owned_by m) l.
Proof.
  intros D. induction l as [|o l IH]; simpl; [reflexivity|].
  destruct (Sql.owned_by n o) eqn:O; simpl.
  - assert (N : Sql.owned_by m o = false).
    { unfold Sql.owned_by in *. apply String.eqb_eq in O. rewrite O.
      apply String.eqb_neq. congruence. }
    rewrite N. exact IH.
  - destruct (Sql.owned_by m o); [f_equal|]; exact IH.
Qed.

(** X13. [delete_entity] leaves the other entities as they are:
    [get_entity] of another name gives the same answer after the call as
    before, whether the call returned or threw. *)
Theorem delete_entity_leaves_other_entities :
  forall (n m : string) (db : Db.database),
    m <> n ->
    fst (TextClient.get_entity m (snd (TextClient.delete_entity n db)))
    = fst (TextClient.get_entity m db).
Proof.
  intros n m db D.
  destruct (Sql.entity_exists n db) eqn:E.
  - rewrite (@text_delete_entity_found n db E). simpl.
    apply get_entity_ext.
    + unfold Sql.select_entity. simpl. apply find_named_filter. exact D.
    + unfold Sql.select_observations. simpl.
      rewrite filter_owned_filter by exact D. reflexivity.
  - rewrite (proj1 (@delete_entity_missing n db E)). reflexivity.
Qed.

(** Deleting Claude does not change what is read for Anthropic. *)
Lemma delete_entity_leaves_other_entities_witness :
  fst (TextClient.get_entity "Anthropic"
         (snd (TextClient.delete_entity "Claude" Sample.graph)))
  = fst (TextClient.get_entity "Anthropic" Sample.graph).
Proof.
  apply (delete_entity_leaves_other_entities "Claude" "Anthropic"
           Sample.graph).
  discriminate.
Defined.

Lemma select_entity_upserted_keeps (now : Z) (n ty : string)
  (db : Db.database) (m : string) (r : Db.entity_row) :
  find (Sql.named m) (Db.entities db) = Some r ->
  exists r',
    find (Sql.named m) (Spec.upserted_rows now n ty db) = Some r'
    /\ Db.e_rowid r' = Db.e_rowid r
    /\ Db.e_created_at r' = Db.e_created_at r
    /\ Db.e_name r' = Db.e_name r.
Proof.
  unfold Spec.upserted_rows. intros H.
  destruct (Sql.select_entity n db).
  - rewrite (@find_retyped n m ty (Db.entities db)), H. simpl.
    eexists. split; [reflexivity|].
    unfold Spec.retyped. destruct (Sql.named n r); repeat split.
  - rewrite find_appended, H. exists r. repeat split.
Qed.

(** X14. An upsert keeps the identity of a stored entity: whatever batch
    [create_entities] runs, a name that was stored is still stored with
    the same rowid and the same creation time, so that updating an entity
    does not renew its recency.  It holds for both clients. *)
Theorem create_entities_keeps_creation_time :
  forall (now : Z) (db : Db.database) (n : string) (r : Db.entity_row),
    Sql.select_entity n db = Some r ->
    (forall batch : list VecClient.Entity,
        exists r',
          Sql.select_entity n (snd (VecClient.create_entities now batch db))
          = Some r'
          /\ Db.e_rowid r' = Db.e_rowid r
          /\ Db.e_created_at r' = Db.e_created_at r
          /\ Db.e_name r' = Db.e_name r)
    /\ (forall batch : list TextClient.Entity,
          exists r',
            Sql.select_entity n (snd (TextClient.create_entities now batch db))
            = Some r'
            /\ Db.e_rowid r' = Db.e_rowid r
            /\ Db.e_created_at r' = Db.e_created_at r
            /\ Db.e_name r' = Db.e_name r).
Proof.
  intros now db n r H.
  assert (V : forall batch : list VecClient.Entity,
             exists r',
               Sql.select_entity n
                 (snd (VecClient.create_entities now batch db)) = Some r'
               /\ Db.e_rowid r' = Db.e_rowid r
               /\ Db.e_created_at r' = Db.e_created_at r
               /\ Db.e_name r' = Db.e_name r).
  { intros batch.
    apply (create_entities_invariant
             (fun d => exists r',
                  Sql.select_entity n d = Some r'
                  /\ Db.e_rowid r' = Db.e_rowid r
                  /\ Db.e_created_at r' = Db.e_created_at r
                  /\ Db.e_name r' = Db.e_name r)).
    - intros now' e d vec seq _ (r1 & H1 & A & B & C).
      destruct (select_entity_upserted_keeps now' (VecClient.name e)
                  (VecClient.entityType e) d n r1 H1)
        as (r2 & H2 & A2 & B2 & C2).
      exists r2. unfold Sql.select_entity. simpl.
      split; [exact H2|]. repeat split; congruence.
    - exists r. auto. }
  split; [exact V|].
  intros batch. rewrite text_create_as_vec. apply V.
Qed.

(** Claude, created at time 5, is written again at time 9. *)
Lemma create_entities_keeps_creation_time_witness :
  exists r',
    Sql.select_entity "Claude"
      (snd (TextClient.create_entities 9 [Sample.claude'] Sample.graph))
    = Some r'
    /\ Db.e_rowid r' = 1
    /\ Db.e_created_at r' = 5
    /\ Db.e_name r' = "Claude".
Proof.
  exact (proj2 (create_entities_keeps_creation_time
                  9 Sample.graph "Claude"
                  {| Db.e_rowid := 1; Db.e_name := "Claude";
                     Db.e_entity_type := "AI Assistant";
                     Db.e_created_at := 5 |} eq_refl)
               [Sample.claude']).
Defined.

(** ** Each entity once, and exactly the matching ones *)

Lemma distinct_NoDup (l : list Search.row) : NoDup (Search.distinct l).
Proof.
  induction l as [|r l IH]; simpl; constructor.
  - intros H. apply filter_In in H. destruct H as [_ H].
    assert (E : Search.row_eqb r r = true) by (apply row_eqb_eq; reflexivity).
    rewrite E in H. discriminate.
  - apply NoDup_filter. exact IH.
Qed.

Lemma insert_sorted_NoDup (r : Search.row) (l : list Search.row) :
  NoDup l -> ~ In r l -> NoDup (Search.insert_sorted r l).
Proof.
  induction l as [|x l IH]; intros N H; simpl.
  - constructor; [exact H|constructor].
  - destruct (Search.order_by r x); [constructor; assumption|].
    inversion N as [|? ? Hx Nl]; subst. constructor.
    + intros I. apply insert_sorted_in in I. destruct I as [->|I].
      * apply H. left. reflexivity.
      * exact (Hx I).
    + apply IH; [exact Nl|]. intros I. apply H. right. exact I.
Qed.

Lemma sort_NoDup (l : list Search.row) : NoDup l -> NoDup (Search.sort l).
Proof.
  induction l as [|r l IH]; intros N; simpl; [constructor|].
  inversion N as [|? ? Hr Nl]; subst.
  apply insert_sorted_NoDup; [apply IH; exact Nl|].
  intros I. apply (proj1 (@sort_in r l)) in I. exact (Hr I).
Qed.

Lemma firstn_NoDup {A} (n : nat) (l : list A) :
  NoDup l -> NoDup (firstn n l).
Proof.
  revert l. induction n as [|n IH]; intros l N; simpl; [constructor|].
  destruct l as [|x l]; [constructor|].
  inversion N as [|? ? Hx Nl]; subst. constructor; [|apply IH; exact Nl].
  intros I. apply Hx. eapply firstn_in. exact I.
Qed.

Lemma NoDup_map_on {A B} (f : A -> B) (l : list A) :
  (forall x y, In x l -> In y l -> f x = f y -> x = y) ->
  NoDup l -> NoDup (map f l).
Proof.
  induction l as [|x l IH]; intros J N; simpl; [constructor|].
  inversion N as [|? ? Hx Nl]; subst. constructor.
  - intros I. apply in_map_iff in I. destruct I as (y & E & I).
    apply Hx. rewrite (J x y); [exact I|left; reflexivity|right; exact I|].
    symmetry. exact E.
  - apply IH; [|exact Nl]. intros a b Ha Hb. apply J; right; assumption.
Qed.

Lemma names_unique_same (db : Db.database) (e1 e2 : Db.entity_row) :
  Spec.names_unique db ->
  In e1 (Db.entities db) -> In e2 (Db.entities db) ->
  Db.e_name e1 = Db.e_name e2 -> e1 = e2.
Proof.
  unfold Spec.names_unique.
  induction (Db.entities db) as [|x l IH]; intros N H1 H2 E; [destruct H1|].
  simpl in N. inversion N as [|? ? Hx Nl]; subst.
  destruct H1 as [<-|H1], H2 as [<-|H2].
  - reflexivity.
  - exfalso. apply Hx. rewrite E. apply in_map. exact H2.
  - exfalso. apply Hx. rewrite <- E. apply in_map. exact H1.
  - apply IH; assumption.
Qed.

Lemma matches_same_name (pattern : string) (db : Db.database)
  (r1 r2 : Search.row) :
  Spec.names_unique db ->
  In r1 (Spec.matches pattern db) -> In r2 (Spec.matches pattern db) ->
  Search.s_name r1 = Search.s_name r2 -> r1 = r2.
Proof.
  intros U H1 H2 E.
  apply matches_in in H1. destruct H1 as ([e1 o1] & I1 & _ & ->).
  apply matches_in in H2. destruct H2 as ([e2 o2] & I2 & _ & ->).
  apply left_join_in in I1, I2. simpl in E.
  rewrite (names_unique_same db e1 e2 U (proj1 I1) (proj1 I2) E).
  reflexivity.
Qed.

Lemma matches_names_NoDup (pattern : string) (db : Db.database) (k : nat) :
  Spec.names_unique db ->
  NoDup (map Search.s_name (firstn k (Spec.matches pattern db))).
Proof.
  intros U. apply NoDup_map_on.
  - intros x y Hx Hy. apply (matches_same_name pattern db x y U).
    + eapply firstn_in. exact Hx.
    + eapply firstn_in. exact Hy.
  - apply firstn_NoDup. unfold Spec.matches.
    apply sort_NoDup. apply distinct_NoDup.
Qed.

Lemma sample_graph_names_unique : Spec.names_unique Sample.graph.
Proof.
  unfold Spec.names_unique.
  change (map Db.e_name (Db.entities Sample.graph))
    with ["Claude"; "Anthropic"].
  constructor; [intros [H|[]]; discriminate H|].
  constructor; [intros []|constructor].
Qed.

(** X15. When no two stored entities have the same name, [search_entities]
    returns each entity at most once, however many of its observations
    match the query. *)
Theorem search_entities_returns_each_entity_once :
  forall (query : string) (limit : option Z) (db : Db.database),
    Spec.names_unique db ->
    exists found,
      TextClient.search_entities query limit db = (Db.Ok found, db)
      /\ NoDup (map TextClient.name found).
Proof.
  intros query limit db U. eexists.
  split; [apply search_entities_rows|].
  rewrite map_map. simpl. apply matches_names_NoDup. exact U.
Qed.

(** Both observations of Claude match the query e; Claude comes once. *)
Lemma search_entities_returns_each_entity_once_witness :
  exists found,
    TextClient.search_entities "e" None Sample.graph
    = (Db.Ok found, Sample.graph)
    /\ NoDup (map TextClient.name found).
Proof.
  apply (search_entities_returns_each_entity_once "e" None Sample.graph).
  exact sample_graph_names_unique.
Defined.

(** X16. When the limit in effect is not below the number of matching
    entities, [search_entities] returns exactly the entities that match
    the pattern of the query in their name, in their type or in one of
    their observations: a stored entity is named in the result if and only
    if it matches. *)
Theorem search_entities_returns_the_matching_entities :
  forall (query : string) (limit : option Z) (db : Db.database),
    Spec.names_unique db ->
    (List.length (Spec.matches (TextClient.search_pattern query) db)
     <= Z.to_nat (TextClient.effective_limit
                    (TextClient.default_limit limit)))%nat ->
    exists found,
      TextClient.search_entities query limit db = (Db.Ok found, db)
      /\ (forall e,
            In e (Db.entities db) ->
            (In (Db.e_name e) (map TextClient.name found)
             <-> Spec.entity_matches (TextClient.search_pattern query) db e)).
Proof.
  intros query limit db U L. eexists.
  split; [apply search_entities_rows|].
  rewrite firstn_all2 by exact L. rewrite map_map. cbn [TextClient.name Spec.entity_of_row].
  generalize (TextClient.search_pattern query). intros p.
  intros e He. rewrite in_map_iff. split.
  - intros (r & En & Hr). apply matches_in in Hr.
    destruct Hr as ([e' o] & Hj & Hw & ->). cbn [Search.s_name Search.select_columns fst] in En.
    apply left_join_in in Hj. destruct Hj as [He' Ho].
    rewrite (names_unique_same db e' e U He' He En) in *.
    unfold Search.where_clause in Hw. cbn [fst snd] in Hw.
    unfold Spec.entity_matches.
    destruct (Sqlite.like p (Db.e_name e)); [auto|].
    destruct (Sqlite.like p (Db.e_entity_type e)); [auto|].
    cbn [orb] in Hw. destruct o as [x|]; [|discriminate].
    right. right. exists x. tauto.
  - intros M.
    assert (X : exists o, In (e, o) (Search.left_join_observations db)
                          /\ Search.where_clause p (e, o) = true).
    { destruct M as [H|[H|(x & Hx & Hn & Hl)]].
      - destruct (@left_join_covers db e He) as [o Ho]. exists o.
        split; [exact Ho|]. unfold Search.where_clause. cbn [fst snd].
        rewrite H. reflexivity.
      - destruct (@left_join_covers db e He) as [o Ho]. exists o.
        split; [exact Ho|]. unfold Search.where_clause. cbn [fst snd].
        rewrite H, orb_true_r. reflexivity.
      - exists (Some x). split.
        + apply left_join_in. auto.
        + unfold Search.where_clause. cbn [fst snd]. rewrite Hl.
          apply orb_true_r. }
    destruct X as (o & Hj & Hw).
    exists (Search.select_columns p (e, o)).
    split; [reflexivity|]. apply matches_in. exists (e, o). auto.
Qed.

(** The query company on the store of Claude and Anthropic, with the
    default limit. *)
Lemma search_entities_returns_the_matching_entities_witness :
  exists found,
    TextClient.search_entities "company" None Sample.graph
    = (Db.Ok found, Sample.graph)
    /\ (forall e,
          In e (Db.entities Sample.graph) ->
          (In (Db.e_name e) (map TextClient.name found)
           <-> Spec.entity_matches (TextClient.search_pattern "company")
                                   Sample.graph e)).
Proof.
  apply (search_entities_returns_the_matching_entities
           "company" None Sample.graph).
  - exact sample_graph_names_unique.
  - vm_compute. repeat constructor.
Defined.

(** ** The most recent entities *)

Lemma insert_recent_perm (r : Db.entity_row) (l : list Db.entity_row) :
  Permutation (Sql.insert_recent r l) (r :: l).
Proof.
  induction l as [|x l IH]; simpl; [reflexivity|].
  destruct (Db.e_created_at x <=? Db.e_created_at r); [reflexivity|].
  rewrite IH. apply perm_swap.
Qed.

Lemma by_recency_perm (l : list Db.entity_row) :
  Permutation (Sql.by_recency l) l.
Proof.
  induction l as [|r l IH]; simpl; [reflexivity|].
  rewrite insert_recent_perm. constructor. exact IH.
Qed.

Lemma insert_recent_sorted (r : Db.entity_row) (l : list Db.entity_row) :
  StronglySorted (fun a b => Db.e_created_at b <= Db.e_created_at a) l ->
  StronglySorted (fun a b => Db.e_created_at b <= Db.e_created_at a)
                 (Sql.insert_recent r l).
Proof.
  induction l as [|x l IH]; intros S; simpl.
  - repeat constructor.
  - inversion S as [|? ? Sl Fx]; subst.
    destruct (Z.leb_spec (Db.e_created_at x) (Db.e_created_at r)) as [E|E].
    + constructor; [exact S|]. constructor; [exact E|].
      eapply Forall_impl; [|exact Fx]. intros z Hz. simpl in Hz. lia.
    + constructor; [apply IH; exact Sl|].
      apply Forall_forall. intros z Hz.
      apply (Permutation_in _ (insert_recent_perm r l)) in Hz.
      destruct Hz as [<-|Hz]; [lia|].
      rewrite Forall_forall in Fx. apply Fx. exact Hz.
Qed.

Lemma by_recency_sorted (l : list Db.entity_row) :
  StronglySorted (fun a b => Db.e_created_at b <= Db.e_created_at a)
                 (Sql.by_recency l).
Proof.
  induction l as [|r l IH]; simpl; [constructor|].
  apply insert_recent_sorted. exact IH.
Qed.

Lemma get_recent_entities_run (limit : option Z) (db : Db.database) :
  TextClient.get_recent_entities limit db
  = (Db.Ok (map (Spec.entity_of_stored db)
                (Sql.select_recent (TextClient.default_limit limit) db)),
     db).
Proof. reflexivity. Qed.

(** X17. [get_recent_entities] returns the entities from the most recent
    one on: what it returns, followed by what it leaves out, is the whole
    [entities] table in the order of creation time, latest first.  It
    returns [limit] entities (10 when no limit is given) or all of them
    when they are fewer; the limit is not clamped: with limit 0 it returns
    nothing and with a negative limit everything. *)
Theorem get_recent_entities_returns_the_latest :
  forall (limit : option Z) (db : Db.database),
    exists rows rest,
      TextClient.get_recent_entities limit db
      = (Db.Ok (map (Spec.entity_of_stored db) rows), db)
      /\ Permutation (rows ++ rest) (Db.entities db)
      /\ StronglySorted
           (fun a b => Db.e_created_at b <= Db.e_created_at a)
           (rows ++ rest)
      /\ (0 <= TextClient.default_limit limit ->
          List.length rows
          = Nat.min (Z.to_nat (TextClient.default_limit limit))
                    (List.length (Db.entities db)))
      /\ (TextClient.default_limit limit < 0 -> rest = [])
      /\ TextClient.default_limit limit
         = match limit with Some l => l | None => 10 end.
Proof.
  intros limit db. rewrite get_recent_entities_run.
  unfold Sql.select_recent.
  destruct (Z.ltb_spec (TextClient.default_limit limit) 0) as [N|N].
  - exists (Sql.by_recency (Db.entities db)), [].
    rewrite app_nil_r. split; [reflexivity|].
    split; [apply by_recency_perm|]. split; [apply by_recency_sorted|].
    split; [lia|]. split; reflexivity.
  - exists (firstn (Z.to_nat (TextClient.default_limit limit))
                   (Sql.by_recency (Db.entities db))),
           (skipn (Z.to_nat (TextClient.default_limit limit))
                  (Sql.by_recency (Db.entities db))).
    rewrite firstn_skipn. split; [reflexivity|].
    split; [apply by_recency_perm|]. split; [apply by_recency_sorted|].
    split.
    + intros _. rewrite length_firstn.
      rewrite (Permutation_length (by_recency_perm (Db.entities db))).
      reflexivity.
    + split; [lia|reflexivity].
Qed.

(** X18. [read_graph] returns the ten most recent entities, or all of them
    when they are fewer, latest first, and with them exactly the stored
    relations that have one of these entities as source or as target. *)
Theorem read_graph_returns_the_ten_latest :
  forall db : Db.database,
    exists g rows rest,
      TextClient.read_graph db = (Db.Ok g, db)
      /\ TextClient.entities g = map (Spec.entity_of_stored db) rows
      /\ Permutation (rows ++ rest) (Db.entities db)
      /\ StronglySorted
           (fun a b => Db.e_created_at b <= Db.e_created_at a)
           (rows ++ rest)
      /\ List.length rows = Nat.min 10 (List.length (Db.entities db))
      /\ (forall rel,
            In rel (TextClient.relations g)
            <-> Spec.touches_names db
                  (map TextClient.name (TextClient.entities g)) rel).
Proof.
  intros db.
  exists {| TextClient.entities :=
              map (Spec.entity_of_stored db)
                  (firstn 10 (Sql.by_recency (Db.entities db)));
            TextClient.relations :=
              map Spec.relation_of_row
                  (Sql.select_relations_touching
                     (map TextClient.name
                          (map (Spec.entity_of_stored db)
                               (firstn 10 (Sql.by_recency
                                             (Db.entities db)))))
                     db) |},
         (firstn 10 (Sql.by_recency (Db.entities db))),
         (skipn 10 (Sql.by_recency (Db.entities db))).
  rewrite firstn_skipn. split; [|split; [reflexivity|]].
  - unfold TextClient.read_graph, Db.bind.
    rewrite get_recent_entities_run, get_relations_for_entities_run.
    reflexivity.
  - split; [apply by_recency_perm|]. split; [apply by_recency_sorted|].
    split.
    + rewrite length_firstn.
      rewrite (Permutation_length (by_recency_perm (Db.entities db))).
      reflexivity.
    + intros rel. apply select_relations_touching_in.
Qed.

(** ** An entity with its neighbourhood *)

Lemma set_add_in (x y : string) (set : list string) :
  In y (Js.set_add x set) <-> y = x \/ In y set.
Proof.
  unfold Js.set_add. destruct (existsb (String.eqb x) set) eqn:E.
  - apply existsb_eqb_in in E. split; [auto|]. intros [->|H]; assumption.
  - rewrite in_app_iff. simpl. intuition congruence.
Qed.

Lemma set_add_NoDup (x : string) (set : list string) :
  NoDup set -> NoDup (Js.set_add x set).
Proof.
  intros N. unfold Js.set_add.
  destruct (existsb (String.eqb x) set) eqn:E; [exact N|].
  apply NoDup_snoc; [exact N|]. intros I.
  apply existsb_eqb_in in I. congruence.
Qed.

Lemma related_step_spec (n : string) (acc : list string)
  (rel : TextClient.Relation) :
  (NoDup acc ->
   NoDup (if negb (String.eqb (TextClient.to rel) n)
          then Js.set_add (TextClient.to rel)
                 (if negb (String.eqb (TextClient.from rel) n)
                  then Js.set_add (TextClient.from rel) acc else acc)
          else if negb (String.eqb (TextClient.from rel) n)
               then Js.set_add (TextClient.from rel) acc else acc))
  /\ (forall m,
        In m (if negb (String.eqb (TextClient.to rel) n)
              then Js.set_add (TextClient.to rel)
                     (if negb (String.eqb (TextClient.from rel) n)
                      then Js.set_add (TextClient.from rel) acc else acc)
              else if negb (String.eqb (TextClient.from rel) n)
                   then Js.set_add (TextClient.from rel) acc else acc)
        <-> In m acc
            \/ (m <> n
                /\ (TextClient.from rel = m \/ TextClient.to rel = m))).
Proof.
  destruct (String.eqb (TextClient.from rel) n) eqn:E1;
    destruct (String.eqb (TextClient.to rel) n) eqn:E2; cbn [negb];
    (split;
     [ intros N; repeat apply set_add_NoDup; exact N
     | intros m; rewrite ?set_add_in;
       repeat match goal with
              | H : String.eqb _ _ = true |- _ => apply String.eqb_eq in H
              | H : String.eqb _ _ = false |- _ => apply String.eqb_neq in H
              end;
       intuition congruence ]).
Qed.

Lemma related_names_spec (n : string) (rels : list TextClient.Relation) :
  NoDup (TextClient.related_names n rels)
  /\ (forall m,
        In m (TextClient.related_names n rels)
        <-> m <> n
            /\ exists rel, In rel rels
                           /\ (TextClient.from rel = m
                               \/ TextClient.to rel = m)).
Proof.
  unfold TextClient.related_names.
  assert (G : forall acc,
             NoDup acc ->
             NoDup (fold_left
                      (fun set rel =>
                         let set1 :=
                           if negb (String.eqb (TextClient.from rel) n)
                           then Js.set_add (TextClient.from rel) set
                           else set in
                         if negb (String.eqb (TextClient.to rel) n)
                         then Js.set_add (TextClient.to rel) set1
                         else set1) rels acc)
             /\ (forall m,
                   In m (fold_left
                           (fun set rel =>
                              let set1 :=
                                if negb (String.eqb (TextClient.from rel) n)
                                then Js.set_add (TextClient.from rel) set
                                else set in
                              if negb (String.eqb (TextClient.to rel) n)
                              then Js.set_add (TextClient.to rel) set1
                              else set1) rels acc)
                   <-> In m acc
                       \/ (m <> n
                           /\ exists rel, In rel rels
                                          /\ (TextClient.from rel = m
                                              \/ TextClient.to rel = m)))).
  { induction rels as [|rel rels IH]; intros acc N.
    - split; [exact N|]. intros m. simpl. split; [auto|].
      intros [H|(_ & x & [] & _)]. exact H.
    - cbn [fold_left]. cbv zeta.
      destruct (related_step_spec n acc rel) as [N1 I1].
      destruct (IH _ (N1 N)) as [Nf If]. split; [exact Nf|].
      intros m. rewrite If, I1. split.
      + intros [[H|[D H]]|(D & x & Hx & H)]; auto.
        * right. split; [exact D|]. exists rel. split; [left; auto|exact H].
        * right. split; [exact D|]. exists x. split; [right; auto|exact H].
      + intros [H|(D & x & [<-|Hx] & H)]; auto.
        right. split; [exact D|]. exists x. auto. }
  destruct (G [] (NoDup_nil _)) as [N I]. split; [exact N|].
  intros m. rewrite I. simpl. tauto.
Qed.

Lemma get_entity_run (n : string) (db : Db.database) :
  TextClient.get_entity n db
  = match Sql.select_entity n db with
    | Some r => (Db.Ok (Spec.entity_of_stored db r), db)
    | None => (Db.Throw (Messages.entity_not_found n), db)
    end.
Proof.
  unfold TextClient.get_entity, Db.bind, Db.query.
  destruct (Sql.select_entity n db) as [r|] eqn:E; [|reflexivity].
  unfold Spec.entity_of_stored. rewrite (@select_entity_name n db r E).
  reflexivity.
Qed.

Lemma fetch_related_run (names : list string) (db : Db.database) :
  forall acc,
    TextClient.fetch_related names acc db
    = (Db.Ok (acc ++ flat_map
                       (fun m =>
                          match Sql.select_entity m db with
                          | Some r => [Spec.entity_of_stored db r]
                          | None => []
                          end) names)%list,
       db).
Proof.
  induction names as [|m names IH]; intros acc; simpl.
  - unfold Db.ret. rewrite app_nil_r. reflexivity.
  - unfold Db.bind, Db.attempt. rewrite get_entity_run.
    destruct (Sql.select_entity m db) as [r|].
    + rewrite IH, <- app_assoc. reflexivity.
    + rewrite IH. reflexivity.
Qed.

Lemma found_names (names : list string) (db : Db.database) :
  map TextClient.name
      (flat_map (fun m =>
                   match Sql.select_entity m db with
                   | Some r => [Spec.entity_of_stored db r]
                   | None => []
                   end) names)
  = filter (fun m => Sql.entity_exists m db) names.
Proof.
  induction names as [|m names IH]; simpl; [reflexivity|].
  rewrite select_entity_exists.
  destruct (Sql.select_entity m db) as [r|] eqn:E; simpl; [|exact IH].
  rewrite (@select_entity_name m db r E), IH. reflexivity.
Qed.

Lemma neighbour_related (db : Db.database) (n m : string) :
  (m <> n
   /\ exists rel,
        In rel (map Spec.relation_of_row
                    (Sql.select_relations_touching [n] db))
        /\ (TextClient.from rel = m \/ TextClient.to rel = m))
  <-> Spec.neighbour db n m.
Proof.
  unfold Spec.neighbour. split.
  - intros (D & rel & Hin & H). split; [exact D|].
    apply select_relations_touching_in in Hin.
    destruct Hin as [Hs Ht]. exists (Spec.row_of_relation rel).
    split; [exact Hs|]. simpl in *.
    destruct Ht as [[E|[]]|[E|[]]], H as [H|H]; try congruence; auto.
  - intros (D & r & Hin & H). split; [exact D|].
    exists (Spec.relation_of_row r). split.
    + apply select_relations_touching_in. unfold Spec.touches_names.
      rewrite relation_row_roundtrip. split; [exact Hin|]. simpl.
      destruct H as [[E _]|[_ E]]; auto.
    + simpl. destruct H as [[_ E]|[E _]]; auto.
Qed.

Lemma get_entity_with_relations_run (n : string) (db : Db.database)
  (r : Db.entity_row) :
  Sql.select_entity n db = Some r ->
  TextClient.get_entity_with_relations n db
  = (Db.Ok
       {| TextClient.Neighborhood.entity := Spec.entity_of_stored db r;
          TextClient.Neighborhood.relations :=
            map Spec.relation_of_row (Sql.select_relations_touching [n] db);
          TextClient.Neighborhood.relatedEntities :=
            flat_map
              (fun m =>
                 match Sql.select_entity m db with
                 | Some x => [Spec.entity_of_stored db x]
                 | None => []
                 end)
              (TextClient.related_names n
                 (map Spec.relation_of_row
                      (Sql.select_relations_touching [n] db))) |},
     db).
Proof.
  intros E. unfold TextClient.get_entity_with_relations, Db.bind.
  rewrite get_entity_run, E, get_relations_for_entities_run.
  rewrite fetch_related_run.
  cbn [map TextClient.name Spec.entity_of_stored app].
  rewrite (@select_entity_name n db r E). reflexivity.
Qed.

(** X19. [get_entity_with_relations] of a name that is not stored throws
    Not-Found.  For a stored name it returns the entity, exactly the
    stored relations in which the entity is source or target, and the
    related entities: each of them once, never the entity itself, and
    exactly the other ends of these relations that are stored entities;
    each is returned as [get_entity] returns it.  An end that is not
    stored is left out without an error. *)
Theorem get_entity_with_relations_returns_the_neighbourhood :
  forall (n : string) (db : Db.database),
    (Sql.select_entity n db = None ->
     TextClient.get_entity_with_relations n db
     = (Db.Throw (Messages.entity_not_found n), db))
    /\ (forall r,
          Sql.select_entity n db = Some r ->
          exists nb,
            TextClient.get_entity_with_relations n db = (Db.Ok nb, db)
            /\ TextClient.get_entity n db
               = (Db.Ok (TextClient.Neighborhood.entity nb), db)
            /\ (forall rel,
                  In rel (TextClient.Neighborhood.relations nb)
                  <-> Spec.touches_names db [n] rel)
            /\ NoDup (map TextClient.name
                          (TextClient.Neighborhood.relatedEntities nb))
            /\ (forall m,
                  In m (map TextClient.name
                            (TextClient.Neighborhood.relatedEntities nb))
                  <-> Spec.neighbour db n m
                      /\ Sql.entity_exists m db = true)
            /\ Forall (fun e =>
                         TextClient.get_entity (TextClient.name e) db
                         = (Db.Ok e, db))
                      (TextClient.Neighborhood.relatedEntities nb)).
Proof.
  intros n db. split.
  - intros E. unfold TextClient.get_entity_with_relations, Db.bind.
    rewrite get_entity_run, E. reflexivity.
  - intros r E. eexists.
    split; [apply (get_entity_with_relations_run n db r E)|].
    cbn [TextClient.Neighborhood.entity TextClient.Neighborhood.relations
         TextClient.Neighborhood.relatedEntities].
    destruct (related_names_spec n
                (map Spec.relation_of_row
                     (Sql.select_relations_touching [n] db))) as [N I].
    split; [rewrite get_entity_run, E; reflexivity|].
    split; [intros rel; apply select_relations_touching_in|].
    rewrite found_names. split; [apply NoDup_filter; exact N|]. split.
    + intros m. rewrite filter_In, I, neighbour_related. reflexivity.
    + apply Forall_forall. intros e He. apply in_flat_map in He.
      destruct He as (m & _ & He).
      destruct (Sql.select_entity m db) as [x|] eqn:X; [|destruct He].
      destruct He as [<-|[]]. simpl.
      rewrite get_entity_run.
      assert (Y : Sql.select_entity (Db.e_name x) db = Some x).
      { rewrite (@select_entity_name m db x X). exact X. }
      rewrite Y. reflexivity.
Qed.

(** Claude in the store of Claude, Anthropic and their relation, and a
    name that is not stored. *)
Lemma get_entity_with_relations_returns_the_neighbourhood_witness :
  TextClient.get_entity_with_relations "Nobody" Sample.graph
  = (Db.Throw (Messages.entity_not_found "Nobody"), Sample.graph)
  /\ map TextClient.name
         (match fst (TextClient.get_entity_with_relations "Claude"
                       Sample.graph) with
          | Db.Ok nb => TextClient.Neighborhood.relatedEntities nb
          | Db.Throw _ => []
          end) = ["Anthropic"].
Proof.
  split; [|reflexivity].
  apply (proj1 (get_entity_with_relations_returns_the_neighbourhood
                  "Nobody" Sample.graph)).
  reflexivity.
Defined.

(** X20. In a state without dangling references, so in every state reached
    from the tables of [initialize], [get_entity_with_relations] skips no
    neighbour: the names of the related entities are the other ends of
    the relations of the entity, all of them. *)
Theorem get_entity_with_relations_skips_no_neighbour :
  forall (n : string) (db : Db.database) (r : Db.entity_row),
    Spec.referential db ->
    Sql.select_entity n db = Some r ->
    exists nb,
      TextClient.get_entity_with_relations n db = (Db.Ok nb, db)
      /\ map TextClient.name (TextClient.Neighborhood.relatedEntities nb)
         = TextClient.related_names n (TextClient.Neighborhood.relations nb)
      /\ (forall m,
            In m (map TextClient.name
                      (TextClient.Neighborhood.relatedEntities nb))
            <-> Spec.neighbour db n m).
Proof.
  intros n db r [_ R] E. eexists.
  split; [apply (get_entity_with_relations_run n db r E)|].
  cbn [TextClient.Neighborhood.relations
       TextClient.Neighborhood.relatedEntities].
  destruct (related_names_spec n
              (map Spec.relation_of_row
                   (Sql.select_relations_touching [n] db))) as [N I].
  rewrite found_names.
  assert (A : forall m,
             In m (TextClient.related_names n
                     (map Spec.relation_of_row
                          (Sql.select_relations_touching [n] db))) ->
             Sql.entity_exists m db = true).
  { intros m Hm. apply I in Hm. apply neighbour_related in Hm.
    destruct Hm as (_ & x & Hx & H). rewrite Forall_forall in R.
    destruct (R x Hx) as [R1 R2].
    destruct H as [[_ <-]|[<- _]]; assumption. }
  assert (F : forall l,
             (forall m, In m l -> Sql.entity_exists m db = true) ->
             filter (fun m => Sql.entity_exists m db) l = l).
  { induction l as [|x l IH]; intros H; simpl; [reflexivity|].
    rewrite (H x (or_introl eq_refl)). f_equal.
    apply IH. intros m Hm. apply H. right. exact Hm. }
  rewrite (F _ A). split; [reflexivity|].
  intros m. rewrite I. apply neighbour_related.
Qed.

(** Claude in the store of Claude, Anthropic and their relation. *)
Lemma get_entity_with_relations_skips_no_neighbour_witness :
  exists nb,
    TextClient.get_entity_with_relations "Claude" Sample.graph
    = (Db.Ok nb, Sample.graph)
    /\ map TextClient.name (TextClient.Neighborhood.relatedEntities nb)
       = TextClient.related_names "Claude"
           (TextClient.Neighborhood.relations nb)
    /\ (forall m,
          In m (map TextClient.name
                    (TextClient.Neighborhood.relatedEntities nb))
          <-> Spec.neighbour Sample.graph "Claude" m).
Proof.
  apply (get_entity_with_relations_skips_no_neighbour
           "Claude" Sample.graph
           {| Db.e_rowid := 1; Db.e_name := "Claude";
              Db.e_entity_type := "AI Assistant"; Db.e_created_at := 5 |}).
  - split; repeat constructor.
  - reflexivity.
Defined.

(** ** Embeddings *)

Lemma upserted_rowid (now : Z) (n ty : string) (db : Db.database) :
  exists r',
    find (Sql.named n) (Spec.upserted_rows now n ty db) = Some r'
    /\ Db.e_rowid r' = Spec.rowid_after_upsert n db.
Proof.
  unfold Spec.upserted_rows, Spec.rowid_after_upsert.
  destruct (Sql.select_entity n db) as [r|] eqn:E; unfold Sql.select_entity in E.
  - rewrite (@find_retyped n n ty (Db.entities db)), E. simpl.
    eexists. split; [reflexivity|].
    unfold Spec.retyped. destruct (Sql.named n r); reflexivity.
  - rewrite find_appended, E. unfold Sql.named at 1. simpl.
    rewrite String.eqb_refl. eexists. split; reflexivity.
Qed.

Lemma has_vec_find (i : Z) (db : Db.database) :
  Spec.has_vec i db
  = match find (SqlVec.at_rowid (Some i)) (Db.entities_vec db) with
    | Some _ => true
    | None => false
    end.
Proof.
  unfold Spec.has_vec.
  induction (Db.entities_vec db) as [|v l IH]; simpl; [reflexivity|].
  destruct (Db.v_rowid v =? i); simpl; [reflexivity|exact IH].
Qed.

Lemma upsert_entity_with_embedding (now : Z) (e : VecClient.Entity)
  (db : Db.database) (numbers : list float) :
  Spec.rejection e = None ->
  VecClient.embedding e = Some numbers ->
  VecClient.upsert_entity now e db
  = (Db.Ok tt,
     {| Db.entities :=
          Spec.upserted_rows now (VecClient.name e)
                             (VecClient.entityType e) db;
        Db.observations :=
          Spec.replaced_observations (VecClient.name e)
                                     (VecClient.observations e) db;
        Db.relations := Db.relations db;
        Db.entities_vec :=
          if Spec.has_vec (Spec.rowid_after_upsert (VecClient.name e) db) db
          then map (fun v =>
                      if Db.v_rowid v
                         =? Spec.rowid_after_upsert (VecClient.name e) db
                      then {| Db.v_rowid := Db.v_rowid v;
                              Db.v_embedding := Spec.stored_vector numbers |}
                      else v) (Db.entities_vec db)
          else Db.entities_vec db
               ++ [{| Db.v_rowid := Db.vec_sequence db + 1;
                      Db.v_embedding := Spec.stored_vector numbers |}];
        Db.vec_sequence :=
          if Spec.has_vec (Spec.rowid_after_upsert (VecClient.name e) db) db
          then Db.vec_sequence db else Db.vec_sequence db + 1 |}).
Proof.
  unfold Spec.rejection. intros H Hemb.
  destruct (Spec.validation_error _ _ _) eqn:V; [discriminate|].
  apply validation_error_none in V. destruct V as (Hn & Ht & Ho & Hall).
  rewrite Hemb in H.
  destruct (Datatypes.length numbers =? VecClient.VECTOR_DIMENSIONS)%nat eqn:L;
    [|discriminate].
  unfold VecClient.upsert_entity, Db.bind.
  rewrite !is_empty_blank, Hn, Ht, Ho, Hall. simpl negb. cbv beta iota.
  unfold Db.ret at 1 2 3 4. cbv beta iota. unfold Db.query at 1.
  cbv beta iota. rewrite Hemb.
  unfold VecClient.vector_to_buffer. rewrite L. cbn [negb]. cbv zeta.
  fold (Spec.stored_vector numbers).
  pose proof (upserted_rows_exists now (VecClient.name e)
                (VecClient.entityType e) db) as Hex.
  destruct (upserted_rowid now (VecClient.name e) (VecClient.entityType e) db)
    as (r' & Hf & Hi).
  rewrite has_vec_find, <- Hi.
  unfold Spec.upserted_rows, Spec.replaced_observations, Spec.retyped in *.
  destruct (Sql.select_entity (VecClient.name e) db) as [r|] eqn:E;
    [ unfold Sql.update_entity_type, Db.exec
    | unfold Sql.insert_entity; rewrite select_entity_exists, E ];
    unfold Db.ret, Db.query, SqlVec.select_vec_rowid, SqlVec.rowid_of_entity,
      Sql.select_entity;
    cbn [Db.entities Db.observations Db.relations Db.entities_vec
         Db.vec_sequence];
    rewrite Hf; cbn [option_map];
    (destruct (find (SqlVec.at_rowid (Some (Db.e_rowid r')))
                    (Db.entities_vec db)) as [v0|] eqn:F;
     cbn [option_map];
     unfold SqlVec.update_vec, SqlVec.insert_vec, Db.exec,
       SqlVec.rowid_of_entity, Sql.select_entity, Sql.delete_observations;
     cbn [Db.entities Db.observations Db.relations Db.entities_vec
          Db.vec_sequence];
     rewrite ?Hf; cbn [option_map]; unfold Db.exec;
     cbn [Db.entities Db.observations Db.relations Db.entities_vec
          Db.vec_sequence];
     (rewrite insert_observations_run by exact Hex);
     cbn [Db.entities Db.observations Db.relations Db.entities_vec
          Db.vec_sequence];
     reflexivity).
Qed.

Lemma find_updated_vec (i : Z) (buffer : list float) (l : list Db.vec_row) :
  find (SqlVec.at_rowid (Some i))
       (map (fun v => if Db.v_rowid v =? i
                      then {| Db.v_rowid := Db.v_rowid v;
                              Db.v_embedding := buffer |}
                      else v) l)
  = option_map (fun v => {| Db.v_rowid := Db.v_rowid v;
                            Db.v_embedding := buffer |})
               (find (SqlVec.at_rowid (Some i)) l).
Proof.
  induction l as [|v l IH]; simpl; [reflexivity|].
  destruct (Db.v_rowid v =? i) eqn:E; simpl; rewrite E; [reflexivity|exact IH].
Qed.

(** X21. In the client with embeddings, creating one accepted entity with
    an embedding succeeds, and [get_entity] then returns the entity with
    its new type and observations; it returns the embedding (sanitized and
    rounded to binary32) exactly when [entities_vec] already had a row at
    the rowid of the entity, or when the next rowid of [entities_vec]
    happens to be the rowid of the entity. Otherwise the entity is
    returned without an embedding. *)
Theorem get_entity_returns_embedding_on_matching_rowid
  (now : Z) (e : VecClient.Entity) (db : Db.database) (numbers : list float) :
  Spec.rejection e = None ->
  VecClient.embedding e = Some numbers ->
  exists db',
    VecClient.create_entities now [e] db = (Db.Ok tt, db')
    /\ fst (VecClient.get_entity (VecClient.name e) db')
       = Db.Ok {| VecClient.name := VecClient.name e;
                  VecClient.entityType := VecClient.entityType e;
                  VecClient.observations := VecClient.observations e;
                  VecClient.embedding :=
                    if Spec.has_vec
                         (Spec.rowid_after_upsert (VecClient.name e) db) db
                       || (Db.vec_sequence db + 1
                           =? Spec.rowid_after_upsert (VecClient.name e) db)
                    then Some (Spec.stored_vector numbers)
                    else None |}.
Proof.
  intros R Hemb.
  unfold VecClient.create_entities, Db.rethrow, Db.transaction.
  cbn [Db.for_each]. unfold Db.bind at 1.
  rewrite (upsert_entity_with_embedding now e db numbers R Hemb).
  unfold Db.ret at 1. eexists. split; [reflexivity|].
  set (i := Spec.rowid_after_upsert (VecClient.name e) db).
  match goal with
  | |- fst (VecClient.get_entity _ ?d) = _ => set (db' := d)
  end.
  destruct (upserted_rowid now (VecClient.name e) (VecClient.entityType e) db)
    as (r' & Hf & Hi). fold i in Hi.
  destruct (@select_entity_upserted now (VecClient.name e)
              (VecClient.entityType e) db db' eq_refl)
    as (r & Hr & Hname & Hty).
  assert (r = r') as ->.
  { unfold Sql.select_entity in Hr. subst db'.
    cbn [Db.entities] in Hr. congruence. }
  unfold VecClient.get_entity, Db.bind, Db.query. rewrite Hr.
  unfold Db.ret. cbn [fst]. rewrite Hname, Hty.
  rewrite (@select_observations_replaced (VecClient.name e)
             (VecClient.observations e) db db' (VecClient.name e) eq_refl).
  rewrite String.eqb_refl.
  do 2 f_equal.
  unfold SqlVec.select_embedding, SqlVec.rowid_of_entity. rewrite Hr.
  cbn [option_map]. rewrite Hi. subst db'. cbn [Db.entities_vec].
  rewrite has_vec_find.
  destruct (find (SqlVec.at_rowid (Some i)) (Db.entities_vec db))
    as [v0|] eqn:F.
  - cbn [orb]. rewrite find_updated_vec, F. reflexivity.
  - cbn [orb]. rewrite find_appended, F.
    unfold SqlVec.at_rowid at 1. cbn [Db.v_rowid].
    destruct (Db.vec_sequence db + 1 =? i); reflexivity.
Qed.

Lemma get_entity_returns_embedding_on_matching_rowid_witness :
  Spec.rejection Sample.embedded = None
  /\ VecClient.embedding Sample.embedded = Some Sample.ones
  /\ exists db',
       VecClient.create_entities 5 [Sample.embedded] Db.empty = (Db.Ok tt, db')
       /\ fst (VecClient.get_entity (VecClient.name Sample.embedded) db')
          = Db.Ok {| VecClient.name := VecClient.name Sample.embedded;
                     VecClient.entityType :=
                       VecClient.entityType Sample.embedded;
                     VecClient.observations :=
                       VecClient.observations Sample.embedded;
                     VecClient.embedding :=
                       if Spec.has_vec
                            (Spec.rowid_after_upsert
                               (VecClient.name Sample.embedded) Db.empty)
                            Db.empty
                          || (Db.vec_sequence Db.empty + 1
                              =? Spec.rowid_after_upsert
                                   (VecClient.name Sample.embedded) Db.empty)
                       then Some (Spec.stored_vector Sample.ones)
                       else None |}.
Proof.
  assert (R : Spec.rejection Sample.embedded = None)
    by (vm_compute; reflexivity).
  split; [exact R|]. split; [reflexivity|].
  exact (get_entity_returns_embedding_on_matching_rowid
           5 Sample.embedded Db.empty Sample.ones R eq_refl).
Defined.

(** ** The writing tools *)

(** X22. Each of the four writing tools answers in every case. Its answer
    either is not marked as an error, or is marked [isError] and then the
    database is exactly the one before the call and the text is the JSON
    error object whose message begins with the context of the client
    function. *)
Theorem writing_tool_error_leaves_the_store :
  forall (c : Spec.tool_call) (db : Db.database),
    Server.isError (fst (Spec.answer c db)) = false
    \/ (Server.isError (fst (Spec.answer c db)) = true
        /\ snd (Spec.answer c db) = db
        /\ exists m,
             Server.text (fst (Spec.answer c db))
             = Server.error_text (Spec.context_of c ++ m)).
Proof.
  intros [now entities|relations|n|s t ty] db; simpl.
  - unfold Server.create_entities_tool, Server.respond, Db.bind.
    rewrite text_create_as_vec.
    destruct (@create_entities_cases now (map Spec.without_embedding entities)
                db)
      as [[_ (db' & _ & E)]|(e & m & _ & _ & E)]; rewrite E.
    + left. reflexivity.
    + right. simpl. eauto.
  - unfold Server.create_relations_tool, Server.respond, Db.bind.
    rewrite text_create_relations_as_vec, @create_relations_unfold.
    destruct (Spec.relations_loop _ db) as [[[]|m] d].
    + left. reflexivity.
    + right. simpl. eauto.
  - unfold Server.delete_entity_tool, Server.respond, Db.bind.
    destruct (Sql.entity_exists n db) eqn:E.
    + rewrite (@text_delete_entity_found n db E). left. reflexivity.
    + rewrite (proj1 (@delete_entity_missing n db E)). right. simpl. eauto.
  - unfold Server.delete_relation_tool, Server.respond, Db.bind.
    rewrite text_delete_relation_as_vec, delete_relation_run.
    destruct (_ =? 0)%nat.
    + right. simpl. eauto.
    + left. reflexivity.
Qed.

(** X23. The [create_relations] tool counts its arguments, not the rows it
    stores: when every triple of the call is already stored, the tool
    answers "Created N relations" with N the number of arguments, without
    [isError], and the database is unchanged. *)
Theorem create_relations_tool_counts_its_arguments
  (relations : list Server.RelationArgument) (db : Db.database) :
  Forall (fun r => (1 <= Spec.stored_count (Server.source r) (Server.target r)
                                           (Server.type r) db)%nat)
         relations ->
  Server.create_relations_tool relations db
  = ({| Server.text := "Created "
                       ++ Js.string_of_nat (List.length relations)
                       ++ " relations";
        Server.isError := false |}, db).
Proof.
  intros H.
  unfold Server.create_relations_tool, Server.respond, Db.bind.
  rewrite text_create_relations_as_vec.
  rewrite (@create_relations_stored _ db).
  - reflexivity.
  - rewrite map_map. apply Forall_map.
    eapply Forall_impl; [|exact H]. intros r Hr. exact Hr.
Qed.

Lemma create_relations_tool_counts_its_arguments_witness :
  Server.create_relations_tool
    [{| Server.source := "Claude"; Server.target := "Anthropic";
        Server.type := "created_by" |};
     {| Server.source := "Claude"; Server.target := "Anthropic";
        Server.type := "created_by" |}] Sample.graph
  = ({| Server.text := "Created 2 relations"; Server.isError := false |},
     Sample.graph).
Proof.
  apply (create_relations_tool_counts_its_arguments
           [{| Server.source := "Claude"; Server.target := "Anthropic";
               Server.type := "created_by" |};
            {| Server.source := "Claude"; Server.target := "Anthropic";
               Server.type := "created_by" |}] Sample.graph).
  repeat constructor.
Defined.
